(** * todo_backend: the service layer over its relational store

    A shallow embedding of the task-management backend: the Sequelize model
    definitions of [src/model], the associations of
    [src/configuration/Database.js], the service classes
    ([TaskService], [TagService], [CategoryService], [SessionService],
    [UserService], [NotificationService]), the view projections, the
    [Messages] envelope and the passport local strategy.

    JavaScript objects are finite maps from property names to values; a
    property that is [undefined] is a key that is absent.  A table is the
    list of its rows in insertion order.  An [async] function is a state
    transformer over the store that resolves or rejects; the time it reads
    with [new Date()] is its argument [now]. *)

From stdpp Require Import base strings gmap list option fin_maps infinite pretty.
From Stdlib Require Import Ascii.

Set Warnings "-register-all".
Open Scope string_scope.

(** ** JavaScript values

    Every column of every model is a UUID, a STRING, a TEXT, a DATE or an
    ENUM, which JSON carries as strings: the scalars are the strings and
    [null]. *)

Inductive Value : Type :=
  | VNull
  | VStr (s : string)
  | VObj (o : gmap string Value)
  | VArr (l : list Value).

(** A JavaScript object. [o !! "k"] is [o.k]; [None] is [undefined]. *)
Abbreviation Object := (gmap string Value).

(** [if (v)]: [undefined], [null] and the empty string are falsy. *)
Definition truthy (v : option Value) : bool :=
  match v with
  | None | Some VNull => false
  | Some (VStr s) => negb (String.eqb s "")
  | Some (VObj _) | Some (VArr _) => true
  end.

(** String conversion, as a template literal performs it. *)
Fixpoint toString (v : Value) : string :=
  match v with
  | VNull => "null"
  | VStr s => s
  | VObj _ => "[object Object]"
  | VArr l =>
      String.concat ","
        (List.map (fun x => match x with VNull => "" | _ => toString x end) l)
  end.

Definition interpolate (v : option Value) : string :=
  match v with
  | None => "undefined"
  | Some x => toString x
  end.

(** [o.k === s] for a string [s]. *)
Definition prop_is (k s : string) (o : Object) : bool :=
  match o !! k with
  | Some (VStr s') => String.eqb s' s
  | _ => false
  end.

(** [v?.k] *)
Definition property (k : string) (v : option Value) : option Value :=
  match v with
  | Some (VObj o) => o !! k
  | _ => None
  end.

(** [{ ...o, k: v }] where [v] may be [undefined]. *)
Definition set_prop (k : string) (v : option Value) (o : Object) : Object :=
  match v with
  | Some x => <[k := x]> o
  | None => delete k o
  end.

(** The elements of an array of objects, e.g. [task.SubTasks]. *)
Definition objects_of (v : option Value) : list Object :=
  match v with
  | Some (VArr l) =>
      omap (fun x => match x with VObj o => Some o | _ => None end) l
  | _ => []
  end.

(** ** Errors and promises *)

(** What the store refuses. *)
Inductive DBError :=
  | NotNullViolation (table attribute : string)
  | ValidationFailed (table attribute : string)
  | UniqueConstraintError (table attribute : string).

(** What the repository imports and does not define. *)
Record Library := {
  (** validator.js [isEmail], behind Sequelize's [isEmail: true] *)
  isEmail : string -> bool;
  (** [bcrypt.compare(data, encrypted)] *)
  bcrypt_compare : string -> string -> bool;
  (** the text Sequelize puts in [error.message] *)
  sequelize_message : DBError -> string
}.

(** A thrown value; only [message] is ever read. *)
Record JSError := Error { message : string }.

(** Mutating statements sent to the database, in the order they are sent. *)
Inductive Query :=
  | INSERT (table key : string)
  | UPDATE (table key : string)
  | DELETE (table key : string).

Record Store := {
  tables : gmap string (list Object);
  journal : list Query
}.

Definition table (name : string) (s : Store) : list Object :=
  default [] (tables s !! name).

Definition set_table (name : string) (rows : list Object) (s : Store) : Store :=
  {| tables := <[name := rows]> (tables s); journal := journal s |}.

Definition log (q : Query) (s : Store) : Store :=
  {| tables := tables s; journal := journal s ++ [q] |}.

Definition empty_store : Store := {| tables := ∅; journal := [] |}.

Inductive Outcome (A : Type) :=
  | Resolved (a : A)
  | Rejected (e : JSError).
Arguments Resolved {A} a.
Arguments Rejected {A} e.

Definition is_resolved {A} (o : Outcome A) : bool :=
  match o with
  | Resolved _ => true
  | Rejected _ => false
  end.

(** The value a promise resolved to ([d] if it rejected), and the error it
    rejected with. *)
Definition value_of {A} (d : A) (o : Outcome A) : A :=
  match o with
  | Resolved a => a
  | Rejected _ => d
  end.

Definition error_of {A} (o : Outcome A) : JSError :=
  match o with
  | Resolved _ => Error ""
  | Rejected e => e
  end.

(** An [async] computation: the store after it, and how it settled.  The
    store is kept when the computation rejects: nothing is rolled back. *)
Definition Promise (A : Type) : Type := Store -> Store * Outcome A.

Definition resolve {A} (a : A) : Promise A := fun s => (s, Resolved a).
Definition throw {A} (e : JSError) : Promise A := fun s => (s, Rejected e).

(** [const x = await p; k x] *)
Definition await {A B} (p : Promise A) (k : A -> Promise B) : Promise B :=
  fun s =>
    match p s with
    | (s', Resolved a) => k a s'
    | (s', Rejected e) => (s', Rejected e)
    end.

(** [try { body } catch (error) { handler error }] *)
Definition try_catch {A} (body : Promise A) (handler : JSError -> Promise A)
  : Promise A :=
  fun s =>
    match body s with
    | (s', Resolved a) => (s', Resolved a)
    | (s', Rejected e) => handler e s'
    end.

Notation "'let*' x ':=' p 'in' k" := (await p (fun x => k))
  (at level 10, x pattern, p at level 100, k at level 200).

(** [Promise.all(xs.map(f))]: [map] starts every [f x], in the order of the
    array, before anything is awaited, so each of them runs to its end
    whether or not another one rejects; the result rejects with the first
    rejection. *)
Fixpoint Promise_all {A} (ps : list (Promise A)) : Promise (list A) :=
  fun s =>
    match ps with
    | [] => (s, Resolved [])
    | p :: rest =>
        match p s with
        | (s1, Resolved a) =>
            match Promise_all rest s1 with
            | (s2, Resolved l) => (s2, Resolved (a :: l))
            | (s2, Rejected e) => (s2, Rejected e)
            end
        | (s1, Rejected e) => (fst (Promise_all rest s1), Rejected e)
        end
    end.

(** ** Sequelize: model definitions and the operations the services call

    The library is imported, not defined, by the repository; this is the
    part of its behaviour that the services rely on.  A row is checked
    against what its model declares: [allowNull], the values of an [ENUM],
    the [validate] rules, [primaryKey] and [unique].  [references] is
    recorded and not enforced: a database that enforces it refuses some of
    the calls that resolve here, and no other.  A row holds the values it was
    given; a column that was never given a value is absent from it, where
    the database reads [null] back, and a [DATE] is held as the string it
    was given, where Sequelize parses it.  [UUIDV4] draws an identifier
    that no row of the table has. *)

Module Sequelize.

Inductive DataType :=
  | UUID
  | STRING
  | TEXT
  | DATE
  | ENUM (values : list string).

Inductive Default :=
  | UUIDV4
  | NOW
  | Literal (s : string).

Inductive Validator :=
  | is_ (class : ascii -> bool)  (** [is: /^[class]+$/] *)
  | isEmail_
  | len (lo hi : nat).

Record Attribute := {
  type : DataType;
  primaryKey : bool;
  allowNull : bool;
  defaultValue : option Default;
  unique : bool;
  references : option (string * string);
  validate : list Validator;
  onUpdate : option Default
}.

(** A column with Sequelize's defaults for every option. *)
Definition column (t : DataType) : Attribute :=
  {| type := t; primaryKey := false; allowNull := true;
     defaultValue := None; unique := false; references := None;
     validate := []; onUpdate := None |}.

Definition with_primaryKey (a : Attribute) : Attribute :=
  {| type := type a; primaryKey := true; allowNull := allowNull a;
     defaultValue := defaultValue a; unique := unique a;
     references := references a; validate := validate a;
     onUpdate := onUpdate a |}.

Definition with_allowNull (b : bool) (a : Attribute) : Attribute :=
  {| type := type a; primaryKey := primaryKey a; allowNull := b;
     defaultValue := defaultValue a; unique := unique a;
     references := references a; validate := validate a;
     onUpdate := onUpdate a |}.

Definition with_defaultValue (d : Default) (a : Attribute) : Attribute :=
  {| type := type a; primaryKey := primaryKey a; allowNull := allowNull a;
     defaultValue := Some d; unique := unique a;
     references := references a; validate := validate a;
     onUpdate := onUpdate a |}.

Definition with_unique (a : Attribute) : Attribute :=
  {| type := type a; primaryKey := primaryKey a; allowNull := allowNull a;
     defaultValue := defaultValue a; unique := true;
     references := references a; validate := validate a;
     onUpdate := onUpdate a |}.

Definition with_references (model key : string) (a : Attribute) : Attribute :=
  {| type := type a; primaryKey := primaryKey a; allowNull := allowNull a;
     defaultValue := defaultValue a; unique := unique a;
     references := Some (model, key); validate := validate a;
     onUpdate := onUpdate a |}.

Definition with_validate (v : list Validator) (a : Attribute) : Attribute :=
  {| type := type a; primaryKey := primaryKey a; allowNull := allowNull a;
     defaultValue := defaultValue a; unique := unique a;
     references := references a; validate := v;
     onUpdate := onUpdate a |}.

Definition with_onUpdate (d : Default) (a : Attribute) : Attribute :=
  {| type := type a; primaryKey := primaryKey a; allowNull := allowNull a;
     defaultValue := defaultValue a; unique := unique a;
     references := references a; validate := validate a;
     onUpdate := Some d |}.

(** The two arguments of [sequelize.define]. *)
Record ModelDef := {
  tableName : string;
  attributes : list (string * Attribute)
}.

Definition attribute_names (M : ModelDef) : list string :=
  List.map fst (attributes M).

Definition primaryKeyAttribute (M : ModelDef) : string :=
  match List.find (fun p => primaryKey (snd p)) (attributes M) with
  | Some (name, _) => name
  | None => "id"
  end.

Definition rows (M : ModelDef) (s : Store) : list Object :=
  table (tableName M) s.

(** The row's primary key is [k]. *)
Definition pk_is (M : ModelDef) (k : string) (r : Object) : bool :=
  prop_is (primaryKeyAttribute M) k r.

(** The keys of [data] that are attributes of the model; the others are
    not persisted. *)
Definition restrict (M : ModelDef) (data : Object) : Object :=
  filter (fun kv => fst kv ∈ attribute_names M) data.

Definition eval_default (now uuid : string) (d : Default) : string :=
  match d with
  | UUIDV4 => uuid
  | NOW => now
  | Literal s => s
  end.

(** The declared [defaultValue]s, as an object. *)
Definition defaultValues (M : ModelDef) (now uuid : string) : Object :=
  list_to_map
    (omap (fun p => match defaultValue (snd p) with
                    | Some d => Some (fst p, VStr (eval_default now uuid d))
                    | None => None
                    end) (attributes M)).

(** The declared [onUpdate] values, as an object. *)
Definition onUpdateValues (M : ModelDef) (now : string) : Object :=
  list_to_map
    (omap (fun p => match onUpdate (snd p) with
                    | Some d => Some (fst p, VStr (eval_default now "" d))
                    | None => None
                    end) (attributes M)).

Fixpoint all_chars (p : ascii -> bool) (s : string) : bool :=
  match s with
  | EmptyString => true
  | String c rest => p c && all_chars p rest
  end.

(** The number of characters of a string, which is held as its UTF-8
    bytes: every byte but the continuation bytes [10xxxxxx] starts one.
    The [isLength] of validator.js, behind [len], counts a surrogate pair
    once, which makes its count the number of characters, and it leaves
    out the variation selectors U+FE0E and U+FE0F, in UTF-8 the bytes
    [EF B8 8E] and [EF B8 8F]. *)
Definition continuation (c : ascii) : bool :=
  let n := nat_of_ascii c in ((128 <=? n) && (n <? 192))%nat.

Fixpoint characters (s : string) : nat :=
  match s with
  | EmptyString => 0
  | String c rest => (if continuation c then 0 else 1) + characters rest
  end.

Definition selector (c : ascii) (rest : string) : bool :=
  match rest with
  | String c1 (String c2 _) =>
      ((nat_of_ascii c =? 239) && (nat_of_ascii c1 =? 184)
       && ((nat_of_ascii c2 =? 142) || (nat_of_ascii c2 =? 143)))%nat
  | _ => false
  end.

Fixpoint selectors (s : string) : nat :=
  match s with
  | EmptyString => 0
  | String c rest => (if selector c rest then 1 else 0) + selectors rest
  end.

Definition isLength (s : string) (lo hi : nat) : bool :=
  let n := characters s - selectors s in ((lo <=? n) && (n <=? hi))%nat.

(** The primary keys in use, and a [UUIDV4] draw: an identifier that no row
    of the table has. *)
Definition keys_in_use (M : ModelDef) (s : Store) : list string :=
  omap (fun r => match r !! primaryKeyAttribute M with
                 | Some (VStr k) => Some k
                 | _ => None
                 end) (rows M s).

Definition uuidv4 (M : ModelDef) (s : Store) : string :=
  fresh (keys_in_use M s).

Section WithLibrary.
Context (lib : Library).

Definition run_validator (v : Validator) (s : string) : bool :=
  match v with
  | is_ class => negb (String.eqb s "") && all_chars class s
  | isEmail_ => isEmail lib s
  | len lo hi => isLength s lo hi
  end.

Definition type_accepts (t : DataType) (s : string) : bool :=
  match t with
  | ENUM values => existsb (String.eqb s) values
  | _ => true
  end.

(** One attribute of a row against its declaration. *)
Definition check_attribute (M : ModelDef) (name : string) (a : Attribute)
    (r : Object) : option DBError :=
  match r !! name with
  | None | Some VNull =>
      if allowNull a then None
      else Some (NotNullViolation (tableName M) name)
  | Some (VStr s) =>
      if type_accepts (type a) s && forallb (fun v => run_validator v s) (validate a)
      then None
      else Some (ValidationFailed (tableName M) name)
  | Some _ => Some (ValidationFailed (tableName M) name)
  end.

(** The first violation among the given attributes, if any. *)
Fixpoint check_attributes (M : ModelDef) (attrs : list (string * Attribute))
    (r : Object) : option DBError :=
  match attrs with
  | [] => None
  | (name, a) :: rest =>
      match check_attribute M name a r with
      | Some e => Some e
      | None => check_attributes M rest r
      end
  end.

(** A [unique] or primary-key column of [r] whose value a row accepted
    by [others] already has. *)
Fixpoint check_unique (M : ModelDef) (attrs : list (string * Attribute))
    (others : list Object) (r : Object) : option DBError :=
  match attrs with
  | [] => None
  | (name, a) :: rest =>
      let clash :=
        match r !! name with
        | Some (VStr v) =>
            (primaryKey a || unique a) && existsb (prop_is name v) others
        | _ => false
        end in
      if clash then Some (UniqueConstraintError (tableName M) name)
      else check_unique M rest others r
  end.

Definition reject {A} (e : DBError) : Promise A :=
  throw (Error (sequelize_message lib e)).

Definition key_of (M : ModelDef) (r : Object) : string :=
  match r !! primaryKeyAttribute M with
  | Some (VStr k) => k
  | _ => ""
  end.

(** [Model.create(data)] *)
Definition create (M : ModelDef) (now : string) (data : Object)
  : Promise Object :=
  fun s =>
    let row := restrict M data ∪ defaultValues M now (uuidv4 M s) in
    match check_attributes M (attributes M) row with
    | Some e => reject e s
    | None =>
        match check_unique M (attributes M) (rows M s) row with
        | Some e => reject e s
        | None =>
            (log (INSERT (tableName M) (key_of M row))
                 (set_table (tableName M) (rows M s ++ [row]) s),
             Resolved row)
        end
    end.

(** [Model.findByPk(id)]: [null] when [id] is not a key. *)
Definition findByPk (M : ModelDef) (id : option Value) (s : Store)
  : option Object :=
  match id with
  | Some (VStr k) => List.find (pk_is M k) (rows M s)
  | _ => None
  end.

(** [Model.findAll({ where })] *)
Definition findAll (M : ModelDef) (where_ : Object -> bool) (s : Store)
  : list Object :=
  List.filter where_ (rows M s).

(** [Model.findOne({ where })] *)
Definition findOne (M : ModelDef) (where_ : Object -> bool) (s : Store)
  : option Object :=
  List.find where_ (rows M s).

(** The attributes of the model that [values] supplies. *)
Definition supplied (M : ModelDef) (values : Object)
  : list (string * Attribute) :=
  List.filter (fun p => bool_decide (is_Some (values !! fst p))) (attributes M).

(** The row after [SET values]. *)
Definition write (M : ModelDef) (now : string) (values r : Object) : Object :=
  onUpdateValues M now ∪ restrict M values ∪ r.

(** [Model.update(values, { where: { pk: key } })]: validates the
    supplied values, then rewrites every row the condition selects and
    resolves to their number. *)
Definition update (M : ModelDef) (now : string) (values : Object)
    (key : option Value) : Promise nat :=
  fun s =>
    let selected r :=
      match key with
      | Some (VStr k) => pk_is M k r
      | _ => false
      end in
    match check_attributes M (supplied M values) values with
    | Some e => reject e s
    | None =>
        match check_unique M (supplied M values)
                (List.filter (fun r => negb (selected r)) (rows M s))
                values with
        | Some e => reject e s
        | None =>
            (log (UPDATE (tableName M) (interpolate key))
               (set_table (tableName M)
                  (List.map (fun r => if selected r
                                      then write M now values r else r)
                            (rows M s)) s),
             Resolved (length (List.filter selected (rows M s))))
        end
    end.

(** [instance.update(values)]: the primary key of a persisted instance
    is not assignable; resolves to the instance with the new values.  The
    [UPDATE] is logged and [updatedAt] is set also when no value changes,
    where Sequelize sends no statement then. *)
Definition instance_update (M : ModelDef) (now : string)
    (instance values : Object) : Promise Object :=
  let values' := delete (primaryKeyAttribute M) values in
  let* _ := update M now values' (instance !! primaryKeyAttribute M) in
  resolve (write M now values' instance).

End WithLibrary.

(** [ON DELETE CASCADE] foreign keys: parent table, child table, column. *)
Definition Cascade : Type := string * string * string.

Definition cascade_from (parent : string) (key : string) (c : Cascade)
    (s : Store) : Store :=
  match c with
  | (p, child, fk) =>
      if String.eqb p parent
      then set_table child
             (List.filter (fun r => negb (prop_is fk key r)) (table child s)) s
      else s
  end.

(** [instance.destroy()]: deletes the rows with the instance's primary
    key; the database then deletes the rows that cascade from it. *)
Definition destroy (M : ModelDef) (cascades : list Cascade)
    (instance : Object) : Promise unit :=
  fun s =>
    match instance !! primaryKeyAttribute M with
    | Some (VStr k) =>
        let s1 :=
          set_table (tableName M)
            (List.filter (fun r => negb (pk_is M k r)) (rows M s)) s in
        (log (DELETE (tableName M) k)
             (fold_right (cascade_from (tableName M) k) s1 cascades),
         Resolved tt)
    | _ => (s, Resolved tt)
    end.

End Sequelize.

(** ** The models of [src/model] *)

Import Sequelize.

Definition letter (c : ascii) : bool :=
  let n := nat_of_ascii c in
  ((65 <=? n) && (n <=? 90) || (97 <=? n) && (n <=? 122))%nat.

Definition digit_or_dash (c : ascii) : bool :=
  let n := nat_of_ascii c in
  ((48 <=? n) && (n <=? 57) || (n =? 45))%nat.

Definition uuid_key : Attribute :=
  with_allowNull false (with_primaryKey (with_defaultValue UUIDV4 (column UUID))).

Definition createdAt_column : Attribute := with_defaultValue NOW (column DATE).

Definition updatedAt_column : Attribute :=
  with_onUpdate NOW (with_defaultValue NOW (column DATE)).

Definition WorkspaceModel : ModelDef :=
  {| tableName := "Workspaces";
     attributes :=
       [ ("workspaceID", uuid_key);
         ("name", with_allowNull false (column STRING));
         ("description", column TEXT);
         ("createdAt", createdAt_column);
         ("updatedAt", updatedAt_column) ] |}.

Definition CategoryModel : ModelDef :=
  {| tableName := "Categories";
     attributes :=
       [ ("categoryID", uuid_key);
         ("workspaceID", with_references "Workspaces" "workspaceID" (column UUID));
         ("name", with_allowNull false (column STRING));
         ("description", column TEXT);
         ("createdAt", createdAt_column);
         ("updatedAt", updatedAt_column) ] |}.

Definition NotificationModel : ModelDef :=
  {| tableName := "Notifications";
     attributes :=
       [ ("notificationID", uuid_key);
         ("taskID", with_references "Tasks" "taskID" (column UUID));
         ("userID", with_references "Users" "userID" (column UUID));
         ("sessionID", column UUID);  (** added by [Notification.belongsTo(Session)] *)
         ("content", with_allowNull false (column TEXT));
         ("type", with_defaultValue (Literal "Reminder")
                    (column (ENUM ["Invite"; "Announcement"; "Reminder"])));
         ("readStatus", with_defaultValue (Literal "Unread")
                          (column (ENUM ["Unread"; "Read"])));
         ("createdAt", createdAt_column);
         ("updatedAt", updatedAt_column) ] |}.

Definition UserModel : ModelDef :=
  {| tableName := "Users";
     attributes :=
       [ ("userID", uuid_key);
         ("firstName", with_validate [is_ letter]
                         (with_allowNull false (column STRING)));
         ("lastName", with_validate [is_ letter]
                        (with_allowNull false (column STRING)));
         ("phoneNumber", with_validate [is_ digit_or_dash] (column STRING));
         ("Email", with_validate [isEmail_]
                     (with_unique (with_allowNull false (column STRING))));
         ("Password", with_validate [len 8 100]
                        (with_allowNull false (column STRING)));
         ("createdAt", createdAt_column);
         ("updatedAt", updatedAt_column) ] |}.

Definition SubTaskModel : ModelDef :=
  {| tableName := "SubTasks";
     attributes :=
       [ ("subTaskID", uuid_key);
         ("taskID", with_references "Tasks" "taskID" (column UUID));
         ("title", with_allowNull false (column STRING));
         ("description", column TEXT);
         ("dueDate", column DATE);
         ("status", with_defaultValue (Literal "Pending")
                      (column (ENUM ["Pending"; "In Progress"; "Completed"])));
         ("priority", with_defaultValue (Literal "Medium")
                        (column (ENUM ["Low"; "Medium"; "High"])));
         ("createdAt", createdAt_column);
         ("updatedAt", updatedAt_column) ] |}.

Definition TaskModel : ModelDef :=
  {| tableName := "Tasks";
     attributes :=
       [ ("taskID", uuid_key);
         ("workspaceID", with_references "Workspaces" "workspaceID" (column UUID));
         ("categoryID", with_references "Categories" "categoryID" (column UUID));
         ("userID", with_references "Users" "userID" (column UUID));
         ("title", with_allowNull false (column STRING));
         ("description", column TEXT);
         ("dueDate", column DATE);
         ("status", with_defaultValue (Literal "Not Started")
                      (column (ENUM ["Not Started"; "In Progress"; "Completed"])));
         ("priority", with_defaultValue (Literal "Medium")
                        (column (ENUM ["Low"; "Medium"; "High"])));
         ("createdAt", createdAt_column);
         ("updatedAt", updatedAt_column) ] |}.

Definition TagModel : ModelDef :=
  {| tableName := "Tags";
     attributes :=
       [ ("tagID", uuid_key);
         ("workspaceID", with_references "Workspaces" "workspaceID" (column UUID));
         ("name", with_allowNull false (column STRING));
         ("createdAt", createdAt_column);
         ("updatedAt", updatedAt_column) ] |}.

Definition SessionModel : ModelDef :=
  {| tableName := "Sessions";
     attributes :=
       [ ("sessionID", uuid_key);
         ("userID", with_references "Users" "userID" (column UUID));
         ("workspaceID", column UUID);  (** added by [Session.belongsTo(Workspace)] *)
         ("loginTime", column DATE);
         ("logoutTime", column DATE);
         ("activities", column TEXT);
         ("createdAt", createdAt_column);
         ("updatedAt", updatedAt_column) ] |}.

Definition TaskTagModel : ModelDef :=
  {| tableName := "TaskTags";
     attributes :=
       [ ("taskID", with_references "Tasks" "taskID" (column UUID));
         ("tagID", with_references "Tags" "tagID" (column UUID)) ] |}.

(** ** [configuration/Database.js]: the associations the services read *)

Module Database.

(** [Task.hasMany(Notification, { foreignKey: "taskID", onDelete: "CASCADE" })]
    is the one [onDelete] rule the file declares.  The rules that Sequelize
    gives the other foreign keys by default are not part of this: of a
    delete, the statements speak of the table deleted from and of the
    notifications of a task. *)
Definition cascades : list Cascade :=
  [ ("Tasks", "Notifications", "taskID") ].

(** The associations the file declares, as source and target table. *)
Definition associations : list (string * string) :=
  [ ("Categories", "Tasks"); ("Tasks", "Categories");
    ("Tasks", "SubTasks"); ("SubTasks", "Tasks");
    ("Tasks", "Tags"); ("Tags", "Tasks");
    ("Tasks", "Notifications"); ("Notifications", "Tasks");
    ("Users", "Tasks"); ("Tasks", "Users");
    ("Workspaces", "Tasks"); ("Tasks", "Workspaces");
    ("Users", "Workspaces"); ("Workspaces", "Users");
    ("Users", "Notifications"); ("Notifications", "Users");
    ("Users", "Sessions"); ("Sessions", "Users");
    ("Workspaces", "Sessions"); ("Sessions", "Workspaces");
    ("Sessions", "Notifications"); ("Notifications", "Sessions") ].

Definition associated (Source Target : ModelDef) : bool :=
  existsb (fun p => String.eqb (fst p) (tableName Source)
                    && String.eqb (snd p) (tableName Target))
          associations.

(** A find of [Source] with [include: [{ model: Target }]]: Sequelize
    throws an [EagerLoadingError] when [Target] is not associated to
    [Source], before it reads anything. *)
Definition find_including {A} (Source Target : ModelDef) (found : Store -> A)
  : Promise A :=
  fun s =>
    if associated Source Target then (s, Resolved (found s))
    else (s, Rejected (Error (tableName Target ++ " is not associated to "
                              ++ tableName Source ++ "!"))).

(** The attributes an [include] selects. *)
Definition project (attrs : list string) (o : Object) : Object :=
  filter (fun kv => fst kv ∈ attrs) o.

(** [hasMany]: the rows of [Child] whose foreign key is the parent's
    primary key. *)
Definition hasMany (Parent Child : ModelDef) (foreignKey : string)
    (parent : Object) (s : Store) : list Object :=
  match parent !! primaryKeyAttribute Parent with
  | Some (VStr k) => List.filter (prop_is foreignKey k) (rows Child s)
  | _ => []
  end.

(** [belongsTo]: the row of [Target] the foreign key points to. *)
Definition belongsTo (Target : ModelDef) (foreignKey : string)
    (source : Object) (s : Store) : option Object :=
  match source !! foreignKey with
  | Some (VStr k) => List.find (pk_is Target k) (rows Target s)
  | _ => None
  end.

(** [Task.belongsToMany(Tag, { through: TaskTag, foreignKey: "taskID" })] *)
Definition Task_Tags (task : Object) (s : Store) : list Object :=
  match task !! "taskID" with
  | Some (VStr k) =>
      List.filter
        (fun tag =>
           match tag !! "tagID" with
           | Some (VStr g) =>
               existsb (fun j => prop_is "taskID" k j && prop_is "tagID" g j)
                       (rows TaskTagModel s)
           | _ => false
           end)
        (rows TagModel s)
  | _ => []
  end.

Definition Task_SubTasks (task : Object) (s : Store) : list Object :=
  hasMany TaskModel SubTaskModel "taskID" task s.

Definition Task_Notifications (task : Object) (s : Store) : list Object :=
  hasMany TaskModel NotificationModel "taskID" task s.

Definition Task_Category (task : Object) (s : Store) : option Object :=
  belongsTo CategoryModel "categoryID" task s.

Definition Session_User (session : Object) (s : Store) : option Object :=
  belongsTo UserModel "userID" session s.

Definition Session_Workspace (session : Object) (s : Store) : option Object :=
  belongsTo WorkspaceModel "workspaceID" session s.

Definition Session_Notifications (session : Object) (s : Store) : list Object :=
  hasMany SessionModel NotificationModel "sessionID" session s.

(** How an eager-loaded association appears on the instance. *)
Definition many (name : string) (attrs : option (list string))
    (children : list Object) (o : Object) : Object :=
  <[name :=
      VArr (List.map (fun c => VObj (match attrs with
                                     | Some a => project a c
                                     | None => c
                                     end)) children)]> o.

Definition one (name : string) (attrs : list string)
    (target : option Object) (o : Object) : Object :=
  <[name := match target with
            | Some t => VObj (project attrs t)
            | None => VNull
            end]> o.

End Database.

(** ** [utils/messages.js] *)

Module Messages.

(** [{ status: "success", timestamp: new Date().toISOString(), message }] *)
Definition success (now : string) (message : option Value) : Object :=
  <["status" := VStr "success"]>
    (<["timestamp" := VStr now]> (set_prop "message" message ∅)).

(** [{ status: "error", timestamp: new Date().toISOString(), message }] *)
Definition error (now : string) (message : option Value) : Object :=
  <["status" := VStr "error"]>
    (<["timestamp" := VStr now]> (set_prop "message" message ∅)).

End Messages.

(** [catch (error) { return Messages.error(error?.message); }] *)
Definition return_error (now : string) (error : JSError) : Promise Object :=
  resolve (Messages.error now (Some (VStr (message error)))).

(** ** [service/TaskService.js] *)

Module TaskService.
Import Database.

Section WithLibrary.
Context (lib : Library).

Definition subTask_attributes : list string :=
  ["subTaskID"; "title"; "status"; "dueDate"].
Definition notification_attributes : list string :=
  ["notificationID"; "content"; "createdAt"; "readStatus"].
Definition tag_attributes : list string := ["tagID"; "name"].
Definition category_attributes : list string := ["categoryID"; "name"].

(** [include: [SubTask, Notification, Tag, Category]] with their
    attribute lists. *)
Definition with_all (s : Store) (task : Object) : Object :=
  one "Category" category_attributes (Task_Category task s)
    (many "Tags" (Some tag_attributes) (Task_Tags task s)
       (many "Notifications" (Some notification_attributes)
             (Task_Notifications task s)
          (many "SubTasks" (Some subTask_attributes)
                (Task_SubTasks task s) task))).

Definition with_SubTasks_Notifications (s : Store) (task : Object) : Object :=
  many "Notifications" (Some notification_attributes)
       (Task_Notifications task s)
    (many "SubTasks" (Some subTask_attributes) (Task_SubTasks task s) task).

Definition findTaskByID (now : string) (taskID : option Value)
  : Promise Object :=
  try_catch
    (let* task := (fun s =>
         (s, Resolved (with_all s <$> findByPk TaskModel taskID s))) in
     match task with
     | None => throw (Error "Task not found")
     | Some task => resolve (Messages.success now (Some (VObj task)))
     end)
    (return_error now).

Definition findTasksByTitle (now : string) (taskTitle workspaceID : string)
  : Promise Object :=
  try_catch
    (let* tasks := (fun s =>
         (s, Resolved
               (List.map (with_all s)
                  (findAll TaskModel
                     (fun t => prop_is "title" taskTitle t
                               && prop_is "workspaceID" workspaceID t) s)))) in
     resolve (Messages.success now (Some (VArr (List.map VObj tasks)))))
    (return_error now).

(** The tags of the task that the [where] of the [Tag] include keeps. *)
Definition matching_tags (tagName workspaceID : string) (task : Object)
    (s : Store) : list Object :=
  List.filter
    (fun g => prop_is "name" tagName g && prop_is "workspaceID" workspaceID g)
    (Task_Tags task s).

(** The [where] sits on the included [Tag], which makes the join an
    inner one; there is no [where] on [Task] itself. *)
Definition findTasksByTag (now : string) (tagName workspaceID : string)
  : Promise Object :=
  try_catch
    (let* tasks := (fun s =>
         (s, Resolved
               (List.map
                  (fun t =>
                     many "Tags" (Some tag_attributes)
                          (matching_tags tagName workspaceID t s)
                          (with_SubTasks_Notifications s t))
                  (findAll TaskModel
                     (fun t =>
                        match matching_tags tagName workspaceID t s with
                        | [] => false
                        | _ :: _ => true
                        end) s)))) in
     resolve (Messages.success now (Some (VArr (List.map VObj tasks)))))
    (return_error now).

Definition findTasksByCategory (now : string)
    (categoryName workspaceID : string) : Promise Object :=
  try_catch
    (let* tasks := (fun s =>
         (s, Resolved
               (List.map
                  (fun t =>
                     one "Category" category_attributes (Task_Category t s)
                         (with_SubTasks_Notifications s t))
                  (findAll TaskModel
                     (fun t =>
                        prop_is "workspaceID" workspaceID t
                        && match Task_Category t s with
                           | Some c => prop_is "name" categoryName c
                           | None => false
                           end) s)))) in
     resolve (Messages.success now (Some (VArr (List.map VObj tasks)))))
    (return_error now).

Definition findAllTasks (now : string) (workspaceID : string)
  : Promise Object :=
  try_catch
    (let* tasks := (fun s =>
         (s, Resolved
               (List.map (with_all s)
                  (findAll TaskModel (prop_is "workspaceID" workspaceID) s)))) in
     resolve (Messages.success now (Some (VArr (List.map VObj tasks)))))
    (return_error now).

(** [SubTask.create({ ...subTask, taskID: task.taskID })] *)
Definition create_subTask (now : string) (task subTask : Object)
  : Promise Object :=
  create lib SubTaskModel now (set_prop "taskID" (task !! "taskID") subTask).

Definition saveTask (now : string) (taskData : Object)
    (subTasksData : list Object) : Promise Object :=
  try_catch
    (let* newTask := create lib TaskModel now taskData in
     let* subTasks :=
       Promise_all (List.map (create_subTask now newTask) subTasksData) in
     resolve (Messages.success now
                (Some (VObj (many "SubTasks" None subTasks newTask)))))
    (return_error now).

(** The callback of [updatedSubTasksData.map]. *)
Definition update_or_create (now : string) (taskToUpdate subTask : Object)
  : Promise unit :=
  if truthy (subTask !! "subTaskID") then
    let* _ := update lib SubTaskModel now subTask (subTask !! "subTaskID") in
    resolve tt
  else
    let* _ := create_subTask now taskToUpdate subTask in
    resolve tt.

Definition updateTask (now : string) (taskID : option Value)
    (updatedTaskData : Object) (updatedSubTasksData : list Object)
  : Promise Object :=
  try_catch
    (let* taskToUpdate := (fun s =>
         (s, Resolved
               ((fun t => many "SubTasks" None (Task_SubTasks t s) t)
                  <$> findByPk TaskModel taskID s))) in
     match taskToUpdate with
     | None => throw (Error "Task not found")
     | Some taskToUpdate =>
         let* taskToUpdate :=
           instance_update lib TaskModel now taskToUpdate updatedTaskData in
         let* _ :=
           Promise_all
             (List.map (update_or_create now taskToUpdate)
                       updatedSubTasksData) in
         resolve (Messages.success now (Some (VObj taskToUpdate)))
     end)
    (return_error now).

Definition deleteTask (now : string) (taskID : option Value)
  : Promise Object :=
  try_catch
    (let* taskToDelete := (fun s =>
         (s, Resolved
               ((fun t => many "SubTasks" None (Task_SubTasks t s) t)
                  <$> findByPk TaskModel taskID s))) in
     match taskToDelete with
     | None => throw (Error "Task not found")
     | Some taskToDelete =>
         let* _ :=
           Promise_all
             (List.map (destroy SubTaskModel cascades)
                       (objects_of (taskToDelete !! "SubTasks"))) in
         let* _ := destroy TaskModel cascades taskToDelete in
         resolve (Messages.success now (Some (VObj taskToDelete)))
     end)
    (return_error now).

End WithLibrary.
End TaskService.

(** ** [service/TagService.js] *)

Module TagService.
Import Database.

Section WithLibrary.
Context (lib : Library).

Definition workspace_attributes : list string :=
  ["workspaceID"; "name"; "description"].

Definition findTagByID (now : string) (tagID : option Value)
  : Promise Object :=
  try_catch
    (let* tag := (fun s => (s, Resolved (findByPk TagModel tagID s))) in
     match tag with
     | None => throw (Error "Tag not found")
     | Some tag => resolve (Messages.success now (Some (VObj tag)))
     end)
    (return_error now).

(** [findAll] resolves to an array, which is never falsy: the
    "Tag not found" branch is not reachable. *)
Definition findTagByName (now : string) (tagName workspaceID : string)
  : Promise Object :=
  try_catch
    (let* tag := (fun s =>
         (s, Resolved
               (findAll TagModel
                  (fun g => prop_is "name" tagName g
                            && prop_is "workspaceID" workspaceID g) s))) in
     resolve (Messages.success now (Some (VArr (List.map VObj tag)))))
    (return_error now).

(** [Database.js] associates no workspace to a tag. *)
Definition findAllTags (now : string) (workspaceID : string)
  : Promise Object :=
  try_catch
    (let* tags :=
       find_including TagModel WorkspaceModel (fun s =>
         List.map
           (fun g => one "Workspace" workspace_attributes
                         (belongsTo WorkspaceModel "workspaceID" g s) g)
           (findAll TagModel (prop_is "workspaceID" workspaceID) s)) in
     resolve (Messages.success now (Some (VArr (List.map VObj tags)))))
    (return_error now).

Definition saveTag (now : string) (tagData : Object) : Promise Object :=
  try_catch
    (let* newTag := create lib TagModel now tagData in
     resolve (Messages.success now (Some (VObj newTag))))
    (return_error now).

Definition updateTag (now : string) (tagID : option Value)
    (updatedTagData : Object) : Promise Object :=
  try_catch
    (let* tagToUpdate := (fun s => (s, Resolved (findByPk TagModel tagID s))) in
     match tagToUpdate with
     | None => throw (Error "Tag not found")
     | Some tagToUpdate =>
         let* tagToUpdate :=
           instance_update lib TagModel now tagToUpdate updatedTagData in
         resolve (Messages.success now (Some (VObj tagToUpdate)))
     end)
    (return_error now).

Definition deleteTag (now : string) (tagID : option Value) : Promise Object :=
  try_catch
    (let* tagToDelete := (fun s => (s, Resolved (findByPk TagModel tagID s))) in
     match tagToDelete with
     | None => throw (Error "Tag not found")
     | Some tagToDelete =>
         let* _ := destroy TagModel cascades tagToDelete in
         resolve (Messages.success now (Some (VObj tagToDelete)))
     end)
    (return_error now).

End WithLibrary.
End TagService.

(** ** [service/CategoryService.js] *)

Module CategoryService.
Import Database.

Section WithLibrary.
Context (lib : Library).

Definition workspace_attributes : list string :=
  ["workspaceID"; "name"; "description"].

Definition findCategoryByID (now : string) (categoryID : option Value)
  : Promise Object :=
  try_catch
    (let* category := (fun s =>
         (s, Resolved (findByPk CategoryModel categoryID s))) in
     match category with
     | None => throw (Error "Category not found")
     | Some category => resolve (Messages.success now (Some (VObj category)))
     end)
    (return_error now).

Definition findCategoryByName (now : string)
    (categoryName workspaceID : string) : Promise Object :=
  try_catch
    (let* category := (fun s =>
         (s, Resolved
               (findAll CategoryModel
                  (fun c => prop_is "name" categoryName c
                            && prop_is "workspaceID" workspaceID c) s))) in
     resolve (Messages.success now (Some (VArr (List.map VObj category)))))
    (return_error now).

(** [Database.js] associates no workspace to a category. *)
Definition findAllCategories (now : string) (workspaceID : string)
  : Promise Object :=
  try_catch
    (let* categories :=
       find_including CategoryModel WorkspaceModel (fun s =>
         List.map
           (fun c => one "Workspace" workspace_attributes
                         (belongsTo WorkspaceModel "workspaceID" c s) c)
           (findAll CategoryModel (prop_is "workspaceID" workspaceID) s)) in
     resolve (Messages.success now (Some (VArr (List.map VObj categories)))))
    (return_error now).

Definition saveCategory (now : string) (categoryData : Object)
  : Promise Object :=
  try_catch
    (let* newCategory := create lib CategoryModel now categoryData in
     resolve (Messages.success now (Some (VObj newCategory))))
    (return_error now).

Definition updateCategory (now : string) (categoryID : option Value)
    (updatedCategoryData : Object) : Promise Object :=
  try_catch
    (let* categoryToUpdate := (fun s =>
         (s, Resolved (findByPk CategoryModel categoryID s))) in
     match categoryToUpdate with
     | None => throw (Error "Category not found")
     | Some categoryToUpdate =>
         let* categoryToUpdate :=
           instance_update lib CategoryModel now categoryToUpdate
             updatedCategoryData in
         resolve (Messages.success now (Some (VObj categoryToUpdate)))
     end)
    (return_error now).

Definition deleteCategory (now : string) (categoryID : option Value)
  : Promise Object :=
  try_catch
    (let* categoryToDelete := (fun s =>
         (s, Resolved (findByPk CategoryModel categoryID s))) in
     match categoryToDelete with
     | None => throw (Error "Category not found")
     | Some categoryToDelete =>
         let* _ := destroy CategoryModel cascades categoryToDelete in
         resolve (Messages.success now (Some (VObj categoryToDelete)))
     end)
    (return_error now).

End WithLibrary.
End CategoryService.

(** ** [service/SessionService.js] *)

Module SessionService.
Import Database.

Section WithLibrary.
Context (lib : Library).

Definition user_attributes : list string :=
  ["userID"; "firstName"; "lastName"; "email"].
Definition workspace_attributes : list string :=
  ["workspaceID"; "name"; "description"].
Definition notification_attributes : list string :=
  ["notificationID"; "content"; "createdAt"; "readStatus"].

(** [include: [User, Workspace, Notification]] with their attribute lists. *)
Definition with_all (s : Store) (session : Object) : Object :=
  many "Notifications" (Some notification_attributes)
       (Session_Notifications session s)
    (one "Workspace" workspace_attributes (Session_Workspace session s)
       (one "User" user_attributes (Session_User session s) session)).

Definition findSessionByID (now : string) (sessionID : option Value)
  : Promise Object :=
  try_catch
    (let* session := (fun s =>
         (s, Resolved (with_all s <$> findByPk SessionModel sessionID s))) in
     match session with
     | None => throw (Error "Session not found")
     | Some session => resolve (Messages.success now (Some (VObj session)))
     end)
    (return_error now).

Definition findAllSessions (now : string) : Promise Object :=
  try_catch
    (let* sessions := (fun s =>
         (s, Resolved (List.map (with_all s)
                         (findAll SessionModel (fun _ => true) s)))) in
     resolve (Messages.success now (Some (VArr (List.map VObj sessions)))))
    (return_error now).

Definition saveSession (now : string) (sessionData : Object) : Promise Object :=
  try_catch
    (let* newSession := create lib SessionModel now sessionData in
     resolve (Messages.success now (Some (VObj newSession))))
    (return_error now).

Definition updateSession (now : string) (sessionID : option Value)
    (updatedSessionData : Object) : Promise Object :=
  try_catch
    (let* sessionToUpdate := (fun s =>
         (s, Resolved (findByPk SessionModel sessionID s))) in
     match sessionToUpdate with
     | None => throw (Error "Session not found")
     | Some sessionToUpdate =>
         let* sessionToUpdate :=
           instance_update lib SessionModel now sessionToUpdate
             updatedSessionData in
         resolve (Messages.success now (Some (VObj sessionToUpdate)))
     end)
    (return_error now).

Definition deleteSession (now : string) (sessionID : option Value)
  : Promise Object :=
  try_catch
    (let* sessionToDelete := (fun s =>
         (s, Resolved (findByPk SessionModel sessionID s))) in
     match sessionToDelete with
     | None => throw (Error "Session not found")
     | Some sessionToDelete =>
         let* _ := destroy SessionModel cascades sessionToDelete in
         resolve (Messages.success now (Some (VObj sessionToDelete)))
     end)
    (return_error now).

End WithLibrary.
End SessionService.

(** ** [views/UserViews.js] *)

Module UserEditView.

Definition toDTO (user : Object) : Object :=
  set_prop "firstName" (user !! "firstName")
    (set_prop "lastName" (user !! "lastName")
       (set_prop "email" (user !! "Email")
          (set_prop "phoneNumber" (user !! "phoneNumber")
             (set_prop "password" (user !! "Password")
                (set_prop "createdAt" (user !! "createdAt") ∅))))).

End UserEditView.

Module UserView.

(** [userId] reads [user.UserID]; the model's attribute is [userID]. *)
Definition toDTO (user : Object) : Object :=
  set_prop "userId" (user !! "UserID")
    (<["fullName" :=
         VStr (interpolate (user !! "firstName") ++ " "
               ++ interpolate (user !! "lastName"))]>
       (set_prop "email" (user !! "Email")
          (set_prop "phoneNumber" (user !! "phoneNumber")
             (set_prop "createdAt" (user !! "createdAt") ∅)))).

End UserView.

(** ** [service/UserService.js] *)

Module UserService.

Section WithLibrary.
Context (lib : Library).

(** The [Notification] include is loaded and then dropped by the view. *)
Definition findUserByID (now : string) (userID : option Value)
  : Promise Object :=
  try_catch
    (let* user := (fun s => (s, Resolved (findByPk UserModel userID s))) in
     match user with
     | None => throw (Error "User not found")
     | Some user =>
         resolve (Messages.success now (Some (VObj (UserView.toDTO user))))
     end)
    (return_error now).

(** [if (x) query.k = x]: the conditions of [query], in the order they
    are set. *)
Definition condition (k : string) (x : option string)
  : list (string * string) :=
  match x with
  | Some v => if truthy (Some (VStr v)) then [(k, v)] else []
  | None => []
  end.

Definition satisfies (query : list (string * string)) (r : Object) : bool :=
  forallb (fun c => prop_is (fst c) (snd c) r) query.

Definition searchUsersByName (now : string) (firstName lastName : option string)
  : Promise Object :=
  try_catch
    (let query := (condition "firstName" firstName
                   ++ condition "lastName" lastName)%list in
     match query with
     | [] => throw (Error "No search parameters provided")
     | _ :: _ =>
         let* users := (fun s =>
             (s, Resolved (findAll UserModel (satisfies query) s))) in
         match users with
         | [] => throw (Error "No users found matching the criteria")
         | _ :: _ =>
             resolve (Messages.success now
                        (Some (VArr (List.map (fun user =>
                                       VObj (UserView.toDTO user)) users))))
         end
     end)
    (return_error now).

Definition saveUser (now : string) (userData : Object) : Promise Object :=
  try_catch
    (let* newUser := create lib UserModel now userData in
     resolve (Messages.success now (Some (VObj (UserView.toDTO newUser)))))
    (return_error now).

Definition updateUser (now : string) (userID : option Value)
    (updatedUserData : Object) : Promise Object :=
  try_catch
    (let* userToUpdate := (fun s =>
         (s, Resolved (findByPk UserModel userID s))) in
     match userToUpdate with
     | None => throw (Error "User not found")
     | Some userToUpdate =>
         let* userToUpdate :=
           instance_update lib UserModel now userToUpdate updatedUserData in
         resolve (Messages.success now
                    (Some (VObj (UserEditView.toDTO userToUpdate))))
     end)
    (return_error now).

Definition deleteUser (now : string) (userID : option Value)
  : Promise Object :=
  try_catch
    (let* userToDelete := (fun s =>
         (s, Resolved (findByPk UserModel userID s))) in
     match userToDelete with
     | None => throw (Error "User not found")
     | Some userToDelete =>
         let* _ := destroy UserModel Database.cascades userToDelete in
         resolve (Messages.success now
                    (Some (VObj (UserView.toDTO userToDelete))))
     end)
    (return_error now).

End WithLibrary.
End UserService.

(** ** [service/NotificationService.js] *)

Module NotificationService.

Section WithLibrary.
Context (lib : Library).

(** [type = "Reminder"]: the default applies when the argument is
    [undefined]. *)
Definition createNotification (now : string)
    (userID content type : option Value) : Promise Object :=
  let type := match type with None => Some (VStr "Reminder") | t => t end in
  try_catch
    (let* notification :=
       create lib NotificationModel now
         (set_prop "userID" userID
            (set_prop "content" content
               (set_prop "type" type
                  (<["readStatus" := VStr "Unread"]> ∅)))) in
     resolve (Messages.success now (Some (VObj notification))))
    (return_error now).

Definition getNotificationsForUser (now : string) (userID : string)
  : Promise Object :=
  try_catch
    (let* notifications := (fun s =>
         (s, Resolved (findAll NotificationModel (prop_is "userID" userID) s))) in
     resolve (Messages.success now (Some (VArr (List.map VObj notifications)))))
    (return_error now).

(** [notification.readStatus = "Read"; await notification.save()] *)
Definition markAsRead (now : string) (notificationID : option Value)
  : Promise Object :=
  try_catch
    (let* notification := (fun s =>
         (s, Resolved (findByPk NotificationModel notificationID s))) in
     match notification with
     | None =>
         resolve (Messages.error now (Some (VStr "Notification not found")))
     | Some notification =>
         let* notification :=
           instance_update lib NotificationModel now notification
             {["readStatus" := VStr "Read"]} in
         resolve (Messages.success now (Some (VObj notification)))
     end)
    (return_error now).

Definition deleteNotification (now : string) (notificationID : option Value)
  : Promise Object :=
  try_catch
    (let* notification := (fun s =>
         (s, Resolved (findByPk NotificationModel notificationID s))) in
     match notification with
     | None =>
         resolve (Messages.error now (Some (VStr "Notification not found")))
     | Some notification =>
         let* _ := destroy NotificationModel Database.cascades notification in
         resolve (Messages.success now
                    (Some (VStr "Notification deleted successfully")))
     end)
    (return_error now).

End WithLibrary.
End NotificationService.

(** ** [controller/NotificationController.js] *)

Module NotificationController.

Section WithLibrary.
Context (lib : Library).

(** The status code and the JSON body of the response.
    [const { userID, message } = request.body]: nothing else of the body
    is read. *)
Definition createNotification (now : string) (body : Object)
  : Promise (nat * Object) :=
  let* result :=
    NotificationService.createNotification lib now
      (body !! "userID") (body !! "message") None in
  resolve (if prop_is "status" "success" result then 201 else 400, result).

End WithLibrary.
End NotificationController.

(** ** [configuration/Passport.js]: the verify callback of the local strategy *)

Module Passport.

(** The three ways the callback calls [done]. *)
Inductive Done :=
  | done_user (user : Object)          (** [done(null, user)] *)
  | done_false (info : Object)         (** [done(null, false, info)] *)
  | done_err.                          (** [done(err)] *)

Section WithLibrary.
Context (lib : Library).

(** [bcrypt.compare] throws unless both arguments are strings. *)
Definition verify (email password : string) (s : Store) : Done :=
  match findOne UserModel (prop_is "Email" email) s with
  | None => done_false {["message" := VStr "Incorrect email."]}
  | Some user =>
      match user !! "Password" with
      | Some (VStr hash) =>
          if bcrypt_compare lib password hash
          then done_user user
          else done_false {["message" := VStr "Incorrect password."]}
      | _ => done_err
      end
  end.

End WithLibrary.
End Passport.

(** ** [configuration/Passport.js]: the user kept in the login session *)

Module PassportSession.

(** [done(null, user.UserID)]: the value the session stores for the user. *)
Definition serializeUser (user : Object) : option Value := user !! "UserID".

(** [done(null, await User.findByPk(id))]: the user of a stored value,
    [null] when there is none. *)
Definition deserializeUser (id : option Value) (s : Store) : option Object :=
  findByPk UserModel id s.

End PassportSession.

(** ** The controllers

    A handler resolves to the status code and the JSON body it sends.  The
    values of [request.params] are segments of the URL: strings.  The
    handlers modelled here are the ones that read nothing else of the
    request. *)

(** What calling a property that is [undefined] throws. *)
Definition not_a_function (callee : string) : JSError :=
  Error (callee ++ " is not a function").

(** [response.status(result.status === "success" ? ok : failed).json(result)] *)
Definition respond (ok failed : nat) (result : Object) : nat * Object :=
  (if prop_is "status" "success" result then ok else failed, result).

(** [catch (error) { response.status(500).json({ status: "error", message: error.message }) }] *)
Definition internal_error (error : JSError) : Promise (nat * Object) :=
  resolve (500, <["status" := VStr "error"]>
                  {["message" := VStr (message error)]}).

(** [controller/NotificationController.js], the handlers of the routes with
    a parameter. *)
Module NotificationRoutes.

Definition getNotificationsForUser (now : string) (userID : string)
  : Promise (nat * Object) :=
  let* result := NotificationService.getNotificationsForUser now userID in
  resolve (respond 200 400 result).

Section WithLibrary.
Context (lib : Library).

Definition markAsRead (now : string) (notificationID : string)
  : Promise (nat * Object) :=
  let* result :=
    NotificationService.markAsRead lib now (Some (VStr notificationID)) in
  resolve (respond 200 400 result).

End WithLibrary.

Definition deleteNotification (now : string) (notificationID : string)
  : Promise (nat * Object) :=
  let* result :=
    NotificationService.deleteNotification now (Some (VStr notificationID)) in
  resolve (respond 200 400 result).

End NotificationRoutes.

(** [controller/TaskController.js] *)
Module TaskController.

(** [TaskService] has no method [findTask]; the handler has no [try]. *)
Definition getTaskByID (taskID : string) : Promise (nat * Object) :=
  let* result := throw (not_a_function "TaskService.findTask") in
  resolve (respond 200 400 result).

Definition deleteTask (now : string) (taskID : string)
  : Promise (nat * Object) :=
  let* result := TaskService.deleteTask now (Some (VStr taskID)) in
  resolve (respond 200 400 result).

End TaskController.

(** [controller/TagController.js] *)
Module TagController.

Definition getTagByID (now : string) (tagID : string)
  : Promise (nat * Object) :=
  let* result := TagService.findTagByID now (Some (VStr tagID)) in
  resolve (respond 200 400 result).

Definition deleteTag (now : string) (tagID : string)
  : Promise (nat * Object) :=
  let* result := TagService.deleteTag now (Some (VStr tagID)) in
  resolve (respond 200 400 result).

End TagController.

(** [controller/CategoryController.js] *)
Module CategoryController.

Definition getCategoryByID (now : string) (categoryID : string)
  : Promise (nat * Object) :=
  let* result := CategoryService.findCategoryByID now (Some (VStr categoryID)) in
  resolve (respond 200 400 result).

Definition deleteCategory (now : string) (categoryID : string)
  : Promise (nat * Object) :=
  let* result := CategoryService.deleteCategory now (Some (VStr categoryID)) in
  resolve (respond 200 400 result).

End CategoryController.

(** [controller/SessionController.js] *)
Module SessionController.

(** [SessionService] has no method [findSession]. *)
Definition getSessionByID (sessionID : string) : Promise (nat * Object) :=
  try_catch
    (let* result := throw (not_a_function "SessionService.findSession") in
     resolve (respond 200 404 result))
    internal_error.

Definition getAllSessions (now : string) : Promise (nat * Object) :=
  try_catch
    (let* result := SessionService.findAllSessions now in
     resolve (respond 200 404 result))
    internal_error.

Definition deleteSession (now : string) (sessionID : string)
  : Promise (nat * Object) :=
  try_catch
    (let* result := SessionService.deleteSession now (Some (VStr sessionID)) in
     resolve (respond 200 400 result))
    internal_error.

End SessionController.

(** [controller/UserController.js] *)
Module UserController.

(** [UserService] has no method [findUser], [findUsersByCategory] or
    [findUsersByTag]. *)
Definition getUserByID (userID : string) : Promise (nat * Object) :=
  try_catch
    (let* result := throw (not_a_function "UserService.findUser") in
     resolve (respond 200 400 result))
    internal_error.

Definition getUserByCategory (query : Object) : Promise (nat * Object) :=
  try_catch
    (let categoryName := query !! "categoryName" in
     let* result := throw (not_a_function "UserService.findUsersByCategory") in
     resolve (respond 200 400 result))
    internal_error.

Definition getUserByTag (query : Object) : Promise (nat * Object) :=
  try_catch
    (let tagName := query !! "tagName" in
     let* result := throw (not_a_function "UserService.findUsersByTag") in
     resolve (respond 200 400 result))
    internal_error.

Definition deleteUser (now : string) (userID : string)
  : Promise (nat * Object) :=
  try_catch
    (let* result := UserService.deleteUser now (Some (VStr userID)) in
     resolve (respond 200 400 result))
    internal_error.

End UserController.

(** ** Express: how a request finds its handler

    The library is imported; this is its routing with the defaults the
    application leaves in place: a path matches case-insensitively and with
    or without a trailing slash, a [:name] segment matches any non-empty
    segment, the routes of a router are tried in the order they were added
    and the first one that matches the path and handles the method runs.  A
    handler of this application never calls [next]. *)

Module Express.

Inductive Method :=
  | Get | Post | Put | Delete | Head | Options
  | Other (name : string).

Inductive Segment :=
  | Lit (text : string)      (** a literal segment *)
  | Param (name : string).   (** [:name] *)

Definition lower_ascii (c : ascii) : ascii :=
  let n := nat_of_ascii c in
  if ((65 <=? n) && (n <=? 90))%nat then ascii_of_nat (n + 32) else c.

Fixpoint lower (s : string) : string :=
  match s with
  | EmptyString => EmptyString
  | String c rest => String (lower_ascii c) (lower rest)
  end.

(** The pieces between the slashes of a path. *)
Fixpoint split (path : string) : list string :=
  match path with
  | EmptyString => [EmptyString]
  | String c rest =>
      if Ascii.eqb c "/"%char then EmptyString :: split rest
      else match split rest with
           | x :: l => String c x :: l
           | [] => [String c EmptyString]
           end
  end.

(** Not strict: one trailing slash is ignored. *)
Fixpoint drop_trailing_slash (segments : list string) : list string :=
  match segments with
  | [] => []
  | [x] => if String.eqb x "" then [] else [x]
  | x :: rest => x :: drop_trailing_slash rest
  end.

(** The raw value of every parameter when the segments match the pattern. *)
Fixpoint match_path (pattern : list Segment) (segments : list string)
  : option (list (string * string)) :=
  match pattern, segments with
  | [], [] => Some []
  | Lit text :: pattern, x :: segments =>
      if String.eqb (lower x) (lower text) then match_path pattern segments
      else None
  | Param name :: pattern, x :: segments =>
      if String.eqb x "" then None
      else (fun params => (name, x) :: params) <$> match_path pattern segments
  | _, _ => None
  end.

(** A [get] route also answers [HEAD]. *)
Definition handles (route request : Method) : bool :=
  match route, request with
  | Get, Get | Get, Head | Post, Post | Put, Put | Delete, Delete => true
  | _, _ => false
  end.

(** [app.use("/v1", router)]: what is left of the path for the router. *)
Definition mounted (mount : string) (segments : list string)
  : option (list string) :=
  match segments with
  | x :: rest =>
      if String.eqb (lower x) (lower mount) then
        Some match rest with
             | "" :: ((_ :: _) as rest') => rest'
             | _ => rest
             end
      else None
  | [] => None
  end.

Section Routing.
Context {Handler : Type}.
(** [decodeURIComponent], which fails on a malformed escape sequence. *)
Context (decodeURIComponent : string -> option string).

Definition Route : Type := Method * list Segment * Handler.

Inductive Routed :=
  | Run (handler : Handler) (params : list (string * string))
  | BadParam      (** a parameter could not be decoded: the error handler runs *)
  | NoMatch.

Fixpoint decode_params (raw : list (string * string))
  : option (list (string * string)) :=
  match raw with
  | [] => Some []
  | (name, x) :: rest =>
      match decodeURIComponent x, decode_params rest with
      | Some v, Some params => Some ((name, v) :: params)
      | _, _ => None
      end
  end.

(** The routes in order.  The parameters of a route whose path matches are
    decoded before its method is looked at. *)
Fixpoint route (routes : list Route) (method : Method)
    (segments : list string) : Routed :=
  match routes with
  | [] => NoMatch
  | (m, pattern, handler) :: rest =>
      match match_path pattern segments with
      | None => route rest method segments
      | Some raw =>
          match decode_params raw with
          | None => BadParam
          | Some params =>
              if handles m method then Run handler params
              else route rest method segments
          end
      end
  end.

End Routing.

Arguments Routed : clear implicits.

End Express.

(** ** The routes of the controllers and [App.js] *)

Module App.
Import Express.

(** The static methods of the controller classes. *)
Inductive Handler :=
  | getCategoryByID | getCategoryByName | getAllCategories
  | createCategory | updateCategory | deleteCategory
  | createNotification | getNotificationsForUser | markAsRead
  | deleteNotification
  | getSessionByID | getAllSessions | createSession | updateSession
  | deleteSession
  | getTagByID | getTagByName | getAllTags | createTag | updateTag | deleteTag
  | getTaskByID | getTasksByTitle | getTasksByTag | getTasksByCategory
  | getAllTasks | createTask | updateTask | deleteTask
  | getUserByID | getUserByCategory | getUserByTag | searchUsersByName
  | createUser | updateUser | deleteUser.

Definition categoryRouter : list (Route (Handler := Handler)) :=
  [ (Get, [Lit "categories"; Param "categoryID"], getCategoryByID);
    (Get, [Lit "categories"; Lit "categoryName"], getCategoryByName);
    (Get, [Lit "categories"], getAllCategories);
    (Post, [Lit "categories"], createCategory);
    (Put, [Lit "categories"; Param "categoryID"], updateCategory);
    (Delete, [Lit "categories"; Param "categoryID"], deleteCategory) ].

Definition notificationRouter : list (Route (Handler := Handler)) :=
  [ (Post, [Lit "notification"], createNotification);
    (Get, [Lit "notifications"; Param "userID"], getNotificationsForUser);
    (Put, [Lit "notifications"; Param "notificationID"; Lit "read"], markAsRead);
    (Delete, [Lit "notifications"; Param "notificationID"], deleteNotification) ].

Definition sessionRouter : list (Route (Handler := Handler)) :=
  [ (Get, [Lit "sessions"; Param "sessionID"], getSessionByID);
    (Get, [Lit "sessions"], getAllSessions);
    (Post, [Lit "session"], createSession);
    (Put, [Lit "sessions"; Param "sessionID"], updateSession);
    (Delete, [Lit "sessions"; Param "sessionID"], deleteSession) ].

Definition tagRouter : list (Route (Handler := Handler)) :=
  [ (Get, [Lit "tags"; Param "tagID"], getTagByID);
    (Get, [Lit "tags"; Lit "tagName"], getTagByName);
    (Get, [Lit "tags"], getAllTags);
    (Post, [Lit "tag"], createTag);
    (Put, [Lit "tags"; Param "tagID"], updateTag);
    (Delete, [Lit "tags"; Param "tagID"], deleteTag) ].

Definition taskRouter : list (Route (Handler := Handler)) :=
  [ (Get, [Lit "tasks"; Param "taskID"], getTaskByID);
    (Get, [Lit "tasks"; Lit "title"], getTasksByTitle);
    (Get, [Lit "tasks"; Lit "tag"], getTasksByTag);
    (Get, [Lit "tasks"; Lit "category"], getTasksByCategory);
    (Get, [Lit "tasks"], getAllTasks);
    (Post, [Lit "task"], createTask);
    (Put, [Lit "tasks"; Param "taskID"], updateTask);
    (Delete, [Lit "tasks"; Param "taskID"], deleteTask) ].

Definition userRouter : list (Route (Handler := Handler)) :=
  [ (Get, [Lit "users"; Param "userID"], getUserByID);
    (Get, [Lit "users"; Lit "category"], getUserByCategory);
    (Get, [Lit "users"; Lit "tag"], getUserByTag);
    (Get, [Lit "users"; Lit "search"], searchUsersByName);
    (Post, [Lit "user"], createUser);
    (Put, [Lit "users"; Param "userID"], updateUser);
    (Delete, [Lit "users"; Param "userID"], deleteUser) ].

(** [app.use(URLVersion, ...)], six times, in this order.  A router that
    has no route for the request passes it on to the next one. *)
Definition routers : list (Route (Handler := Handler)) :=
  (categoryRouter ++ notificationRouter ++ sessionRouter ++ tagRouter
   ++ taskRouter ++ userRouter)%list.

(** The one segment of [URLVersion], "/v1". *)
Definition URLVersion : string := "v1".

(** What the application does with a request. *)
Inductive Reply :=
  | Preflight                               (** [cors] answers [OPTIONS]: 204 *)
  | Invoke (handler : Handler) (params : list (string * string))
  | Send (status : nat) (json : Object).

Record Request := {
  method : Method;
  path : string;            (** the path of the URL, from its first slash *)
  malformed_body : bool     (** a body parser raises an error *)
}.

Definition internal_server_error : Reply :=
  Send 500 (<["status" := VStr "error"]>
              {["message" := VStr "Internal Server Error"]}).

Definition not_found : Reply :=
  Send 404 (<["status" := VStr "error"]>
              {["message" := VStr "Resource not found"]}).

Definition connection_successful : Reply :=
  Send 200 {["message" := VStr "Connection successful."]}.

(** The segments of a path, [None] when it does not start with a slash. *)
Definition segments_of (path : string) : option (list string) :=
  match split path with
  | "" :: segments => Some segments
  | _ => None
  end.

Section WithDecoder.
Context (decodeURIComponent : string -> option string).

(** The middleware in the order of [App.js]: [cors], the body parsers, the
    six routers, [app.get("/")], and, for what none of them answered, the
    404 middleware; an error goes to the 500 middleware. *)
Definition app (request : Request) : Reply :=
  match method request with
  | Options => Preflight
  | _ =>
      if malformed_body request then internal_server_error
      else
        match segments_of (path request) with
        | None => not_found
        | Some segments =>
            let routed :=
              match mounted URLVersion segments with
              | Some rest =>
                  route decodeURIComponent routers (method request)
                        (drop_trailing_slash rest)
              | None => NoMatch
              end in
            match routed with
            | Run handler params => Invoke handler params
            | BadParam => internal_server_error
            | NoMatch =>
                match drop_trailing_slash segments with
                | [] => if handles Get (method request)
                        then connection_successful else not_found
                | _ :: _ => not_found
                end
            end
        end
  end.

End WithDecoder.

End App.

(** ** The requests that write to the store

    One constructor for each service method that creates, updates or
    deletes. *)

Inductive Request :=
  | SaveTask (taskData : Object) (subTasksData : list Object)
  | UpdateTask (taskID : option Value) (updatedTaskData : Object)
               (updatedSubTasksData : list Object)
  | DeleteTask (taskID : option Value)
  | SaveTag (tagData : Object)
  | SaveCategory (categoryData : Object)
  | SaveUser (userData : Object)
  | UpdateUser (userID : option Value) (updatedUserData : Object)
  | DeleteUser (userID : option Value)
  | CreateNotification (userID content type : option Value)
  | MarkAsRead (notificationID : option Value)
  | DeleteNotification (notificationID : option Value)
  | UpdateTag (tagID : option Value) (updatedTagData : Object)
  | DeleteTag (tagID : option Value)
  | UpdateCategory (categoryID : option Value) (updatedCategoryData : Object)
  | DeleteCategory (categoryID : option Value)
  | SaveSession (sessionData : Object)
  | UpdateSession (sessionID : option Value) (updatedSessionData : Object)
  | DeleteSession (sessionID : option Value).

(** The service method behind each request. *)
Definition handle (lib : Library) (now : string) (request : Request)
  : Promise Object :=
  match request with
  | SaveTask taskData subTasksData =>
      TaskService.saveTask lib now taskData subTasksData
  | UpdateTask taskID updatedTaskData updatedSubTasksData =>
      TaskService.updateTask lib now taskID updatedTaskData updatedSubTasksData
  | DeleteTask taskID => TaskService.deleteTask now taskID
  | SaveTag tagData => TagService.saveTag lib now tagData
  | SaveCategory categoryData => CategoryService.saveCategory lib now categoryData
  | SaveUser userData => UserService.saveUser lib now userData
  | UpdateUser userID updatedUserData =>
      UserService.updateUser lib now userID updatedUserData
  | DeleteUser userID => UserService.deleteUser now userID
  | CreateNotification userID content type =>
      NotificationService.createNotification lib now userID content type
  | MarkAsRead notificationID =>
      NotificationService.markAsRead lib now notificationID
  | DeleteNotification notificationID =>
      NotificationService.deleteNotification now notificationID
  | UpdateTag tagID updatedTagData =>
      TagService.updateTag lib now tagID updatedTagData
  | DeleteTag tagID => TagService.deleteTag now tagID
  | UpdateCategory categoryID updatedCategoryData =>
      CategoryService.updateCategory lib now categoryID updatedCategoryData
  | DeleteCategory categoryID => CategoryService.deleteCategory now categoryID
  | SaveSession sessionData => SessionService.saveSession lib now sessionData
  | UpdateSession sessionID updatedSessionData =>
      SessionService.updateSession lib now sessionID updatedSessionData
  | DeleteSession sessionID => SessionService.deleteSession now sessionID
  end.

(** ** Vocabulary of the statements *)

(** The [DELETE]s that destroying the instances of [l] sends, in order. *)
Definition delete_statements (M : ModelDef) (l : list Object) : list Query :=
  omap (fun r => match r !! primaryKeyAttribute M with
                 | Some (VStr k) => Some (DELETE (tableName M) k)
                 | _ => None
                 end) l.

(** The [INSERT]s that creating the rows of [l] sends, in order. *)
Definition insert_statements (M : ModelDef) (l : list Object) : list Query :=
  List.map (fun r => INSERT (tableName M) (key_of M r)) l.

(** The update entry names the row: its [subTaskID] is the row's key. *)
Definition entry_selects (entry r : Object) : bool :=
  match entry !! "subTaskID" with
  | Some (VStr k) => pk_is SubTaskModel k r
  | _ => false
  end.

(** What one entry of an update makes of an existing row: the row after
    [SET entry] when the entry carries the row's key, the row itself
    otherwise. *)
Definition rewritten (now : string) (entry r : Object) : Object :=
  if truthy (entry !! "subTaskID") && entry_selects entry r
  then write SubTaskModel now entry r
  else r.

(** What the entries of an update make of an existing row, in order. *)
Definition apply_entries (now : string) (entries : list Object) (r : Object)
  : Object :=
  fold_left (fun r entry => rewritten now entry r) entries r.

(** No two rows of the table have the same primary key. *)
Definition keyed (M : ModelDef) (s : Store) : Prop :=
  forall k r1 r2,
    In r1 (rows M s) -> In r2 (rows M s) ->
    pk_is M k r1 = true -> pk_is M k r2 = true -> r1 = r2.

(** The computation leaves the table as it is. *)
Definition preserves {A} (name : string) (p : Promise A) : Prop :=
  forall s, table name (fst (p s)) = table name s.

(** The computation adds no row to any table and changes none. *)
Definition shrinks {A} (p : Promise A) : Prop :=
  forall s name r, In r (table name (fst (p s))) -> In r (table name s).

(** ** Vocabulary of the statements on refusals and on routing *)

(** [undefined] or [null]. *)
Definition nullish (v : option Value) : bool :=
  match v with
  | None | Some VNull => true
  | Some _ => false
  end.

(** The call resolved to an error envelope and left the store as it was. *)
Definition refused (now : string) (s : Store) (r : Store * Outcome Object)
  : Prop :=
  exists text, r = (s, Resolved (Messages.error now (Some (VStr text)))).

Import Express.

#[local] Instance Method_eq_dec : EqDecision Method.
Proof. solve_decision. Defined.

#[local] Instance Handler_eq_dec : EqDecision App.Handler.
Proof. solve_decision. Defined.

(** [covers p1 p2]: the pattern [p1] matches every path that [p2] matches. *)
Fixpoint covers (p1 p2 : list Segment) : bool :=
  match p1, p2 with
  | [], [] => true
  | Param _ :: p1, Param _ :: p2 => covers p1 p2
  | Param _ :: p1, Lit b :: p2 => negb (String.eqb (lower b) "") && covers p1 p2
  | Lit a :: p1, Lit b :: p2 => String.eqb (lower a) (lower b) && covers p1 p2
  | _, _ => false
  end.

Section Shadowing.
Context {Handler : Type} `{EqDecision Handler}.

Definition handler_of (r : Route (Handler := Handler)) : Handler := snd r.

(** Every route for [h] comes after a route for another handler, of the
    same method, whose pattern covers its own. *)
Fixpoint shadowed_in (routes : list (Route (Handler := Handler))) (h : Handler)
  : bool :=
  match routes with
  | [] => true
  | (m, p, h1) :: rest =>
      negb (bool_decide (h1 = h))
      && (forallb (fun r : Route (Handler := Handler) =>
                     match r with
                     | (m2, p2, h2) =>
                         negb (bool_decide (h2 = h))
                         || (bool_decide (m2 = m) && covers p p2)
                     end) rest
          || shadowed_in rest h)
  end.

End Shadowing.

(** The handlers whose routes come after a route that covers them. *)
Definition shadowed_handlers : list App.Handler :=
  [ App.getCategoryByName; App.getTagByName; App.getTasksByTitle;
    App.getTasksByTag; App.getTasksByCategory; App.getUserByCategory;
    App.getUserByTag; App.searchUsersByName ].

Definition request (method : Method) (path : string) : App.Request :=
  {| App.method := method; App.path := path; App.malformed_body := false |}.

(** A request that reaches the handler, for the handlers that can be reached. *)
Definition request_for (h : App.Handler) : App.Request :=
  match h with
  | App.getCategoryByID => request Get "/v1/categories/1"
  | App.getAllCategories => request Get "/v1/categories"
  | App.createCategory => request Post "/v1/categories"
  | App.updateCategory => request Put "/v1/categories/1"
  | App.deleteCategory => request Delete "/v1/categories/1"
  | App.createNotification => request Post "/v1/notification"
  | App.getNotificationsForUser => request Get "/v1/notifications/1"
  | App.markAsRead => request Put "/v1/notifications/1/read"
  | App.deleteNotification => request Delete "/v1/notifications/1"
  | App.getSessionByID => request Get "/v1/sessions/1"
  | App.getAllSessions => request Get "/v1/sessions"
  | App.createSession => request Post "/v1/session"
  | App.updateSession => request Put "/v1/sessions/1"
  | App.deleteSession => request Delete "/v1/sessions/1"
  | App.getTagByID => request Get "/v1/tags/1"
  | App.getAllTags => request Get "/v1/tags"
  | App.createTag => request Post "/v1/tag"
  | App.updateTag => request Put "/v1/tags/1"
  | App.deleteTag => request Delete "/v1/tags/1"
  | App.getTaskByID => request Get "/v1/tasks/1"
  | App.getAllTasks => request Get "/v1/tasks"
  | App.createTask => request Post "/v1/task"
  | App.updateTask => request Put "/v1/tasks/1"
  | App.deleteTask => request Delete "/v1/tasks/1"
  | App.getUserByID => request Get "/v1/users/1"
  | App.createUser => request Post "/v1/user"
  | App.updateUser => request Put "/v1/users/1"
  | App.deleteUser => request Delete "/v1/users/1"
  | _ => request Get "/"
  end.

(** A segment of a path: it has no slash. *)
Definition no_slash (word : string) : bool :=
  all_chars (fun c => negb (Ascii.eqb c "/"%char)) word.

(** The handler answered [status] with an error envelope and left the
    store as it was. *)
Definition answers_error (status : nat) (s : Store)
    (r : Store * Outcome (nat * Object)) : Prop :=
  exists json,
    r = (s, Resolved (status, json)) /\ json !! "status" = Some (VStr "error").

(** ** Vocabulary of the statements on what is found afterwards *)

Definition is_date (t : DataType) : bool :=
  match t with
  | DATE => true
  | _ => false
  end.

(** The attributes of a model that take the value a caller gives them as
    it is: not the key, which is assigned, and not the dates, which are
    parsed. *)
Definition plain_attributes (M : ModelDef) : list string :=
  List.map fst
    (List.filter (fun p => negb (primaryKey (snd p))
                           && negb (is_date (type (snd p))))
                 (attributes M)).

(** [found] has every value that [given] has under one of [names]. *)
Definition agrees_on (names : list string) (given found : Object) : Prop :=
  forall name v,
    In name names -> given !! name = Some v -> found !! name = Some v.

(** [found] has the value that [data] supplies, for every plain attribute. *)
Definition holds_input (M : ModelDef) (data found : Object) : Prop :=
  agrees_on (plain_attributes M) data found.

(** The entry carries, as a [subTaskID] that is not falsy, the key of the
    row: the entry names the row. *)
Definition names (entry r : Object) : bool :=
  truthy (entry !! "subTaskID") && entry_selects entry r.

(** The entries without a [subTaskID], for which [updateTask] creates. *)
Definition unkeyed (entries : list Object) : list Object :=
  List.filter (fun e => negb (truthy (e !! "subTaskID"))) entries.

(** What the entries of an update make of a subtask row that was there:
    it keeps its key; it is as it was when no entry names it; and when one
    entry names it and no other does, it holds every value that the entry
    supplies for an attribute that is neither the key nor a date, and, the
    time of the last update apart, what it had for what the entry does not
    mention. *)
Definition updated_by (entries : list Object) (old new : Object) : Prop :=
  new !! "subTaskID" = old !! "subTaskID"
  /\ ((forall e, In e entries -> names e old = false) -> new = old)
  /\ (forall before e after,
        entries = (before ++ e :: after)%list ->
        names e old = true ->
        (forall e', In e' (before ++ after) -> names e' old = false) ->
        (forall name v,
            In name ["taskID"; "title"; "description"; "status"; "priority"] ->
            e !! name = Some v -> new !! name = Some v)
        /\ (forall name, name <> "updatedAt" -> e !! name = None ->
                         new !! name = old !! name)).

(** What has been created for an entry without a [subTaskID]: a row with a
    key that no row had and, unless an entry of the same list names that
    very key, with the task's identifier as [taskID] and with every value
    that the entry supplies for an attribute that is neither a key nor a
    date. *)
Definition created_for (owner : option Value) (entries : list Object)
    (s : Store) (e c : Object) : Prop :=
  (exists k, c !! "subTaskID" = Some (VStr k)
             /\ forall r, In r (rows SubTaskModel s) ->
                          pk_is SubTaskModel k r = false)
  /\ ((exists e', In e' entries /\ names e' c = true)
      \/ (c !! "taskID" = owner
          /\ forall name v,
              In name ["title"; "description"; "status"; "priority"] ->
              e !! name = Some v -> c !! name = Some v)).

(** ** Example data *)

(** An object whose properties are all strings. *)
Definition object (l : list (string * string)) : Object :=
  list_to_map (List.map (fun p => (fst p, VStr (snd p))) l).

(** Stand-ins for the imported functions, to run the services on examples. *)
Definition example_library : Library :=
  {| isEmail := fun s => String.eqb s "ada@example.com";
     bcrypt_compare := fun data encrypted => String.eqb encrypted ("$2b$" ++ data);
     sequelize_message := fun e =>
       match e with
       | NotNullViolation t a => "notNull Violation: " ++ t ++ "." ++ a ++ " cannot be null"
       | ValidationFailed t a => "Validation error: " ++ t ++ "." ++ a
       | UniqueConstraintError t a => a ++ " must be unique"
       end |}.

(** A task of workspace W2 carrying a tag of workspace W1. *)
Definition shared_tag_store : Store :=
  {| tables :=
       <["Tasks" := [object [("taskID", "T"); ("workspaceID", "W2");
                             ("title", "pay rent")]]]>
         (<["Tags" := [object [("tagID", "G"); ("workspaceID", "W1");
                               ("name", "urgent")]]]>
            (<["TaskTags" := [object [("taskID", "T"); ("tagID", "G")]]]> ∅));
     journal := [] |}.

Definition ada : Object :=
  object [("firstName", "Ada"); ("lastName", "Lovelace");
          ("Email", "ada@example.com"); ("Password", "correct horse battery")].

(** A user whose stored password is what [example_library] takes for the
    hash of "correct horse battery". *)
Definition registered_ada : Object :=
  object [("userID", "U"); ("firstName", "Ada"); ("lastName", "Lovelace");
          ("Email", "ada@example.com");
          ("Password", "$2b$correct horse battery")].

Definition registered_store : Store :=
  {| tables := <["Users" := [registered_ada]]> ∅; journal := [] |}.

Definition morning : string := "2024-05-01T09:00:00.000Z".
Definition noon : string := "2024-05-01T12:00:00.000Z".

Definition report : Object :=
  object [("title", "write report"); ("workspaceID", "W1")].
Definition outline : Object := object [("title", "outline")].
Definition untitled : Object := object [("description", "no title")].
Definition proofread : Object := object [("title", "proofread")].


(** The task "0" with its subtasks "0" and "1". *)
Definition planned_store : Store :=
  fst (TaskService.saveTask example_library morning report
         [outline; proofread] empty_store).

(** Data of an update, and an entry without a key. *)
Definition completed : Object := object [("status", "Completed")].
Definition new_subtask : Object :=
  object [("title", "new"); ("status", "Pending")].

(** One notification, "0", already read. *)
Definition inbox : Store :=
  fst (NotificationService.markAsRead example_library morning (Some (VStr "0"))
         (fst (NotificationService.createNotification example_library morning
                 (Some (VStr "U")) (Some (VStr "hello")) None empty_store))).
Definition read_notification : Object :=
  default ∅ (findByPk NotificationModel (Some (VStr "0")) inbox).

Definition urgent : Object := object [("name", "urgent"); ("workspaceID", "W1")].
Definition urgent_saved : Store * Outcome Object :=
  TagService.saveTag example_library morning urgent empty_store.

Definition ada_saved : Store * Outcome Object :=
  UserService.saveUser example_library morning ada empty_store.
Definition found_ada : Object :=
  default ∅ (findOne UserModel (prop_is "Email" "ada@example.com") registered_store).

(** A store in which every foreign key has its target: the workspace "W1",
    its category "C1" and its tag "G1", the user "U1", the task "T1" of that
    user and workspace, and the subtasks "S1" and "S2" of the task. *)
Definition office : Store :=
  {| tables :=
       <["Workspaces" := [object [("workspaceID", "W1"); ("name", "office")]]]>
      (<["Users" := [object [("userID", "U1"); ("firstName", "Grace");
                             ("lastName", "Hopper");
                             ("Email", "grace@example.com");
                             ("Password", "$2b$a long secret")]]]>
      (<["Categories" := [object [("categoryID", "C1"); ("workspaceID", "W1");
                                  ("name", "work")]]]>
      (<["Tags" := [object [("tagID", "G1"); ("workspaceID", "W1");
                            ("name", "urgent")]]]>
      (<["Tasks" := [object [("taskID", "T1"); ("workspaceID", "W1");
                             ("categoryID", "C1"); ("userID", "U1");
                             ("title", "write report");
                             ("status", "Not Started");
                             ("priority", "Medium")]]]>
      (<["SubTasks" := [object [("subTaskID", "S1"); ("taskID", "T1");
                                ("title", "outline"); ("status", "Pending");
                                ("priority", "Medium")];
                        object [("subTaskID", "S2"); ("taskID", "T1");
                                ("title", "proofread"); ("status", "Pending");
                                ("priority", "Medium")]]]> ∅)))));
     journal := [] |}.
Definition office_task : Object :=
  default ∅ (findByPk TaskModel (Some (VStr "T1")) office).

(** A decoder that leaves every segment as it is. *)
Definition plain_decoder : string -> option string := Some.

(** A second registration with the email of [ada]. *)
Definition augusta : Object :=
  object [("firstName", "Augusta"); ("lastName", "King");
          ("Email", "ada@example.com"); ("Password", "another secret")].

(** [ada] with a password of five characters. *)
Definition careless_ada : Object :=
  object [("firstName", "Ada"); ("lastName", "Lovelace");
          ("Email", "ada@example.com"); ("Password", "short")].

(** [ada] with the password that [example_library] takes for a hash. *)
Definition hashed_ada : Object :=
  object [("firstName", "Ada"); ("lastName", "Lovelace");
          ("Email", "ada@example.com");
          ("Password", "$2b$correct horse battery")].
Definition hashed_ada_created : Store * Outcome Object :=
  create example_library UserModel morning hashed_ada empty_store.

Definition new_password : Object := object [("Password", "a new password")].
Definition ada_updated : Store * Outcome Object :=
  UserService.updateUser example_library noon (Some (VStr "0")) new_password
    (fst ada_saved).

Definition ada_searched : Store * Outcome Object :=
  UserService.searchUsersByName noon (Some "Ada") None registered_store.

Definition important : Object := object [("name", "important")].

(** The task "T" with a reminder, and a reminder of another task. *)
Definition reminded_task : Object :=
  object [("taskID", "T"); ("title", "pay rent")].
Definition reminders_store : Store :=
  {| tables :=
       <["Tasks" := [reminded_task]]>
         (<["Notifications" :=
              [object [("notificationID", "N1"); ("taskID", "T");
                       ("content", "rent is due")];
               object [("notificationID", "N2"); ("taskID", "T2");
                       ("content", "water the plants")]]]> ∅);
     journal := [] |}.

(** An entry that names a subtask that does not exist. *)
Definition complete_nothing : Object :=
  object [("subTaskID", "9"); ("status", "Completed")].
Definition nothing_completed : Store * Outcome Object :=
  TaskService.updateTask example_library noon (Some (VStr "0")) completed
    [complete_nothing] planned_store.

(** The entries of the scenario on [office]: one names the subtask "S1",
    one has no key. *)
Definition complete_S1 : Object :=
  object [("subTaskID", "S1"); ("status", "Completed")].
Definition office_updated : Store * Outcome Object :=
  TaskService.updateTask example_library noon (Some (VStr "T1")) completed
    [complete_S1; new_subtask] office.

(** The same update with one entry that has neither key nor title. *)
Definition office_refused : Store * Outcome Object :=
  TaskService.updateTask example_library noon (Some (VStr "T1")) completed
    [untitled] office.

Definition office_tag_saved : Store * Outcome Object :=
  TagService.saveTag example_library morning urgent office.

(** On [office]: a task of the workspace, the user and the category that
    exist there, with two subtasks; a notification for the user; the tag
    renamed; the task completed, and an entry without a title refused. *)
Definition minutes : Object :=
  object [("title", "write minutes"); ("workspaceID", "W1");
          ("userID", "U1"); ("categoryID", "C1")].
Definition office_planned : Store * Outcome Object :=
  TaskService.saveTask example_library morning minutes [outline; proofread]
    office.
Definition greeting : Object :=
  object [("userID", "U1"); ("message", "hello")].
Definition greeting_posted : Store * Outcome (nat * Object) :=
  NotificationController.createNotification example_library morning greeting
    office.
Definition office_tag_renamed : Store * Outcome Object :=
  TagService.updateTag example_library noon (Some (VStr "G1")) important
    office.
Definition office_task_completed : Store * Outcome Object :=
  instance_update example_library TaskModel noon
    (Database.many "SubTasks" None (Database.Task_SubTasks office_task office)
       office_task)
    completed office.
Definition office_entry_refused : Store * Outcome unit :=
  TaskService.update_or_create example_library noon
    (value_of ∅ (snd office_task_completed)) untitled
    (fst office_task_completed).

(** * Properties *)

(** ** The store *)

Lemma table_set_table_eq name rows s : table name (set_table name rows s) = rows.
Proof. unfold table, set_table; cbn [tables]. by rewrite lookup_insert_eq. Qed.

Lemma table_set_table_ne name name' rows s :
  name <> name' -> table name' (set_table name rows s) = table name' s.
Proof.
  intros Hne. unfold table, set_table; cbn [tables].
  by rewrite lookup_insert_ne.
Qed.

Lemma table_log name q s : table name (log q s) = table name s.
Proof. reflexivity. Qed.


Lemma journal_log q s : journal (log q s) = (journal s ++ [q])%list.
Proof. reflexivity. Qed.

(** ** Lists of rows *)

Lemma find_none_iff {A} (p : A -> bool) (l : list A) :
  List.find p l = None <-> (forall x, In x l -> p x = false).
Proof.
  split.
  - intros H x Hx. by apply (find_none p l H).
  - induction l as [|a l IH]; intros H; [done|]. cbn [List.find].
    rewrite (H a (or_introl eq_refl)). apply IH. intros x Hx. apply H. by right.
Qed.

Lemma find_app_l {A} (p : A -> bool) (l1 l2 : list A) x :
  List.find p l1 = Some x -> List.find p (l1 ++ l2) = Some x.
Proof.
  induction l1 as [|a l1 IH]; [done|]. cbn [List.find app].
  destruct (p a); [done|]. apply IH.
Qed.

Lemma find_app_r {A} (p : A -> bool) (l1 l2 : list A) :
  List.find p l1 = None -> List.find p (l1 ++ l2) = List.find p l2.
Proof.
  induction l1 as [|a l1 IH]; [done|]. cbn [List.find app].
  destruct (p a); [done|]. apply IH.
Qed.

Lemma find_map_commute {A} (p : A -> bool) (f : A -> A) (l : list A) :
  (forall x, p (f x) = p x) ->
  List.find p (List.map f l) = f <$> List.find p l.
Proof.
  intros H. induction l as [|a l IH]; [done|]. cbn [List.find List.map].
  rewrite H. destruct (p a); [done|]. apply IH.
Qed.


(** ** Promises *)


Lemma Promise_all_length {A} (ps : list (Promise A)) s s1 l :
  Promise_all ps s = (s1, Resolved l) -> length l = length ps.
Proof.
  revert s s1 l. induction ps as [|p ps IH]; intros s s1 l H.
  - cbn [Promise_all] in H. by injection H as <- <-.
  - cbn [Promise_all] in H.
    destruct (p s) as [s0 [a|e]]; [|done].
    destruct (Promise_all ps s0) as [s2 [l0|e]] eqn:Hps; [|done].
    injection H as <- <-. cbn. f_equal. eauto.
Qed.

Lemma resolved_eta {A} (d : A) (p : Store * Outcome A) :
  is_resolved (snd p) = true -> p = (fst p, Resolved (value_of d (snd p))).
Proof. by destruct p as [s [a|e]]. Qed.

Lemma rejected_eta {A} (p : Store * Outcome A) :
  is_resolved (snd p) = false -> p = (fst p, Rejected (error_of (snd p))).
Proof. by destruct p as [s [a|e]]. Qed.

Lemma some_eta {A} (d : A) (o : option A) :
  bool_decide (is_Some o) = true -> o = Some (default d o).
Proof. destruct o; [done|]. intros H. by apply bool_decide_eq_true, is_Some_None in H. Qed.

(** ** Objects *)

Lemma prop_is_true k v (o : Object) :
  prop_is k v o = true <-> o !! k = Some (VStr v).
Proof.
  unfold prop_is. split.
  - destruct (o !! k) as [[]|]; try done.
    intros H. apply String.eqb_eq in H. by subst.
  - intros ->. apply String.eqb_refl.
Qed.

Lemma lookup_set_prop_eq k v (o : Object) : set_prop k v o !! k = v.
Proof.
  destruct v; cbn [set_prop]; [apply lookup_insert_eq | apply lookup_delete_eq].
Qed.

Lemma lookup_set_prop_ne k k' v (o : Object) :
  k <> k' -> set_prop k v o !! k' = o !! k'.
Proof.
  intros H. destruct v; cbn [set_prop];
    [by apply lookup_insert_ne | by apply lookup_delete_ne].
Qed.

(** ** The envelope *)

Lemma success_status now m : Messages.success now m !! "status" = Some (VStr "success").
Proof. unfold Messages.success. apply lookup_insert_eq. Qed.

Lemma error_status now m : Messages.error now m !! "status" = Some (VStr "error").
Proof. unfold Messages.error. apply lookup_insert_eq. Qed.

Lemma success_message now m : Messages.success now m !! "message" = m.
Proof.
  unfold Messages.success.
  rewrite !lookup_insert_ne by done. apply lookup_set_prop_eq.
Qed.

Lemma error_message now m : Messages.error now m !! "message" = m.
Proof.
  unfold Messages.error.
  rewrite !lookup_insert_ne by done. apply lookup_set_prop_eq.
Qed.


Lemma error_is_not_success now m : prop_is "status" "success" (Messages.error now m) = false.
Proof. unfold prop_is. by rewrite error_status. Qed.

Lemma success_is_success now m : prop_is "status" "success" (Messages.success now m) = true.
Proof. unfold prop_is. by rewrite success_status. Qed.

(** ** Sequelize *)

Section SequelizeFacts.
Context (lib : Library).

Lemma check_attributes_none M attrs r name a :
  check_attributes lib M attrs r = None ->
  In (name, a) attrs ->
  check_attribute lib M name a r = None.
Proof.
  induction attrs as [|[n b] attrs IH]; [done|]. cbn [check_attributes].
  destruct (check_attribute lib M n b r) eqn:Hc; [done|].
  intros H [Heq|Hin]; [by injection Heq as <- <- | by apply IH].
Qed.

Lemma check_unique_none M attrs others r name a v :
  check_unique M attrs others r = None ->
  In (name, a) attrs ->
  primaryKey a || unique a = true ->
  r !! name = Some (VStr v) ->
  forall o, In o others -> prop_is name v o = false.
Proof.
  induction attrs as [|[n b] attrs IH]; [done|]. cbn [check_unique].
  intros H [Heq|Hin] Hk Hv o Ho.
  - injection Heq as -> ->. rewrite Hv, Hk in H. cbn [andb] in H.
    destruct (existsb (prop_is name v) others) eqn:He; [done|].
    destruct (prop_is name v o) eqn:Hp; [|done].
    assert (existsb (prop_is name v) others = true) as He'
      by (apply existsb_exists; eauto).
    congruence.
  - destruct (match r !! n with
              | Some (VStr v0) =>
                  (primaryKey b || unique b) && existsb (prop_is n v0) others
              | _ => false
              end); [done|].
    by apply (IH H Hin Hk Hv).
Qed.

(** The model declares its primary key, and the key is not nullable. *)
Definition has_key (M : ModelDef) : Prop :=
  exists a, In (primaryKeyAttribute M, a) (attributes M)
            /\ primaryKey a = true /\ allowNull a = false.

(** What a resolved [create] did. *)
Lemma create_resolved M now data s s' row :
  create lib M now data s = (s', Resolved row) ->
  row = restrict M data ∪ defaultValues M now (uuidv4 M s)
  /\ check_attributes lib M (attributes M) row = None
  /\ check_unique M (attributes M) (rows M s) row = None
  /\ s' = log (INSERT (tableName M) (key_of M row))
              (set_table (tableName M) (rows M s ++ [row]) s).
Proof.
  unfold create, reject, throw.
  destruct (check_attributes lib M (attributes M) _) eqn:Ha; [done|].
  destruct (check_unique M (attributes M) (rows M s) _) eqn:Hu; [done|].
  intros H. injection H as <- <-. done.
Qed.

(** A rejected [create] left the store as it was. *)
Lemma create_rejected M now data s s' e :
  create lib M now data s = (s', Rejected e) -> s' = s.
Proof.
  unfold create, reject, throw.
  destruct (check_attributes lib M (attributes M) _) eqn:Ha;
    [by intros H; injection H as <- _|].
  destruct (check_unique M (attributes M) (rows M s) _) eqn:Hu;
    [by intros H; injection H as <- _|done].
Qed.

Lemma create_rows M now data s s' row :
  create lib M now data s = (s', Resolved row) ->
  rows M s' = (rows M s ++ [row])%list.
Proof.
  intros H. apply create_resolved in H as (_ & _ & _ & ->).
  unfold rows. by rewrite table_log, table_set_table_eq.
Qed.

Lemma create_journal M now data s s' row :
  create lib M now data s = (s', Resolved row) ->
  journal s' = (journal s ++ [INSERT (tableName M) (key_of M row)])%list.
Proof. intros H. by apply create_resolved in H as (_ & _ & _ & ->). Qed.

(** [create] writes to the table of its model only. *)
Lemma create_other_table M now data s name :
  name <> tableName M ->
  table name (fst (create lib M now data s)) = table name s.
Proof.
  intros Hne. destruct (create lib M now data s) as [s' [row|e]] eqn:H.
  - apply create_resolved in H as (_ & _ & _ & ->). cbn [fst].
    rewrite table_log. by apply table_set_table_ne.
  - by apply create_rejected in H as ->.
Qed.

(** A created row has a string key that no earlier row has. *)
Lemma create_key M now data s s' row :
  has_key M ->
  create lib M now data s = (s', Resolved row) ->
  exists k, row !! primaryKeyAttribute M = Some (VStr k)
            /\ forall r, In r (rows M s) -> pk_is M k r = false.
Proof.
  intros (a & Hin & Hpk & Hnull) H.
  apply create_resolved in H as (_ & Ha & Hu & _).
  pose proof (check_attributes_none _ _ _ _ _ Ha Hin) as Hc.
  unfold check_attribute in Hc. rewrite Hnull in Hc.
  destruct (row !! primaryKeyAttribute M) as [[|k| |]|] eqn:Hk; try done.
  exists k. split; [done|]. intros r Hr. unfold pk_is.
  eapply check_unique_none; eauto. by rewrite Hpk.
Qed.

(** A supplied attribute is stored as supplied. *)
Lemma create_supplied M now data s s' row name v :
  create lib M now data s = (s', Resolved row) ->
  name ∈ attribute_names M ->
  data !! name = Some v ->
  row !! name = Some v.
Proof.
  intros H Hin Hv. apply create_resolved in H as (-> & _).
  apply lookup_union_Some_l. unfold restrict.
  apply map_lookup_filter_Some. done.
Qed.


Lemma restrict_lookup M (data : Object) name :
  name ∈ attribute_names M -> restrict M data !! name = data !! name.
Proof.
  intros H. unfold restrict. destruct (data !! name) as [v|] eqn:Hv.
  - by apply map_lookup_filter_Some.
  - apply map_lookup_filter_None. by left.
Qed.

(** What [update] did when it resolved, and that it changed nothing when it
    rejected. *)
Lemma update_resolved M now values key s s' n :
  update lib M now values key s = (s', Resolved n) ->
  s' = log (UPDATE (tableName M) (interpolate key))
         (set_table (tableName M)
            (List.map (fun r => if match key with
                                   | Some (VStr k) => pk_is M k r
                                   | _ => false
                                   end
                                then write M now values r else r)
                      (rows M s)) s)
  /\ check_attributes lib M (supplied M values) values = None.
Proof.
  unfold update, reject, throw.
  destruct (check_attributes lib M (supplied M values) values) eqn:Ha; [done|].
  destruct (check_unique M (supplied M values) _ values) eqn:Hu; [done|].
  intros H. by injection H as <- <-.
Qed.

Lemma update_rejected M now values key s s' e :
  update lib M now values key s = (s', Rejected e) -> s' = s.
Proof.
  unfold update, reject, throw.
  destruct (check_attributes lib M (supplied M values) values) eqn:Ha;
    [by intros H; injection H as <- _|].
  destruct (check_unique M (supplied M values) _ values) eqn:Hu;
    [by intros H; injection H as <- _|done].
Qed.

Lemma update_other_table M now values key s name :
  name <> tableName M ->
  table name (fst (update lib M now values key s)) = table name s.
Proof.
  intros Hne. destruct (update lib M now values key s) as [s' [n|e]] eqn:H.
  - apply update_resolved in H as [-> _]. cbn [fst].
    rewrite table_log. by apply table_set_table_ne.
  - by apply update_rejected in H as ->.
Qed.

End SequelizeFacts.

(** [destroy] on an instance with a key: one [DELETE], rows only disappear,
    and no row with that key is left in the table. *)
Lemma cascades_shrink parent k cs s name r :
  In r (table name (fold_right (cascade_from parent k) s cs)) ->
  In r (table name s).
Proof.
  induction cs as [|[[p child] fk] cs IH]; [done|]. cbn [fold_right].
  unfold cascade_from at 1. destruct (String.eqb p parent); [|done].
  destruct (decide (child = name)) as [->|Hne].
  - rewrite table_set_table_eq. intros Hin. apply filter_In in Hin as [Hin _].
    by apply IH.
  - by rewrite table_set_table_ne.
Qed.

Lemma cascades_journal parent k cs s :
  journal (fold_right (cascade_from parent k) s cs) = journal s.
Proof.
  induction cs as [|[[p child] fk] cs IH]; [done|]. cbn [fold_right].
  unfold cascade_from at 1. by destruct (String.eqb p parent).
Qed.

Lemma cascades_other_table parent k cs s name :
  (forall p fk, In (p, name, fk) cs -> p <> parent) ->
  table name (fold_right (cascade_from parent k) s cs) = table name s.
Proof.
  induction cs as [|[[p child] fk] cs IH]; [done|]. intros H. cbn [fold_right].
  unfold cascade_from at 1. destruct (String.eqb p parent) eqn:Hp.
  - apply String.eqb_eq in Hp. destruct (decide (child = name)) as [->|Hne].
    + exfalso. by apply (H p fk (or_introl eq_refl)).
    + rewrite table_set_table_ne by done. apply IH.
      intros p' fk' Hin. apply (H p' fk'). by right.
  - apply IH. intros p' fk' Hin. apply (H p' fk'). by right.
Qed.

Lemma destroy_keyed M cs instance k s :
  instance !! primaryKeyAttribute M = Some (VStr k) ->
  exists s', destroy M cs instance s = (s', Resolved tt)
    /\ journal s' = (journal s ++ [DELETE (tableName M) k])%list
    /\ (forall name r, In r (table name s') -> In r (table name s))
    /\ (forall r, In r (rows M s') -> pk_is M k r = false).
Proof.
  intros Hk. unfold destroy. rewrite Hk. eexists. split; [done|].
  split; [|split].
  - by rewrite journal_log, cascades_journal.
  - intros name r. rewrite table_log. intros Hin.
    apply cascades_shrink in Hin.
    destruct (decide (tableName M = name)) as [<-|Hne].
    + rewrite table_set_table_eq in Hin. by apply filter_In in Hin as [? _].
    + by rewrite table_set_table_ne in Hin.
  - intros r. unfold rows at 1. rewrite table_log. intros Hin.
    apply cascades_shrink in Hin. rewrite table_set_table_eq in Hin.
    apply filter_In in Hin as [_ Hp]. by destruct (pk_is M k r).
Qed.

Lemma destroy_keyless M cs instance s :
  (forall k, instance !! primaryKeyAttribute M <> Some (VStr k)) ->
  destroy M cs instance s = (s, Resolved tt).
Proof.
  intros H. unfold destroy.
  destruct (instance !! primaryKeyAttribute M) as [[|k| |]|]; try done.
  by destruct (H k).
Qed.


(** * Workspace scoping of the listing operations *)

Lemma many_lookup_ne name attrs children (o : Object) k :
  name <> k -> Database.many name attrs children o !! k = o !! k.
Proof. intros H. unfold Database.many. by rewrite lookup_insert_ne. Qed.

Lemma one_lookup_ne name attrs target (o : Object) k :
  name <> k -> Database.one name attrs target o !! k = o !! k.
Proof. intros H. unfold Database.one. by rewrite lookup_insert_ne. Qed.

Lemma with_all_lookup s task k :
  "Category" <> k -> "Tags" <> k -> "Notifications" <> k -> "SubTasks" <> k ->
  TaskService.with_all s task !! k = task !! k.
Proof.
  intros H1 H2 H3 H4. unfold TaskService.with_all.
  by rewrite one_lookup_ne, !many_lookup_ne.
Qed.



(** [findAllTasks], [findTasksByTitle] and [findTasksByCategory] put the
    workspace in the [where] of the task: what they return is of that
    workspace. *)
Lemma findAllTasks_scoped now workspaceID s :
  exists tasks,
    TaskService.findAllTasks now workspaceID s
    = (s, Resolved (Messages.success now (Some (VArr (List.map VObj tasks)))))
    /\ Forall (fun t => t !! "workspaceID" = Some (VStr workspaceID)) tasks.
Proof.
  eexists. split; [reflexivity|]. apply Forall_forall. intros t Ht.
  apply list_elem_of_In, in_map_iff in Ht as (t0 & <- & Hin).
  apply filter_In in Hin as [_ H]. rewrite with_all_lookup by done.
  by apply prop_is_true.
Qed.

Lemma findTasksByTitle_scoped now taskTitle workspaceID s :
  exists tasks,
    TaskService.findTasksByTitle now taskTitle workspaceID s
    = (s, Resolved (Messages.success now (Some (VArr (List.map VObj tasks)))))
    /\ Forall (fun t => t !! "workspaceID" = Some (VStr workspaceID)) tasks.
Proof.
  eexists. split; [reflexivity|]. apply Forall_forall. intros t Ht.
  apply list_elem_of_In, in_map_iff in Ht as (t0 & <- & Hin).
  apply filter_In in Hin as [_ H]. rewrite with_all_lookup by done.
  apply andb_true_iff in H as [_ H]. by apply prop_is_true.
Qed.

Lemma findTasksByCategory_scoped now categoryName workspaceID s :
  exists tasks,
    TaskService.findTasksByCategory now categoryName workspaceID s
    = (s, Resolved (Messages.success now (Some (VArr (List.map VObj tasks)))))
    /\ Forall (fun t => t !! "workspaceID" = Some (VStr workspaceID)) tasks.
Proof.
  eexists. split; [reflexivity|]. apply Forall_forall. intros t Ht.
  apply list_elem_of_In, in_map_iff in Ht as (t0 & <- & Hin).
  apply filter_In in Hin as [_ H].
  unfold TaskService.with_SubTasks_Notifications.
  rewrite one_lookup_ne, !many_lookup_ne by done.
  apply andb_true_iff in H as [H _]. by apply prop_is_true.
Qed.

(** X23.  [findAllTags] and [findAllCategories] ask for the workspace of
    each row they list, and nothing in [Database.js] associates the
    workspaces to the tags or to the categories.  So, whatever the
    workspace and the store, each resolves to the error envelope that
    carries the message of the eager loading error, and the store is as it
    was. *)
Theorem listing_with_workspace_is_refused :
  forall (now workspaceID : string) (s : Store),
    TagService.findAllTags now workspaceID s
    = (s, Resolved (Messages.error now
                      (Some (VStr "Workspaces is not associated to Tags!"))))
    /\ CategoryService.findAllCategories now workspaceID s
       = (s, Resolved
               (Messages.error now
                  (Some (VStr "Workspaces is not associated to Categories!")))).
Proof. intros now workspaceID s. split; reflexivity. Qed.

(** What [findTasksByTag] does guarantee: a tag of the given name and
    workspace on every task it returns. *)
Lemma findTasksByTag_scoped_by_tag now tagName workspaceID s :
  exists tasks,
    TaskService.findTasksByTag now tagName workspaceID s
    = (s, Resolved (Messages.success now (Some (VArr (List.map VObj tasks)))))
    /\ Forall (fun t => exists tag,
                  In tag (objects_of (t !! "Tags"))
                  /\ tag !! "name" = Some (VStr tagName)) tasks.
Proof.
  eexists. split; [reflexivity|]. apply Forall_forall. intros t Ht.
  apply list_elem_of_In, in_map_iff in Ht as (t0 & <- & Hin).
  apply filter_In in Hin as [_ H].
  unfold Database.many at 1. rewrite lookup_insert_eq. cbn [objects_of].
  destruct (TaskService.matching_tags tagName workspaceID t0 s) as [|g l] eqn:Hm;
    [done|].
  exists (Database.project TaskService.tag_attributes g). split.
  - cbn. by left.
  - assert (In g (TaskService.matching_tags tagName workspaceID t0 s)) as Hg
      by (rewrite Hm; by left).
    apply filter_In in Hg as [_ Hg]. apply andb_true_iff in Hg as [Hg _].
    apply prop_is_true in Hg. unfold Database.project.
    apply map_lookup_filter_Some. split; [done|].
    unfold TaskService.tag_attributes. cbn. set_solver.
Qed.

(** C6 (the code departs from it).  [findTasksByTag] filters the joined tag
    by workspace and not the task: asked for workspace W1, it returns the
    task of workspace W2 that carries a tag of W1. *)
Theorem findTasksByTag_returns_task_of_other_workspace :
  forall now : string,
    exists tasks task,
      TaskService.findTasksByTag now "urgent" "W1" shared_tag_store
      = (shared_tag_store,
         Resolved (Messages.success now (Some (VArr (List.map VObj tasks)))))
      /\ In task tasks
      /\ task !! "taskID" = Some (VStr "T")
      /\ task !! "workspaceID" = Some (VStr "W2").
Proof.
  intros now. eexists _, (nth 0 _ ∅). split; [reflexivity|]. split; [|split].
  - apply nth_In, Nat.ltb_lt. vm_compute. reflexivity.
  - vm_compute. reflexivity.
  - vm_compute. reflexivity.
Qed.

(** * The credential check *)

(** C7, as amended.  The verify callback looks the user up by email and
    calls [done(null, false, { message: "Incorrect email." })] when there is
    none; when the stored hash does not match the password it calls
    [done(null, false, { message: "Incorrect password." })]; otherwise it
    calls [done(null, user)] with the user found, whose email is the one
    given.  Both messages end with a full stop. *)
Theorem verify_outcomes :
  forall (lib : Library) (email password : string) (s : Store),
    (findOne UserModel (prop_is "Email" email) s = None ->
       Passport.verify lib email password s
       = Passport.done_false {["message" := VStr "Incorrect email."]})
    /\ (forall user hash,
          findOne UserModel (prop_is "Email" email) s = Some user ->
          user !! "Password" = Some (VStr hash) ->
          In user (rows UserModel s)
          /\ user !! "Email" = Some (VStr email)
          /\ (bcrypt_compare lib password hash = false ->
                Passport.verify lib email password s
                = Passport.done_false {["message" := VStr "Incorrect password."]})
          /\ (bcrypt_compare lib password hash = true ->
                Passport.verify lib email password s = Passport.done_user user)).
Proof.
  intros lib email password s. unfold Passport.verify. split.
  - by intros ->.
  - intros user hash Hfind Hhash. rewrite Hfind, Hhash.
    unfold findOne in Hfind. apply find_some in Hfind as [Hin Hmail].
    apply prop_is_true in Hmail.
    repeat split; try done; by intros ->.
Qed.

(** * The user search *)

(** C10.  [searchUsersByName] resolves to the error envelope
    "No search parameters provided" when neither name is supplied, and to
    the error envelope "No users found matching the criteria" when a name
    is supplied and no user row satisfies the query; the store is as it
    was. *)
Theorem searchUsersByName_errors :
  forall (now : string) (firstName lastName : option string) (s : Store),
    let query := (UserService.condition "firstName" firstName
                  ++ UserService.condition "lastName" lastName)%list in
    (truthy (VStr <$> firstName) = false ->
     truthy (VStr <$> lastName) = false ->
     UserService.searchUsersByName now firstName lastName s
     = (s, Resolved (Messages.error now
                       (Some (VStr "No search parameters provided")))))
    /\ (truthy (VStr <$> firstName) = true \/ truthy (VStr <$> lastName) = true ->
        (forall user, In user (rows UserModel s) ->
                      UserService.satisfies query user = false) ->
        UserService.searchUsersByName now firstName lastName s
        = (s, Resolved (Messages.error now
                          (Some (VStr "No users found matching the criteria"))))).
Proof.
  intros now firstName lastName s query. subst query.
  unfold UserService.searchUsersByName, UserService.condition.
  split.
  - intros Hf Hl.
    assert (forall x : option string, truthy (VStr <$> x) = false ->
              match x with
              | Some v => if truthy (Some (VStr v)) then [("firstName", v)] else []
              | None => []
              end = []) as Hnil1.
    { intros [v|]; cbn; [|done]. by intros ->. }
    assert (forall x : option string, truthy (VStr <$> x) = false ->
              match x with
              | Some v => if truthy (Some (VStr v)) then [("lastName", v)] else []
              | None => []
              end = []) as Hnil2.
    { intros [v|]; cbn; [|done]. by intros ->. }
    rewrite (Hnil1 _ Hf), (Hnil2 _ Hl). reflexivity.
  - intros Hsupplied Hnone.
    match goal with
    | |- context [try_catch (match ?q with _ => _ end)] => destruct q as [|c q'] eqn:Hq
    end.
    + exfalso. apply app_eq_nil in Hq as [Hq1 Hq2].
      destruct Hsupplied as [H|H].
      * destruct firstName as [v|]; cbn in H; [|done].
        cbn [truthy] in Hq1. by rewrite H in Hq1.
      * destruct lastName as [v|]; cbn in H; [|done].
        cbn [truthy] in Hq2. by rewrite H in Hq2.
    + unfold try_catch, await, findAll.
      assert (List.filter (UserService.satisfies (c :: q')) (rows UserModel s) = [])
        as ->; [|reflexivity].
      induction (rows UserModel s) as [|u l IH]; [done|]. cbn [List.filter].
      rewrite (Hnone u (or_introl eq_refl)). apply IH.
      intros user Hin. apply Hnone. by right.
Qed.

(** * Passwords *)

Lemma defaultValues_user_password now uuid :
  defaultValues UserModel now uuid !! "Password" = None.
Proof. reflexivity. Qed.

(** C8 (the code departs from it).  [saveUser] hashes nothing: when it
    succeeds, the row it has added to [Users] holds, as [Password], the very
    value the caller supplied. *)
Theorem saveUser_stores_the_supplied_password :
  forall (lib : Library) (now : string) (userData : Object) (s s' : Store)
         (result : Object),
    UserService.saveUser lib now userData s = (s', Resolved result) ->
    prop_is "status" "success" result = true ->
    exists row,
      rows UserModel s' = (rows UserModel s ++ [row])%list
      /\ row !! "Password" = userData !! "Password".
Proof.
  intros lib now userData s s' result H Hok.
  unfold UserService.saveUser, try_catch, await, return_error, resolve in H.
  destruct (create lib UserModel now userData s) as [s1 [row|e]] eqn:Hc.
  - injection H as <- <-. exists row. split; [by eapply create_rows|].
    apply create_resolved in Hc as (-> & _).
    rewrite lookup_union, restrict_lookup, defaultValues_user_password.
    + by destruct (userData !! "Password").
    + unfold attribute_names. cbn. set_solver.
  - injection H as <- <-. by rewrite error_is_not_success in Hok.
Qed.

(** * Deleting a task *)

Lemma objects_of_many name children (o : Object) :
  objects_of (Database.many name None children o !! name) = children.
Proof.
  unfold Database.many. rewrite lookup_insert_eq. cbn [objects_of].
  induction children as [|c l IH]; [done|]. cbn. by rewrite IH.
Qed.

Lemma delete_statements_keyed M x k l :
  x !! primaryKeyAttribute M = Some (VStr k) ->
  delete_statements M (x :: l) = DELETE (tableName M) k :: delete_statements M l.
Proof. intros H. unfold delete_statements. simpl. by rewrite H. Qed.

Lemma delete_statements_keyless M x l :
  (forall k, x !! primaryKeyAttribute M <> Some (VStr k)) ->
  delete_statements M (x :: l) = delete_statements M l.
Proof.
  intros H. unfold delete_statements. simpl.
  destruct (x !! primaryKeyAttribute M) as [[|k| |]|]; try done.
  by destruct (H k).
Qed.

(** Destroying a list of instances one after the other. *)
Lemma destroy_all M cs (l : list Object) s :
  exists s1 us,
    Promise_all (List.map (destroy M cs) l) s = (s1, Resolved us)
    /\ journal s1 = (journal s ++ delete_statements M l)%list
    /\ (forall name r, In r (table name s1) -> In r (table name s))
    /\ (forall instance k,
          In instance l ->
          instance !! primaryKeyAttribute M = Some (VStr k) ->
          forall r, In r (rows M s1) -> pk_is M k r = false).
Proof.
  revert s. induction l as [|x l IH]; intros s.
  - exists s, []. cbn. rewrite app_nil_r. repeat split; done.
  - cbn [List.map Promise_all].
    assert ((exists k, x !! primaryKeyAttribute M = Some (VStr k))
            \/ ~ (exists k, x !! primaryKeyAttribute M = Some (VStr k)))
      as [[k Hx]|Hx].
    { destruct (x !! primaryKeyAttribute M) as [[|k| |]|];
        first [by left; eexists | by right; intros [? ?]]. }
    + destruct (destroy_keyed M cs x k s Hx) as (s0 & -> & Hj0 & Hsub0 & Hgone0).
      destruct (IH s0) as (s1 & us & -> & Hj1 & Hsub1 & Hgone1).
      exists s1, (tt :: us). split; [done|]. split; [|split].
      * rewrite Hj1, Hj0, (delete_statements_keyed _ _ _ _ Hx).
        by rewrite <- app_assoc.
      * intros name r Hr. apply Hsub0. by apply Hsub1.
      * intros instance k' [->|Hin] Hk' r Hr.
        -- rewrite Hx in Hk'. injection Hk' as ->.
           apply Hgone0. by apply (Hsub1 (tableName M)).
        -- by apply (Hgone1 instance k' Hin Hk').
    + assert (forall k, x !! primaryKeyAttribute M <> Some (VStr k)) as Hx'
        by (intros k Hk; apply Hx; eauto).
      rewrite (destroy_keyless M cs x s Hx').
      destruct (IH s) as (s1 & us & -> & Hj1 & Hsub1 & Hgone1).
      exists s1, (tt :: us). split; [done|]. split; [|split; [done|]].
      * by rewrite (delete_statements_keyless _ _ _ Hx').
      * intros instance k' [->|Hin] Hk' r Hr.
        -- by destruct (Hx' k').
        -- by apply (Hgone1 instance k' Hin Hk').
Qed.


(** * Creating a task with its subtasks *)

Lemma insert_statements_app M l1 l2 :
  insert_statements M (l1 ++ l2)
  = (insert_statements M l1 ++ insert_statements M l2)%list.
Proof. unfold insert_statements. apply map_app. Qed.

Section SaveTask.
Context (lib : Library).

(** One [SubTask.create({ ...subTask, taskID })]. *)
Lemma create_subTask_resolved now task subTask s s' row :
  TaskService.create_subTask lib now task subTask s = (s', Resolved row) ->
  rows SubTaskModel s' = (rows SubTaskModel s ++ [row])%list
  /\ journal s' = (journal s ++ insert_statements SubTaskModel [row])%list
  /\ (forall name, name <> "SubTasks" -> table name s' = table name s)
  /\ row !! "taskID" = task !! "taskID".
Proof.
  unfold TaskService.create_subTask. intros H.
  split; [by eapply create_rows|]. split; [by eapply create_journal|]. split.
  - intros name Hne.
    pose proof (create_other_table lib SubTaskModel now
                  (set_prop "taskID" (task !! "taskID") subTask) s name Hne) as Ho.
    by rewrite H in Ho.
  - apply create_resolved in H as (-> & _).
    rewrite lookup_union, restrict_lookup, lookup_set_prop_eq.
    + assert (defaultValues SubTaskModel now (uuidv4 SubTaskModel s) !! "taskID"
              = None) as -> by reflexivity.
      by destruct (task !! "taskID").
    + unfold attribute_names. cbn. set_solver.
Qed.

(** All of them, as [Promise.all] runs them: the rows that were created are
    appended in order, each with the task's identifier, whether or not the
    whole resolves. *)
Lemma create_subTasks_all now task (subTasksData : list Object) s :
  exists created,
    let r := Promise_all
               (List.map (TaskService.create_subTask lib now task) subTasksData) s in
    rows SubTaskModel (fst r) = (rows SubTaskModel s ++ created)%list
    /\ journal (fst r) = (journal s ++ insert_statements SubTaskModel created)%list
    /\ (forall name, name <> "SubTasks" -> table name (fst r) = table name s)
    /\ Forall (fun c => c !! "taskID" = task !! "taskID") created
    /\ (forall l, snd r = Resolved l -> created = l).
Proof.
  revert s. induction subTasksData as [|e es IH]; intros s.
  - exists []. cbn. rewrite !app_nil_r. repeat split; try done.
    by intros l [= <-].
  - cbn [List.map Promise_all].
    destruct (TaskService.create_subTask lib now task e s) as [s1 [c|err]] eqn:Hc.
    + apply create_subTask_resolved in Hc as (Hr & Hj & Ho & Hfk).
      destruct (IH s1) as (created & Hr' & Hj' & Ho' & Hfk' & Hres).
      cbn zeta in *. exists (c :: created).
      assert (fst (match Promise_all
                           (List.map (TaskService.create_subTask lib now task) es) s1
                   with
                   | (s2, Resolved l) => (s2, Resolved (c :: l))
                   | (s2, Rejected e0) => (s2, @Rejected (list Object) e0)
                   end)
              = fst (Promise_all
                       (List.map (TaskService.create_subTask lib now task) es) s1))
        as Hfst by (by destruct (Promise_all _ s1) as [? [?|?]]).
      rewrite Hfst. split; [|split; [|split; [|split]]].
      * rewrite Hr', Hr. by rewrite <- app_assoc.
      * rewrite Hj', Hj, <- app_assoc. by rewrite <- insert_statements_app.
      * intros name Hne. by rewrite Ho', Ho.
      * by constructor.
      * intros l Hl.
        destruct (Promise_all _ s1) as [s2 [l'|e0]]; [|done].
        cbn in Hl. injection Hl as <-. f_equal. by apply Hres.
    + apply create_rejected in Hc as ->. cbn [fst snd].
      destruct (IH s) as (created & Hr' & Hj' & Ho' & Hfk' & Hres).
      exists created. repeat split; try done.
Qed.


End SaveTask.

(** * Updating a task with its subtasks *)


Lemma has_key_SubTaskModel : has_key SubTaskModel.
Proof. exists uuid_key. split; [by left|done]. Qed.

Lemma has_key_NotificationModel : has_key NotificationModel.
Proof. exists uuid_key. split; [by left|done]. Qed.

Lemma has_key_TagModel : has_key TagModel.
Proof. exists uuid_key. split; [by left|done]. Qed.

Lemma has_key_CategoryModel : has_key CategoryModel.
Proof. exists uuid_key. split; [by left|done]. Qed.

Lemma has_key_UserModel : has_key UserModel.
Proof. exists uuid_key. split; [by left|done]. Qed.

(** [SET values] is a partial update: an attribute the values supply takes
    the supplied value, another one keeps its value, and the [onUpdate]
    columns are set. *)
Lemma write_lookup M now values r name :
  write M now values r !! name =
    match onUpdateValues M now !! name with
    | Some v => Some v
    | None =>
        match restrict M values !! name with
        | Some v => Some v
        | None => r !! name
        end
    end.
Proof.
  unfold write. rewrite !lookup_union.
  destruct (onUpdateValues M now !! name), (restrict M values !! name),
    (r !! name); done.
Qed.

(** An entry that carries a key writes that key. *)
Lemma write_subTask_key now entry r k :
  entry !! "subTaskID" = Some (VStr k) ->
  write SubTaskModel now entry r !! "subTaskID" = Some (VStr k).
Proof.
  intros H. rewrite write_lookup.
  assert (onUpdateValues SubTaskModel now !! "subTaskID" = None) as ->
    by reflexivity.
  rewrite restrict_lookup, H; [done|]. unfold attribute_names. cbn. set_solver.
Qed.

Lemma pk_is_SubTask k r : pk_is SubTaskModel k r = prop_is "subTaskID" k r.
Proof. reflexivity. Qed.

(** Rewriting keeps the key of the row. *)
Lemma rewritten_key now entry r k :
  pk_is SubTaskModel k (rewritten now entry r) = pk_is SubTaskModel k r.
Proof.
  unfold rewritten, entry_selects.
  destruct (truthy (entry !! "subTaskID")); [|done]. cbn [andb].
  destruct (entry !! "subTaskID") as [[|k0| |]|] eqn:Hk; try done.
  destruct (pk_is SubTaskModel k0 r) eqn:Hsel; [|done].
  rewrite !pk_is_SubTask in *. unfold prop_is at 1.
  rewrite (write_subTask_key now entry r k0 Hk).
  apply prop_is_true in Hsel. unfold prop_is. by rewrite Hsel.
Qed.


Lemma entry_selects_rewritten now entry entry' r :
  entry_selects entry' (rewritten now entry r) = entry_selects entry' r.
Proof.
  unfold entry_selects. destruct (entry' !! "subTaskID") as [[|k| |]|]; try done.
  apply rewritten_key.
Qed.

(** Frame: the entries leave alone a row that none of them names. *)
Lemma apply_entries_unmentioned now entries r :
  (forall e, In e entries -> truthy (e !! "subTaskID") = true ->
             entry_selects e r = false) ->
  apply_entries now entries r = r.
Proof.
  revert r. induction entries as [|e es IH]; intros r H; [done|].
  unfold apply_entries in *. cbn [fold_left].
  assert (rewritten now e r = r) as ->.
  { unfold rewritten. destruct (truthy (e !! "subTaskID")) eqn:Ht; [|done].
    by rewrite (H e (or_introl eq_refl) Ht). }
  apply IH. intros e' Hin. apply H. by right.
Qed.

(** The one entry that names a row rewrites it. *)
Lemma apply_entries_single now before e after r :
  truthy (e !! "subTaskID") = true ->
  entry_selects e r = true ->
  (forall e', In e' (before ++ after) -> truthy (e' !! "subTaskID") = true ->
              entry_selects e' r = false) ->
  apply_entries now (before ++ e :: after) r = write SubTaskModel now e r.
Proof.
  intros Ht Hsel Hothers. unfold apply_entries. rewrite fold_left_app.
  cbn [fold_left]. fold (apply_entries now before r).
  rewrite (apply_entries_unmentioned now before r).
  2:{ intros e' Hin. apply Hothers, in_or_app. by left. }
  assert (rewritten now e r = write SubTaskModel now e r) as Hw.
  { unfold rewritten. by rewrite Ht, Hsel. }
  rewrite Hw. fold (apply_entries now after (write SubTaskModel now e r)).
  apply apply_entries_unmentioned. intros e' Hin Ht'.
  rewrite <- Hw, entry_selects_rewritten.
  apply Hothers; [|done]. apply in_or_app. by right.
Qed.

Section UpdateTask.
Context (lib : Library).

(** One callback of [updatedSubTasksData.map]. *)
Lemma update_or_create_resolved now task entry s s' u :
  TaskService.update_or_create lib now task entry s = (s', Resolved u) ->
  (forall name, name <> "SubTasks" -> table name s' = table name s)
  /\ ((truthy (entry !! "subTaskID") = true
       /\ rows SubTaskModel s'
          = List.map (rewritten now entry) (rows SubTaskModel s))
      \/ (truthy (entry !! "subTaskID") = false
          /\ exists c k,
              rows SubTaskModel s' = (rows SubTaskModel s ++ [c])%list
              /\ c !! "taskID" = task !! "taskID"
              /\ c !! "subTaskID" = Some (VStr k)
              /\ forall r, In r (rows SubTaskModel s) ->
                           pk_is SubTaskModel k r = false)).
Proof.
  unfold TaskService.update_or_create.
  destruct (truthy (entry !! "subTaskID")) eqn:Ht; unfold await, resolve.
  - destruct (update lib SubTaskModel now entry (entry !! "subTaskID") s)
      as [s1 [n|e]] eqn:Hu; [|done].
    intros H. injection H as <- _.
    apply update_resolved in Hu as [-> _]. split.
    + intros name Hne. rewrite table_log. by apply table_set_table_ne.
    + left. split; [done|]. unfold rows at 1.
      rewrite table_log, table_set_table_eq. apply map_ext. intros r.
      unfold rewritten, entry_selects. by rewrite Ht.
  - destruct (TaskService.create_subTask lib now task entry s)
      as [s1 [c|e]] eqn:Hc; [|done].
    intros H. injection H as <- _.
    destruct (create_key lib SubTaskModel now _ s s1 c has_key_SubTaskModel Hc)
      as (k & Hk & Hfresh).
    apply create_subTask_resolved in Hc as (Hr & _ & Ho & Hfk). split; [done|].
    right. split; [done|]. by exists c, k.
Qed.

End UpdateTask.

Lemma pk_is_Task k r : pk_is TaskModel k r = prop_is "taskID" k r.
Proof. reflexivity. Qed.

(** [instance.update] does not assign the key. *)
Lemma write_task_key now values r :
  write TaskModel now (delete "taskID" values) r !! "taskID" = r !! "taskID".
Proof.
  rewrite write_lookup.
  assert (onUpdateValues TaskModel now !! "taskID" = None) as -> by reflexivity.
  rewrite restrict_lookup, lookup_delete_eq; [done|].
  unfold attribute_names. cbn. set_solver.
Qed.

(** * Which tables a computation touches *)

Lemma preserves_resolve {A} name (a : A) : preserves name (resolve a).
Proof. by intros s. Qed.

Lemma preserves_throw {A} name e : preserves name (@throw A e).
Proof. by intros s. Qed.

Lemma preserves_read {A} name (f : Store -> A) :
  preserves name (fun s => (s, Resolved (f s))).
Proof. by intros s. Qed.

Lemma preserves_await {A B} name (p : Promise A) (k : A -> Promise B) :
  preserves name p -> (forall a, preserves name (k a)) ->
  preserves name (await p k).
Proof.
  intros Hp Hk s. unfold await. specialize (Hp s).
  destruct (p s) as [s1 [a|e]]; cbn [fst] in *; [|done].
  by rewrite Hk.
Qed.

Lemma preserves_try_catch {A} name (p : Promise A) (h : JSError -> Promise A) :
  preserves name p -> (forall e, preserves name (h e)) ->
  preserves name (try_catch p h).
Proof.
  intros Hp Hh s. unfold try_catch. specialize (Hp s).
  destruct (p s) as [s1 [a|e]]; cbn [fst] in *; [done|].
  by rewrite Hh.
Qed.

Lemma preserves_Promise_all {A} name (ps : list (Promise A)) :
  Forall (preserves name) ps -> preserves name (Promise_all ps).
Proof.
  induction 1 as [|p ps Hp Hps IH]; intros s; [done|]. cbn [Promise_all].
  specialize (Hp s). destruct (p s) as [s1 [a|e]]; cbn [fst] in *.
  - specialize (IH s1). destruct (Promise_all ps s1) as [s2 [l|e]];
      cbn [fst] in *; congruence.
  - rewrite IH. done.
Qed.

Lemma preserves_return_error name now e : preserves name (return_error now e).
Proof. apply preserves_resolve. Qed.

Lemma preserves_create lib M now data name :
  name <> tableName M -> preserves name (create lib M now data).
Proof. intros H s. by apply create_other_table. Qed.

Lemma preserves_update lib M now values key name :
  name <> tableName M -> preserves name (update lib M now values key).
Proof. intros H s. by apply update_other_table. Qed.

Lemma preserves_instance_update lib M now instance values name :
  name <> tableName M ->
  preserves name (instance_update lib M now instance values).
Proof.
  intros H. unfold instance_update. apply preserves_await.
  - by apply preserves_update.
  - intros ?. apply preserves_resolve.
Qed.


Lemma shrinks_resolve {A} (a : A) : shrinks (resolve a).
Proof. by intros s name r. Qed.

Lemma shrinks_throw {A} e : shrinks (@throw A e).
Proof. by intros s name r. Qed.

Lemma shrinks_read {A} (f : Store -> A) : shrinks (fun s => (s, Resolved (f s))).
Proof. by intros s name r. Qed.

Lemma shrinks_await {A B} (p : Promise A) (k : A -> Promise B) :
  shrinks p -> (forall a, shrinks (k a)) -> shrinks (await p k).
Proof.
  intros Hp Hk s name r. unfold await. specialize (Hp s name r).
  destruct (p s) as [s1 [a|e]]; cbn [fst] in *; [|done].
  intros Hin. apply Hp. by apply (Hk a s1).
Qed.

Lemma shrinks_try_catch {A} (p : Promise A) (h : JSError -> Promise A) :
  shrinks p -> (forall e, shrinks (h e)) -> shrinks (try_catch p h).
Proof.
  intros Hp Hh s name r. unfold try_catch. specialize (Hp s name r).
  destruct (p s) as [s1 [a|e]]; cbn [fst] in *; [done|].
  intros Hin. apply Hp. by apply (Hh e s1).
Qed.

Lemma shrinks_Promise_all {A} (ps : list (Promise A)) :
  Forall shrinks ps -> shrinks (Promise_all ps).
Proof.
  induction 1 as [|p ps Hp Hps IH]; intros s name r; [done|]. cbn [Promise_all].
  specialize (Hp s name r). destruct (p s) as [s1 [a|e]]; cbn [fst] in *.
  - specialize (IH s1 name r). destruct (Promise_all ps s1) as [s2 [l|e]];
      cbn [fst] in *; auto.
  - intros Hin. apply Hp. by apply IH.
Qed.

Lemma shrinks_destroy M cs instance : shrinks (destroy M cs instance).
Proof.
  intros s name r. unfold destroy.
  destruct (instance !! primaryKeyAttribute M) as [[|k| |]|]; try done.
  cbn [fst]. rewrite table_log. intros Hin. apply cascades_shrink in Hin.
  destruct (decide (tableName M = name)) as [<-|Hne].
  - rewrite table_set_table_eq in Hin. by apply filter_In in Hin as [? _].
  - by rewrite table_set_table_ne in Hin.
Qed.

(** The services that delete only delete. *)
Lemma deleteTask_shrinks now taskID : shrinks (TaskService.deleteTask now taskID).
Proof.
  unfold TaskService.deleteTask. apply shrinks_try_catch.
  - apply shrinks_await; [apply shrinks_read|]. intros [t|]; [|apply shrinks_throw].
    apply shrinks_await.
    + apply shrinks_Promise_all, Forall_forall. intros p Hp.
      apply list_elem_of_In, in_map_iff in Hp as (x & <- & _).
      apply shrinks_destroy.
    + intros ?. apply shrinks_await; [apply shrinks_destroy|].
      intros ?. apply shrinks_resolve.
  - intros e. apply shrinks_resolve.
Qed.

Lemma deleteUser_shrinks now userID : shrinks (UserService.deleteUser now userID).
Proof.
  unfold UserService.deleteUser. apply shrinks_try_catch.
  - apply shrinks_await; [apply shrinks_read|]. intros [t|]; [|apply shrinks_throw].
    apply shrinks_await; [apply shrinks_destroy|]. intros ?. apply shrinks_resolve.
  - intros e. apply shrinks_resolve.
Qed.

Lemma deleteNotification_shrinks now notificationID :
  shrinks (NotificationService.deleteNotification now notificationID).
Proof.
  unfold NotificationService.deleteNotification. apply shrinks_try_catch.
  - apply shrinks_await; [apply shrinks_read|]. intros [t|]; [apply shrinks_await|].
    + apply shrinks_destroy.
    + intros ?. apply shrinks_resolve.
    + apply shrinks_resolve.
  - intros e. apply shrinks_resolve.
Qed.

(** The services of tasks, tags, categories and users that create or update
    do not write to [Notifications]. *)
Lemma saveTask_preserves_notifications lib now taskData subTasksData :
  preserves "Notifications" (TaskService.saveTask lib now taskData subTasksData).
Proof.
  unfold TaskService.saveTask. apply preserves_try_catch.
  - apply preserves_await; [by apply preserves_create|]. intros newTask.
    apply preserves_await; [|intros ?; apply preserves_resolve].
    apply preserves_Promise_all, Forall_forall. intros p Hp.
    apply list_elem_of_In, in_map_iff in Hp as (x & <- & _).
    by apply preserves_create.
  - apply preserves_return_error.
Qed.

Lemma updateTask_preserves_notifications lib now taskID data entries :
  preserves "Notifications" (TaskService.updateTask lib now taskID data entries).
Proof.
  unfold TaskService.updateTask. apply preserves_try_catch.
  - apply preserves_await; [apply preserves_read|].
    intros [t|]; [|apply preserves_throw].
    apply preserves_await; [by apply preserves_instance_update|]. intros t'.
    apply preserves_await; [|intros ?; apply preserves_resolve].
    apply preserves_Promise_all, Forall_forall. intros p Hp.
    apply list_elem_of_In, in_map_iff in Hp as (x & <- & _).
    unfold TaskService.update_or_create.
    destruct (truthy (x !! "subTaskID")).
    + apply preserves_await; [by apply preserves_update|].
      intros ?. apply preserves_resolve.
    + apply preserves_await; [by apply preserves_create|].
      intros ?. apply preserves_resolve.
  - apply preserves_return_error.
Qed.

Lemma saveTag_preserves_notifications lib now tagData :
  preserves "Notifications" (TagService.saveTag lib now tagData).
Proof.
  unfold TagService.saveTag. apply preserves_try_catch.
  - apply preserves_await; [by apply preserves_create|].
    intros ?. apply preserves_resolve.
  - apply preserves_return_error.
Qed.

Lemma saveCategory_preserves_notifications lib now categoryData :
  preserves "Notifications" (CategoryService.saveCategory lib now categoryData).
Proof.
  unfold CategoryService.saveCategory. apply preserves_try_catch.
  - apply preserves_await; [by apply preserves_create|].
    intros ?. apply preserves_resolve.
  - apply preserves_return_error.
Qed.

Lemma saveUser_preserves_notifications lib now userData :
  preserves "Notifications" (UserService.saveUser lib now userData).
Proof.
  unfold UserService.saveUser. apply preserves_try_catch.
  - apply preserves_await; [by apply preserves_create|].
    intros ?. apply preserves_resolve.
  - apply preserves_return_error.
Qed.

Lemma updateUser_preserves_notifications lib now userID data :
  preserves "Notifications" (UserService.updateUser lib now userID data).
Proof.
  unfold UserService.updateUser. apply preserves_try_catch.
  - apply preserves_await; [apply preserves_read|].
    intros [u|]; [|apply preserves_throw].
    apply preserves_await; [by apply preserves_instance_update|].
    intros ?. apply preserves_resolve.
  - apply preserves_return_error.
Qed.

Lemma update_by_key_preserves_notifications lib M now (id : option Value) values
    (done_ : Object -> Object) (missing : string) :
  "Notifications" <> tableName M ->
  preserves "Notifications"
    (try_catch
       (let* found := (fun s => (s, Resolved (findByPk M id s))) in
        match found with
        | None => throw (Error missing)
        | Some found =>
            let* found := instance_update lib M now found values in
            resolve (done_ found)
        end)
       (return_error now)).
Proof.
  intros HM. apply preserves_try_catch.
  - apply preserves_await; [apply preserves_read|].
    intros [u|]; [|apply preserves_throw].
    apply preserves_await; [by apply preserves_instance_update|].
    intros ?. apply preserves_resolve.
  - apply preserves_return_error.
Qed.

Lemma updateTag_preserves_notifications lib now tagID data :
  preserves "Notifications" (TagService.updateTag lib now tagID data).
Proof.
  by apply (update_by_key_preserves_notifications lib TagModel now tagID data
              (fun t => Messages.success now (Some (VObj t)))).
Qed.

Lemma updateCategory_preserves_notifications lib now categoryID data :
  preserves "Notifications" (CategoryService.updateCategory lib now categoryID data).
Proof.
  by apply (update_by_key_preserves_notifications lib CategoryModel now
              categoryID data (fun t => Messages.success now (Some (VObj t)))).
Qed.

Lemma updateSession_preserves_notifications lib now sessionID data :
  preserves "Notifications" (SessionService.updateSession lib now sessionID data).
Proof.
  by apply (update_by_key_preserves_notifications lib SessionModel now
              sessionID data (fun t => Messages.success now (Some (VObj t)))).
Qed.

Lemma saveSession_preserves_notifications lib now sessionData :
  preserves "Notifications" (SessionService.saveSession lib now sessionData).
Proof.
  unfold SessionService.saveSession. apply preserves_try_catch.
  - apply preserves_await; [by apply preserves_create|].
    intros ?. apply preserves_resolve.
  - apply preserves_return_error.
Qed.

Lemma delete_by_key_shrinks M now (id : option Value)
    (done_ : Object -> Object) (missing : string) :
  shrinks
    (try_catch
       (let* found := (fun s => (s, Resolved (findByPk M id s))) in
        match found with
        | None => throw (Error missing)
        | Some found =>
            let* _ := destroy M Database.cascades found in
            resolve (done_ found)
        end)
       (return_error now)).
Proof.
  apply shrinks_try_catch.
  - apply shrinks_await; [apply shrinks_read|]. intros [t|]; [|apply shrinks_throw].
    apply shrinks_await; [apply shrinks_destroy|]. intros ?. apply shrinks_resolve.
  - intros e. apply shrinks_resolve.
Qed.

Lemma deleteTag_shrinks now tagID : shrinks (TagService.deleteTag now tagID).
Proof.
  apply (delete_by_key_shrinks TagModel now tagID
           (fun t => Messages.success now (Some (VObj t)))).
Qed.

Lemma deleteCategory_shrinks now categoryID :
  shrinks (CategoryService.deleteCategory now categoryID).
Proof.
  apply (delete_by_key_shrinks CategoryModel now categoryID
           (fun t => Messages.success now (Some (VObj t)))).
Qed.

Lemma deleteSession_shrinks now sessionID :
  shrinks (SessionService.deleteSession now sessionID).
Proof.
  apply (delete_by_key_shrinks SessionModel now sessionID
           (fun t => Messages.success now (Some (VObj t)))).
Qed.

(** * The read status of notifications *)

(** The values [markAsRead] saves. *)
Lemma mark_read_update lib now k s :
  update lib NotificationModel now
    (delete (primaryKeyAttribute NotificationModel) {["readStatus" := VStr "Read"]})
    (Some (VStr k)) s
  = (log (UPDATE "Notifications" k)
       (set_table "Notifications"
          (List.map
             (fun r => if pk_is NotificationModel k r
                       then write NotificationModel now
                              (delete "notificationID"
                                      {["readStatus" := VStr "Read"]}) r
                       else r)
             (rows NotificationModel s)) s),
     Resolved (length (List.filter (pk_is NotificationModel k)
                                   (rows NotificationModel s)))).
Proof.
  unfold update.
  assert (check_attributes lib NotificationModel
            (supplied NotificationModel
               (delete (primaryKeyAttribute NotificationModel)
                       {["readStatus" := VStr "Read"]}))
            (delete (primaryKeyAttribute NotificationModel)
                    {["readStatus" := VStr "Read"]}) = None) as ->
    by (vm_compute; reflexivity).
  assert (forall others,
             check_unique NotificationModel
               (supplied NotificationModel
                  (delete (primaryKeyAttribute NotificationModel)
                          {["readStatus" := VStr "Read"]}))
               others
               (delete (primaryKeyAttribute NotificationModel)
                       {["readStatus" := VStr "Read"]}) = None) as ->
    by (intros others; vm_compute; reflexivity).
  reflexivity.
Qed.

Lemma write_read_status now r :
  write NotificationModel now
    (delete "notificationID" {["readStatus" := VStr "Read"]}) r !! "readStatus"
  = Some (VStr "Read").
Proof.
  rewrite write_lookup.
  assert (onUpdateValues NotificationModel now !! "readStatus" = None) as ->
    by reflexivity.
  assert (restrict NotificationModel
            (delete "notificationID" {["readStatus" := VStr "Read"]})
          !! "readStatus" = Some (VStr "Read")) as -> by (vm_compute; reflexivity).
  done.
Qed.

Lemma write_read_key now r :
  write NotificationModel now
    (delete "notificationID" {["readStatus" := VStr "Read"]}) r !! "notificationID"
  = r !! "notificationID".
Proof.
  rewrite write_lookup.
  assert (onUpdateValues NotificationModel now !! "notificationID" = None) as ->
    by reflexivity.
  assert (restrict NotificationModel
            (delete "notificationID" {["readStatus" := VStr "Read"]})
          !! "notificationID" = None) as -> by (vm_compute; reflexivity).
  done.
Qed.

(** What [markAsRead] does to the table: every row is kept at its place,
    as it is or rewritten with [readStatus] set to "Read". *)
Lemma markAsRead_rows lib now notificationID s :
  exists f,
    rows NotificationModel
      (fst (NotificationService.markAsRead lib now notificationID s))
    = List.map f (rows NotificationModel s)
    /\ (forall r k, pk_is NotificationModel k (f r) = pk_is NotificationModel k r)
    /\ (forall r, f r = r \/ f r !! "readStatus" = Some (VStr "Read")).
Proof.
  unfold NotificationService.markAsRead, try_catch, await.
  destruct (findByPk NotificationModel notificationID s) as [n|] eqn:Hfind.
  2:{ exists id. cbn. rewrite map_id. repeat split; auto. }
  unfold instance_update, await.
  assert (exists k, n !! primaryKeyAttribute NotificationModel = Some (VStr k))
    as [k Hk].
  { unfold findByPk in Hfind. destruct notificationID as [[|k| |]|]; try done.
    exists k. apply find_some in Hfind as [_ Hp]. by apply prop_is_true in Hp. }
  rewrite Hk, mark_read_update. cbn [fst resolve].
  eexists. split; [|split].
  - unfold rows at 1. rewrite table_log, table_set_table_eq. reflexivity.
  - intros r k'. cbn beta. destruct (pk_is NotificationModel k r); [|done].
    unfold pk_is, prop_is.
    change (primaryKeyAttribute NotificationModel) with "notificationID".
    by rewrite write_read_key.
  - intros r. cbn beta. destruct (pk_is NotificationModel k r); [|by left].
    right. apply write_read_status.
Qed.

(** What [createNotification] does: nothing, or it appends one row whose
    [readStatus] is "Unread". *)
Lemma createNotification_rows lib now userID content type s :
  let r := NotificationService.createNotification lib now userID content type s in
  (exists n,
      r = (fst r, Resolved (Messages.success now (Some (VObj n))))
      /\ rows NotificationModel (fst r) = (rows NotificationModel s ++ [n])%list
      /\ n !! "readStatus" = Some (VStr "Unread")
      /\ exists k, n !! "notificationID" = Some (VStr k)
                   /\ forall r0, In r0 (rows NotificationModel s) ->
                                 pk_is NotificationModel k r0 = false)
  \/ (exists text, r = (s, Resolved (Messages.error now (Some (VStr text))))).
Proof.
  cbn zeta. unfold NotificationService.createNotification, try_catch, await.
  match goal with
  | |- context [create lib NotificationModel now ?d s] =>
      destruct (create lib NotificationModel now d s) as [s1 [n|e]] eqn:Hc
  end.
  - left. exists n. cbn [fst resolve]. split; [done|].
    split; [by eapply create_rows|]. split.
    + eapply create_supplied; [exact Hc| |].
      * unfold attribute_names. cbn. set_solver.
      * rewrite !lookup_set_prop_ne by done. apply lookup_insert_eq.
    + by apply (create_key lib NotificationModel now _ s s1 n
                  has_key_NotificationModel Hc).
  - right. apply create_rejected in Hc as ->. by eexists.
Qed.

Lemma find_keyed M s id r r' (s' : Store) :
  keyed M s ->
  (forall x, In x (rows M s') -> In x (rows M s)) ->
  findByPk M id s = Some r ->
  findByPk M id s' = Some r' ->
  r' = r.
Proof.
  intros Hkeyed Hsub Hr Hr'. unfold findByPk in *.
  destruct id as [[|k| |]|]; try done.
  apply find_some in Hr as [Hin Hp]. apply find_some in Hr' as [Hin' Hp'].
  by apply (Hkeyed k r' r); [apply Hsub| | |].
Qed.

(** C3.  A notification is created with [readStatus] "Unread", whatever the
    arguments of the service and whatever the body of the request, a
    [readStatus] property of the body included.  No request turns a
    notification that is "Read" into anything else: if it is still found
    after the request, it is "Read".  [markAsRead] on a notification that
    exists succeeds and leaves it "Read", also when it was "Read" already. *)
Theorem notification_read_status :
  forall (lib : Library) (now : string),
    (forall userID content type s s' result,
        NotificationService.createNotification lib now userID content type s
        = (s', Resolved result) ->
        prop_is "status" "success" result = true ->
        exists n,
          result = Messages.success now (Some (VObj n))
          /\ rows NotificationModel s' = (rows NotificationModel s ++ [n])%list
          /\ n !! "readStatus" = Some (VStr "Unread"))
    /\ (forall body s s' json,
          NotificationController.createNotification lib now body s
          = (s', Resolved (201, json)) ->
          exists n,
            json !! "message" = Some (VObj n)
            /\ rows NotificationModel s' = (rows NotificationModel s ++ [n])%list
            /\ n !! "readStatus" = Some (VStr "Unread"))
    /\ (forall request s id r r',
          keyed NotificationModel s ->
          findByPk NotificationModel id s = Some r ->
          r !! "readStatus" = Some (VStr "Read") ->
          findByPk NotificationModel id (fst (handle lib now request s)) = Some r' ->
          r' !! "readStatus" = Some (VStr "Read"))
    /\ (forall id s r,
          findByPk NotificationModel id s = Some r ->
          exists s' n r',
            NotificationService.markAsRead lib now id s
            = (s', Resolved (Messages.success now (Some (VObj n))))
            /\ n !! "readStatus" = Some (VStr "Read")
            /\ findByPk NotificationModel id s' = Some r'
            /\ r' !! "readStatus" = Some (VStr "Read")).
Proof.
  intros lib now.
  assert (forall userID content type s s' result,
             NotificationService.createNotification lib now userID content type s
             = (s', Resolved result) ->
             prop_is "status" "success" result = true ->
             exists n,
               result = Messages.success now (Some (VObj n))
               /\ rows NotificationModel s' = (rows NotificationModel s ++ [n])%list
               /\ n !! "readStatus" = Some (VStr "Unread")) as Hcreate.
  { intros userID content type s s' result Hrun Hok.
    destruct (createNotification_rows lib now userID content type s)
      as [(n & Heq & Hrows & Hunread & _)|(text & Heq)];
      cbn zeta in *; rewrite Hrun in *; cbn [fst] in *.
    - injection Heq as ->. by exists n.
    - injection Heq as -> ->. by rewrite error_is_not_success in Hok. }
  split; [exact Hcreate|]. split; [|split].
  - intros body s s' json Hrun.
    unfold NotificationController.createNotification, await, resolve in Hrun.
    destruct (NotificationService.createNotification lib now _ _ None s)
      as [s1 [result|e]] eqn:Hsvc; [|done].
    injection Hrun as <- Hcode <-.
    destruct (prop_is "status" "success" result) eqn:Hok; [|done].
    destruct (Hcreate _ _ _ _ _ _ Hsvc Hok) as (n & -> & Hrows & Hunread).
    exists n. by rewrite success_message.
  - intros request s id r r' Hkeyed Hr Hread Hr'.
    assert (forall p : Promise Object,
               preserves "Notifications" p ->
               findByPk NotificationModel id (fst (p s)) = Some r' -> r' = r)
      as Hpreserved.
    { intros p Hp Hfound. unfold findByPk, rows in *.
      change (tableName NotificationModel) with "Notifications" in *.
      rewrite Hp in Hfound. congruence. }
    assert (forall p : Promise Object,
               shrinks p ->
               findByPk NotificationModel id (fst (p s)) = Some r' -> r' = r)
      as Hshrunk.
    { intros p Hp Hfound.
      apply (find_keyed NotificationModel s id r r' (fst (p s)) Hkeyed);
        [|done|done].
      intros x Hx. by apply (Hp s "Notifications" x). }
    destruct request
      as [? ?|? ? ?|?|?|?|?|? ?|?|uid text kind|nid|nid|? ?|?|? ?|?|?|? ?|?];
      cbn [handle] in Hr'.
    + by rewrite (Hpreserved _ (saveTask_preserves_notifications _ _ _ _) Hr').
    + by rewrite (Hpreserved _ (updateTask_preserves_notifications _ _ _ _ _) Hr').
    + by rewrite (Hshrunk _ (deleteTask_shrinks _ _) Hr').
    + by rewrite (Hpreserved _ (saveTag_preserves_notifications _ _ _) Hr').
    + by rewrite (Hpreserved _ (saveCategory_preserves_notifications _ _ _) Hr').
    + by rewrite (Hpreserved _ (saveUser_preserves_notifications _ _ _) Hr').
    + by rewrite (Hpreserved _ (updateUser_preserves_notifications _ _ _ _) Hr').
    + by rewrite (Hshrunk _ (deleteUser_shrinks _ _) Hr').
    + destruct (createNotification_rows lib now uid text kind s)
        as [(n & _ & Hrows & _)|(msg & Heq)]; cbn zeta in *.
      * unfold findByPk in *. destruct id as [[|k| |]|]; try done.
        rewrite Hrows, (find_app_l _ _ _ _ Hr) in Hr'. congruence.
      * rewrite Heq in Hr'. cbn [fst] in Hr'. congruence.
    + destruct (markAsRead_rows lib now nid s) as (f & Hrows & Hkey & Hf).
      unfold findByPk in *. destruct id as [[|k| |]|]; try done.
      rewrite Hrows, find_map_commute, Hr in Hr' by (intros x; apply Hkey).
      injection Hr' as <-. destruct (Hf r) as [->|Hset]; done.
    + by rewrite (Hshrunk _ (deleteNotification_shrinks _ _) Hr').
    + by rewrite (Hpreserved _ (updateTag_preserves_notifications _ _ _ _) Hr').
    + by rewrite (Hshrunk _ (deleteTag_shrinks _ _) Hr').
    + by rewrite (Hpreserved _ (updateCategory_preserves_notifications _ _ _ _) Hr').
    + by rewrite (Hshrunk _ (deleteCategory_shrinks _ _) Hr').
    + by rewrite (Hpreserved _ (saveSession_preserves_notifications _ _ _) Hr').
    + by rewrite (Hpreserved _ (updateSession_preserves_notifications _ _ _ _) Hr').
    + by rewrite (Hshrunk _ (deleteSession_shrinks _ _) Hr').
  - intros id s r Hfind.
    assert (exists k, id = Some (VStr k)
                      /\ r !! "notificationID" = Some (VStr k)
                      /\ pk_is NotificationModel k r = true) as (k & -> & Hk & Hp).
    { unfold findByPk in Hfind. destruct id as [[|k| |]|]; try done.
      exists k. apply find_some in Hfind as [_ Hp]. split; [done|].
      split; [by apply prop_is_true in Hp|done]. }
    unfold NotificationService.markAsRead, try_catch, await.
    rewrite Hfind. unfold instance_update, await.
    change (r !! primaryKeyAttribute NotificationModel) with (r !! "notificationID").
    rewrite Hk, mark_read_update. cbn [resolve].
    eexists _, _, _. split; [reflexivity|]. split; [apply write_read_status|].
    split; [|apply write_read_status].
    unfold findByPk, rows. rewrite table_log, table_set_table_eq.
    rewrite find_map_commute.
    + unfold findByPk in Hfind. unfold rows in Hfind. rewrite Hfind. cbn.
      by rewrite Hp.
    + intros x. destruct (pk_is NotificationModel k x) eqn:Hx; [|done].
      unfold pk_is, prop_is in *.
      change (primaryKeyAttribute NotificationModel) with "notificationID" in *.
      by rewrite write_read_key.
Qed.

(** ** Primary keys stay unique *)

Lemma keyed_empty M : keyed M empty_store.
Proof. by intros k r1 r2 Hin. Qed.

(** Every request keeps the keys of [Notifications] unique. *)
Lemma handle_keeps_keyed lib now request s :
  keyed NotificationModel s ->
  keyed NotificationModel (fst (handle lib now request s)).
Proof.
  intros Hkeyed.
  assert (forall p : Promise Object,
             preserves "Notifications" p ->
             keyed NotificationModel (fst (p s))) as Hpreserved.
  { intros p Hp k r1 r2. unfold rows.
    change (tableName NotificationModel) with "Notifications".
    rewrite Hp. apply Hkeyed. }
  assert (forall p : Promise Object,
             shrinks p -> keyed NotificationModel (fst (p s))) as Hshrunk.
  { intros p Hp k r1 r2 H1 H2. apply Hkeyed; by apply (Hp s "Notifications"). }
  destruct request
      as [? ?|? ? ?|?|?|?|?|? ?|?|uid text kind|nid|nid|? ?|?|? ?|?|?|? ?|?];
    cbn [handle].
  - apply Hpreserved, saveTask_preserves_notifications.
  - apply Hpreserved, updateTask_preserves_notifications.
  - apply Hshrunk, deleteTask_shrinks.
  - apply Hpreserved, saveTag_preserves_notifications.
  - apply Hpreserved, saveCategory_preserves_notifications.
  - apply Hpreserved, saveUser_preserves_notifications.
  - apply Hpreserved, updateUser_preserves_notifications.
  - apply Hshrunk, deleteUser_shrinks.
  - destruct (createNotification_rows lib now uid text kind s)
      as [(n & _ & Hrows & _ & k0 & Hk0 & Hfresh)|(msg & ->)]; cbn zeta in *;
      [|done].
    intros k r1 r2. rewrite Hrows. intros H1 H2 Hp1 Hp2.
    apply in_app_or in H1 as [H1|[<-|[]]]; apply in_app_or in H2 as [H2|[<-|[]]].
    + by apply (Hkeyed k).
    + exfalso. apply prop_is_true in Hp2.
      change (primaryKeyAttribute NotificationModel) with "notificationID" in Hp2.
      rewrite Hk0 in Hp2. injection Hp2 as ->.
      specialize (Hfresh r1 H1). congruence.
    + exfalso. apply prop_is_true in Hp1.
      change (primaryKeyAttribute NotificationModel) with "notificationID" in Hp1.
      rewrite Hk0 in Hp1. injection Hp1 as ->.
      specialize (Hfresh r2 H2). congruence.
    + done.
  - destruct (markAsRead_rows lib now nid s) as (f & Hrows & Hkey & _).
    intros k r1 r2. rewrite Hrows. intros H1 H2 Hp1 Hp2.
    apply in_map_iff in H1 as (x1 & <- & H1).
    apply in_map_iff in H2 as (x2 & <- & H2).
    rewrite Hkey in Hp1, Hp2. f_equal. by apply (Hkeyed k).
  - apply Hshrunk, deleteNotification_shrinks.
  - apply Hpreserved, updateTag_preserves_notifications.
  - apply Hshrunk, deleteTag_shrinks.
  - apply Hpreserved, updateCategory_preserves_notifications.
  - apply Hshrunk, deleteCategory_shrinks.
  - apply Hpreserved, saveSession_preserves_notifications.
  - apply Hpreserved, updateSession_preserves_notifications.
  - apply Hshrunk, deleteSession_shrinks.
Qed.

(** * Create, then find *)

(** A created row is found by its key. *)
Lemma create_then_findByPk lib M now data s s' row :
  has_key M ->
  create lib M now data s = (s', Resolved row) ->
  findByPk M (row !! primaryKeyAttribute M) s' = Some row.
Proof.
  intros HM Hc. destruct (create_key lib M now data s s' row HM Hc)
    as (k & Hk & Hfresh).
  rewrite Hk. unfold findByPk. rewrite (create_rows _ _ _ _ _ _ _ Hc).
  rewrite find_app_r by (by apply find_none_iff).
  cbn. unfold pk_is, prop_is. by rewrite Hk, String.eqb_refl.
Qed.

Lemma toDTO_email user : UserView.toDTO user !! "email" = user !! "Email".
Proof.
  unfold UserView.toDTO.
  rewrite lookup_set_prop_ne, lookup_insert_ne by done.
  apply lookup_set_prop_eq.
Qed.

Lemma toDTO_phoneNumber user :
  UserView.toDTO user !! "phoneNumber" = user !! "phoneNumber".
Proof.
  unfold UserView.toDTO.
  rewrite lookup_set_prop_ne, lookup_insert_ne, lookup_set_prop_ne by done.
  apply lookup_set_prop_eq.
Qed.

Lemma toDTO_fullName user :
  UserView.toDTO user !! "fullName"
  = Some (VStr (interpolate (user !! "firstName") ++ " "
                ++ interpolate (user !! "lastName"))).
Proof.
  unfold UserView.toDTO. rewrite lookup_set_prop_ne by done.
  apply lookup_insert_eq.
Qed.

Lemma toDTO_other user name :
  "userId" <> name -> "fullName" <> name -> "email" <> name ->
  "phoneNumber" <> name -> "createdAt" <> name ->
  UserView.toDTO user !! name = None.
Proof.
  intros H1 H2 H3 H4 H5. unfold UserView.toDTO.
  rewrite lookup_set_prop_ne, lookup_insert_ne, !lookup_set_prop_ne by done.
  apply lookup_empty.
Qed.

(** * The response envelope *)

(** The error envelope does carry its text under ["message"]. *)
Lemma error_envelope_keys now text :
  Messages.error now (Some (VStr text)) !! "status" = Some (VStr "error")
  /\ Messages.error now (Some (VStr text)) !! "message" = Some (VStr text).
Proof. split; [apply error_status | apply error_message]. Qed.

(** C1 (the code departs from it).  The success envelope built by
    [Messages.success] carries its payload under the key ["message"] and has
    no key ["data"]: whatever the payload, and in particular for the
    notification that [createNotification] returns for the user "U1" of
    the store [office]. *)
Theorem success_envelope_has_no_data_key :
  forall (lib : Library) (now : string),
    (forall payload,
        Messages.success now payload !! "data" = None
        /\ Messages.success now payload !! "message" = payload)
    /\ exists s' notification user,
        findByPk UserModel (Some (VStr "U1")) office = Some user
        /\ NotificationService.createNotification lib now
             (Some (VStr "U1")) (Some (VStr "hello")) None office
           = (s', Resolved (Messages.success now (Some (VObj notification))))
        /\ notification !! "userID" = Some (VStr "U1")
        /\ notification !! "content" = Some (VStr "hello")
        /\ Messages.success now (Some (VObj notification)) !! "data" = None
        /\ Messages.success now (Some (VObj notification)) !! "message"
           = Some (VObj notification).
Proof.
  intros lib now.
  assert (forall payload,
             Messages.success now payload !! "data" = None
             /\ Messages.success now payload !! "message" = payload) as Hkeys.
  { intros payload. split; [|apply success_message].
    unfold Messages.success. rewrite !lookup_insert_ne by done.
    rewrite lookup_set_prop_ne by done. apply lookup_empty. }
  split; [exact Hkeys|].
  unfold NotificationService.createNotification, try_catch, await, resolve.
  match goal with
  | |- context [create lib NotificationModel now ?d office] =>
      destruct (create lib NotificationModel now d office)
        as [s1 [n|e]] eqn:Hc
  end.
  - exists s1, n, (default ∅ (findByPk UserModel (Some (VStr "U1")) office)).
    split; [apply (some_eta ∅); vm_compute; reflexivity|].
    split; [reflexivity|].
    split; [|split; [|apply Hkeys]].
    + eapply create_supplied; [exact Hc| |].
      * apply list_elem_of_In. vm_compute. tauto.
      * apply lookup_set_prop_eq.
    + eapply create_supplied; [exact Hc| |].
      * apply list_elem_of_In. vm_compute. tauto.
      * rewrite lookup_set_prop_ne by done. apply lookup_set_prop_eq.
  - exfalso. revert Hc. unfold create.
    match goal with
    | |- context [check_attributes lib ?M ?a ?r] =>
        assert (check_attributes lib M a r = None) as ->
          by (vm_compute; reflexivity)
    end.
    match goal with
    | |- context [check_unique ?M ?a ?o ?r] =>
        assert (check_unique M a o r = None) as ->
          by (vm_compute; reflexivity)
    end.
    discriminate.
Qed.

(** * Routing *)

Section RoutingFacts.
Context {Handler : Type} `{EqDecision Handler}.
Context (decode : string -> option string).

Lemma lower_nonempty x b :
  String.eqb (lower x) (lower b) = true ->
  String.eqb (lower b) "" = false ->
  String.eqb x "" = false.
Proof.
  intros H1 H2. apply String.eqb_eq in H1. rewrite <- H1 in H2.
  destruct x; [done|]. done.
Qed.

Lemma covers_match p1 p2 segments :
  covers p1 p2 = true ->
  is_Some (match_path p2 segments) ->
  is_Some (match_path p1 segments).
Proof.
  revert p2 segments. induction p1 as [|[a|n] p1 IH]; intros [|[b|n'] p2] segments;
    cbn [covers]; try done.
  - intros H. apply andb_true_iff in H as [Hab Hc].
    destruct segments as [|x xs]; cbn [match_path]; [by intros []|].
    apply String.eqb_eq in Hab. rewrite Hab.
    destruct (String.eqb (lower x) (lower b)); [|by intros []]. by apply IH.
  - intros H. apply andb_true_iff in H as [Hb Hc]. apply negb_true_iff in Hb.
    destruct segments as [|x xs]; cbn [match_path]; [by intros []|].
    destruct (String.eqb (lower x) (lower b)) eqn:Hx; [|by intros []].
    rewrite (lower_nonempty x b Hx Hb). intros Hm.
    destruct (IH p2 xs Hc Hm) as [ps ->]. by eexists.
  - intros Hc. destruct segments as [|x xs]; cbn [match_path]; [by intros []|].
    destruct (String.eqb x ""); [by intros []|].
    intros [ps Hm]. destruct (match_path p2 xs) as [ps2|] eqn:H2; [|done].
    destruct (IH p2 xs Hc) as [ps1 ->]; [by eexists|]. by eexists.
Qed.

(** Routes that do not apply to the request are passed over. *)
Lemma route_passes_over (routes : list (Route (Handler := Handler)))
    method segments (h : Handler) params :
  Forall (fun r : Route (Handler := Handler) =>
            handler_of r = h ->
            match_path (snd (fst r)) segments = None
            \/ handles (fst (fst r)) method = false) routes ->
  route decode routes method segments <> Run h params.
Proof.
  induction routes as [|[[m p] h1] rest IH]; intros Hall; [done|].
  apply Forall_cons in Hall as [Hhead Hrest]. cbn [route].
  destruct (match_path p segments) as [raw|] eqn:Hm; [|by apply IH].
  destruct (decode_params decode raw) as [ps|]; [|done].
  destruct (handles m method) eqn:Hh; [|by apply IH].
  intros Heq. injection Heq as -> _.
  destruct (Hhead eq_refl) as [Hn|Hn]; cbn in Hn; congruence.
Qed.

Lemma shadowed_never_runs (routes : list (Route (Handler := Handler)))
    (h : Handler) method segments params :
  shadowed_in routes h = true ->
  route decode routes method segments <> Run h params.
Proof.
  induction routes as [|[[m p] h1] rest IH]; [done|]. cbn [shadowed_in].
  intros Hs. apply andb_true_iff in Hs as [Hne Hs].
  apply negb_true_iff, bool_decide_eq_false in Hne. cbn [route].
  assert (forall ps, Run h1 ps <> Run h params) as Hrun
    by (intros ps Heq; by injection Heq).
  apply orb_true_iff in Hs as [Hcov|Hlater].
  2:{ destruct (match_path p segments) as [raw|]; [|by apply IH].
      destruct (decode_params decode raw) as [ps|]; [|done].
      destruct (handles m method); [apply Hrun | by apply IH]. }
  assert (match_path p segments = None
          \/ (is_Some (match_path p segments) /\ handles m method = false)
          -> route decode rest method segments <> Run h params) as Hskip.
  { intros Hwhy. apply route_passes_over. apply Forall_forall.
    intros [[m2 p2] h2] Hin Hh2. cbn in Hh2. subst h2. cbn [fst snd].
    rewrite forallb_forall in Hcov. specialize (Hcov _ (proj1 (list_elem_of_In _ _) Hin)).
    cbn in Hcov. apply orb_true_iff in Hcov as [Hc|Hc].
    { apply negb_true_iff, bool_decide_eq_false in Hc. done. }
    apply andb_true_iff in Hc as [Hm2 Hc]. apply bool_decide_eq_true in Hm2.
    subst m2. destruct Hwhy as [Hnone|[_ Hnot]]; [|by right].
    left. destruct (match_path p2 segments) eqn:H2; [|done].
    destruct (covers_match p p2 segments Hc) as [? Hsome]; [by eexists|].
    congruence. }
  destruct (match_path p segments) as [raw|] eqn:Hm; [|by apply Hskip; left].
  destruct (decode_params decode raw) as [ps|]; [|done].
  destruct (handles m method) eqn:Hh; [apply Hrun|].
  apply Hskip. right. split; [by eexists|done].
Qed.

End RoutingFacts.

Lemma app_routes decode m path segs rest (h : App.Handler) params :
  m <> Options ->
  App.segments_of path = Some segs ->
  mounted App.URLVersion segs = Some rest ->
  route decode App.routers m (drop_trailing_slash rest) = Run h params ->
  App.app decode (request m path) = App.Invoke h params.
Proof.
  intros Hm Hsegs Hmount Hroute. unfold App.app, request.
  cbn [App.method App.path App.malformed_body].
  rewrite Hsegs, Hmount, Hroute. by destruct m.
Qed.

(** X17.  The handlers a request can reach.  Within a router the routes
    are tried in order, and [/tasks/:taskID], [/tags/:tagID],
    [/categories/:categoryID] and [/users/:userID] come before the routes
    [/tasks/title], [/tasks/tag], [/tasks/category], [/tags/tagName],
    [/categories/categoryName], [/users/category], [/users/tag] and
    [/users/search], which they cover: the handlers of these eight routes
    are run by no request, and every other handler is run by some
    request. *)
Theorem reachable_handlers :
  forall (decodeURIComponent : string -> option string),
    decodeURIComponent "1" = Some "1" ->
    forall h : App.Handler,
      (exists request params,
          App.app decodeURIComponent request = App.Invoke h params)
      <-> h ∉ shadowed_handlers.
Proof.
  intros decode Hplain h. split.
  - intros (req & params & Hrun) Hin.
    assert (shadowed_in App.routers h = true) as Hs.
    { unfold shadowed_handlers in Hin.
      repeat (apply elem_of_cons in Hin as [->|Hin]; [vm_compute; reflexivity|]).
      by apply elem_of_nil in Hin. }
    unfold App.app in Hrun.
    destruct (App.method req); try done;
      (destruct (App.malformed_body req); [done|]);
      (destruct (App.segments_of (App.path req)) as [segs|]; [|done]);
      (destruct (mounted App.URLVersion segs) as [rest|];
       [|by destruct (drop_trailing_slash segs)]);
      match type of Hrun with
      | context [route decode App.routers ?m ?l] =>
          pose proof (shadowed_never_runs decode App.routers h m l params Hs) as Hne;
          destruct (route decode App.routers m l) as [h' ps| |] eqn:Hr
      end;
      try done;
      try (injection Hrun as -> ->; done);
      by destruct (drop_trailing_slash segs).
  - intros Hnot. exists (request_for h).
    destruct h;
      first [ solve [ exfalso; apply Hnot; unfold shadowed_handlers;
                      repeat constructor ]
            | eexists; cbn [request_for]; eapply app_routes;
              [ done | vm_compute; reflexivity | vm_compute; reflexivity
              | cbv; rewrite ?Hplain; reflexivity ] ].
Qed.

Lemma split_no_slash word : no_slash word = true -> split word = [word].
Proof.
  induction word as [|c word IH]; [done|]. unfold no_slash. cbn [all_chars split].
  intros H. apply andb_true_iff in H as [Hc Hw]. apply negb_true_iff in Hc.
  rewrite Hc. unfold no_slash in IH. by rewrite IH.
Qed.

Lemma split_segment word rest :
  no_slash word = true ->
  split (word ++ String "/"%char rest) = word :: split rest.
Proof.
  induction word as [|c word IH]; [done|]. unfold no_slash.
  cbn [all_chars]. intros H. apply andb_true_iff in H as [Hc Hw].
  apply negb_true_iff in Hc.
  change (String c word ++ String "/"%char rest)
    with (String c (word ++ String "/"%char rest)).
  cbn [split]. rewrite Hc. unfold no_slash in IH. by rewrite IH.
Qed.

(** The path [/v1/<collection>/<word>]. *)
Lemma segments_of_item collection word :
  no_slash collection = true ->
  no_slash word = true ->
  App.segments_of ("/v1/" ++ collection ++ "/" ++ word)
  = Some ["v1"; collection; word].
Proof.
  intros Hc Hw. unfold App.segments_of.
  change ("/v1/" ++ collection ++ "/" ++ word)
    with ("" ++ String "/"%char ("v1" ++ String "/"%char
                                   (collection ++ String "/"%char word))).
  rewrite !split_segment by done. by rewrite split_no_slash.
Qed.

Lemma route_skips {Handler} decode (pre rest : list (Route (Handler := Handler)))
    m segments :
  Forall (fun r : Route => match_path (snd (fst r)) segments = None) pre ->
  route decode (pre ++ rest) m segments = route decode rest m segments.
Proof.
  induction 1 as [|[[m' p] h] pre Hp Hpre IH]; [done|].
  cbn [app route]. cbn in Hp. by rewrite Hp.
Qed.

(** [GET /v1/<collection>/<word>] runs the first route
    [/<collection>/:name], when no route before it matches the path. *)
Lemma app_item decode pre m name h post (meth : Method) collection word id :
  App.routers = (pre ++ (m, [Lit collection; Param name], h) :: post)%list ->
  Forall (fun r : Route => match_path (snd (fst r)) [collection; word] = None)
         pre ->
  no_slash collection = true ->
  collection <> "" ->
  no_slash word = true ->
  word <> "" ->
  decode word = Some id ->
  handles m meth = true ->
  meth <> Options ->
  App.app decode (request meth ("/v1/" ++ collection ++ "/" ++ word))
  = App.Invoke h [(name, id)].
Proof.
  intros Hrouters Hpre Hc Hc' Hw Hw' Hid Hm Hmeth.
  apply (app_routes decode meth _ ["v1"; collection; word] [collection; word]);
    [done|by apply segments_of_item| |].
  - unfold mounted. cbn [lower App.URLVersion]. rewrite String.eqb_refl.
    destruct collection; done.
  - cbn [drop_trailing_slash]. apply String.eqb_neq in Hw'. rewrite Hw'.
    rewrite Hrouters, route_skips by done. cbn [route match_path].
    rewrite String.eqb_refl, Hw'. cbn [fmap option_fmap option_map decode_params].
    by rewrite Hid, Hm.
Qed.

Ltac routes_pass :=
  unfold App.categoryRouter, App.notificationRouter, App.sessionRouter,
    App.tagRouter, App.taskRouter, App.userRouter;
  cbn [app]; repeat (constructor; [reflexivity|]); constructor.

(** X18.  The look-ups by identifier of tasks, sessions and users.  For
    a segment [word] that decodes to [id], [GET /v1/tasks/word],
    [GET /v1/sessions/word] and [GET /v1/users/word] run [getTaskByID],
    [getSessionByID] and [getUserByID] with [id]: also for the words
    "title", "tag", "category" and "search".  Each of the three calls a
    method that its service does not have: [getTaskByID] rejects, the other
    two answer 500 with the message of the [TypeError], and none touches
    the store. *)
Theorem lookups_by_identifier_fail :
  forall (decodeURIComponent : string -> option string) (word id : string)
         (s : Store),
    no_slash word = true ->
    word <> "" ->
    decodeURIComponent word = Some id ->
    (App.app decodeURIComponent (request Get ("/v1/tasks/" ++ word))
     = App.Invoke App.getTaskByID [("taskID", id)]
     /\ TaskController.getTaskByID id s
        = (s, Rejected (Error "TaskService.findTask is not a function")))
    /\ (App.app decodeURIComponent (request Get ("/v1/sessions/" ++ word))
        = App.Invoke App.getSessionByID [("sessionID", id)]
        /\ SessionController.getSessionByID id s
           = (s, Resolved
                   (500, <["status" := VStr "error"]>
                           {["message" :=
                               VStr "SessionService.findSession is not a function"]})))
    /\ (App.app decodeURIComponent (request Get ("/v1/users/" ++ word))
        = App.Invoke App.getUserByID [("userID", id)]
        /\ UserController.getUserByID id s
           = (s, Resolved
                   (500, <["status" := VStr "error"]>
                           {["message" :=
                               VStr "UserService.findUser is not a function"]}))).
Proof.
  intros decode word id s Hw Hw' Hid.
  split; [|split]; (split; [|reflexivity]).
  - apply (app_item decode
             (App.categoryRouter ++ App.notificationRouter ++ App.sessionRouter
              ++ App.tagRouter)%list
             Get "taskID" App.getTaskByID (tl App.taskRouter ++ App.userRouter)%list
             Get "tasks" word id);
      [reflexivity|routes_pass|done..].
  - apply (app_item decode (App.categoryRouter ++ App.notificationRouter)%list
             Get "sessionID" App.getSessionByID
             (tl App.sessionRouter ++ App.tagRouter ++ App.taskRouter
              ++ App.userRouter)%list
             Get "sessions" word id);
      [reflexivity|routes_pass|done..].
  - apply (app_item decode
             (App.categoryRouter ++ App.notificationRouter ++ App.sessionRouter
              ++ App.tagRouter ++ App.taskRouter)%list
             Get "userID" App.getUserByID (tl App.userRouter) Get "users" word id);
      [reflexivity|routes_pass|done..].
Qed.

(** * Finding, updating and deleting by identifier *)

Lemma findByPk_Some M id s r :
  findByPk M id s = Some r ->
  exists k, id = Some (VStr k)
            /\ r !! primaryKeyAttribute M = Some (VStr k)
            /\ In r (rows M s).
Proof.
  unfold findByPk. destruct id as [[|k| |]|]; try done. intros H.
  apply find_some in H as [Hin Hp]. exists k. split; [done|].
  split; [by apply prop_is_true|done].
Qed.

(** [destroy] removes from the table of the model the rows with the key of
    the instance, and no other. *)
Lemma destroy_rows M cs instance k s :
  instance !! primaryKeyAttribute M = Some (VStr k) ->
  (forall p fk, In (p, tableName M, fk) cs -> p <> tableName M) ->
  rows M (fst (destroy M cs instance s))
  = List.filter (fun r => negb (pk_is M k r)) (rows M s).
Proof.
  intros Hk Hcs. unfold destroy. rewrite Hk. cbn [fst]. unfold rows at 1.
  rewrite table_log, cascades_other_table by done.
  apply table_set_table_eq.
Qed.

Lemma cascades_leave_alone M :
  tableName M <> "Tasks" ->
  forall p fk, In (p, tableName M, fk) Database.cascades -> p <> tableName M.
Proof. intros H p fk [[= <- _ _]|[]]. done. Qed.

Lemma find_filter_out {A} (p : A -> bool) (l : list A) :
  List.find p (List.filter (fun x => negb (p x)) l) = None.
Proof.
  apply find_none_iff. intros x Hx. apply filter_In in Hx as [_ Hx].
  by apply negb_true_iff.
Qed.

Section ByKey.
Context (lib : Library).

(** The shape of [deleteTag], [deleteCategory], [deleteSession] and
    [deleteUser]. *)
Lemma delete_by_key M now (id : option Value) (done_ : Object -> Object)
    (missing : string) s :
  tableName M <> "Tasks" ->
  let p := try_catch
             (let* found := (fun s => (s, Resolved (findByPk M id s))) in
              match found with
              | None => throw (Error missing)
              | Some found =>
                  let* _ := destroy M Database.cascades found in
                  resolve (done_ found)
              end)
             (return_error now) in
  match findByPk M id s with
  | None => p s = (s, Resolved (Messages.error now (Some (VStr missing))))
  | Some found =>
      exists s',
        p s = (s', Resolved (done_ found))
        /\ rows M s'
           = List.filter (fun r => negb (pk_is M (key_of M found) r)) (rows M s)
        /\ journal s' = (journal s ++ [DELETE (tableName M) (key_of M found)])%list
        /\ findByPk M id s' = None
  end.
Proof.
  intros HM p. subst p. unfold try_catch, await, throw, return_error, resolve.
  destruct (findByPk M id s) as [found|] eqn:Hfind; [|done].
  destruct (findByPk_Some _ _ _ _ Hfind) as (k & -> & Hk & Hin).
  pose proof (destroy_rows M Database.cascades found k s Hk
                (cascades_leave_alone M HM)) as Hrows.
  destruct (destroy_keyed M Database.cascades found k s Hk)
    as (s' & Hd & Hj & _ & _).
  rewrite Hd in *. cbn [fst] in Hrows. exists s'. split; [done|].
  unfold key_of. rewrite Hk. split; [done|]. split; [done|].
  unfold findByPk. rewrite Hrows. apply find_filter_out.
Qed.

(** [instance.update] keeps the key of the row. *)
Lemma write_key M now values r :
  onUpdateValues M now !! primaryKeyAttribute M = None ->
  write M now (delete (primaryKeyAttribute M) values) r !! primaryKeyAttribute M
  = r !! primaryKeyAttribute M.
Proof.
  intros Hu. rewrite write_lookup, Hu.
  assert (restrict M (delete (primaryKeyAttribute M) values)
          !! primaryKeyAttribute M = None) as ->; [|done].
  unfold restrict. apply map_lookup_filter_None. left. apply lookup_delete_eq.
Qed.

(** The shape of [updateTag], [updateCategory], [updateSession] and
    [updateUser]. *)
Lemma update_by_key M now (id : option Value) (values : Object)
    (done_ : Object -> Object) (missing : string) s :
  onUpdateValues M now !! primaryKeyAttribute M = None ->
  let p := try_catch
             (let* found := (fun s => (s, Resolved (findByPk M id s))) in
              match found with
              | None => throw (Error missing)
              | Some found =>
                  let* found := instance_update lib M now found values in
                  resolve (done_ found)
              end)
             (return_error now) in
  let values' := delete (primaryKeyAttribute M) values in
  match findByPk M id s with
  | None => p s = (s, Resolved (Messages.error now (Some (VStr missing))))
  | Some found =>
      (exists text, p s = (s, Resolved (Messages.error now (Some (VStr text)))))
      \/ (exists s',
             p s = (s', Resolved (done_ (write M now values' found)))
             /\ rows M s'
                = List.map (fun r => if pk_is M (key_of M found) r
                                     then write M now values' r else r)
                           (rows M s)
             /\ findByPk M id s' = Some (write M now values' found)
             /\ (forall name, name <> tableName M -> table name s' = table name s))
  end.
Proof.
  intros Hu p values'. subst p.
  unfold try_catch, await, throw, return_error, resolve.
  destruct (findByPk M id s) as [found|] eqn:Hfind; [|done].
  destruct (findByPk_Some _ _ _ _ Hfind) as (k & -> & Hk & Hin).
  unfold instance_update, await, resolve. rewrite Hk. fold values'.
  destruct (update lib M now values' (Some (VStr k)) s) as [s' [n|e]] eqn:Hup.
  - right. exists s'. split; [done|].
    pose proof (update_other_table lib M now values' (Some (VStr k)) s) as Hother.
    rewrite Hup in Hother. cbn [fst] in Hother.
    apply update_resolved in Hup as [-> _].
    unfold key_of. rewrite Hk.
    assert (rows M
              (log (UPDATE (tableName M) (interpolate (Some (VStr k))))
                 (set_table (tableName M)
                    (List.map (fun r => if pk_is M k r
                                        then write M now values' r else r)
                              (rows M s)) s))
            = List.map (fun r => if pk_is M k r
                                 then write M now values' r else r) (rows M s))
      as Hrows by (unfold rows at 1; by rewrite table_log, table_set_table_eq).
    split; [exact Hrows|]. split; [|by intros name Hne; apply Hother].
    unfold findByPk. rewrite Hrows, find_map_commute.
    + unfold findByPk in Hfind. rewrite Hfind. cbn.
      apply find_some in Hfind as [_ ->]. done.
    + intros x. destruct (pk_is M k x) eqn:Hx; [|done].
      unfold pk_is, prop_is in *. subst values'. by rewrite write_key.
  - left. apply update_rejected in Hup as ->. by eexists.
Qed.

End ByKey.

Lemma write_supplied M now values r name v :
  name ∈ attribute_names M ->
  onUpdateValues M now !! name = None ->
  values !! name = Some v ->
  write M now values r !! name = Some v.
Proof.
  intros Hin Hu Hv. by rewrite write_lookup, Hu, restrict_lookup, Hv.
Qed.

Lemma write_kept M now values r name :
  onUpdateValues M now !! name = None ->
  values !! name = None \/ name ∉ attribute_names M ->
  write M now values r !! name = r !! name.
Proof.
  intros Hu Hv. rewrite write_lookup, Hu.
  assert (restrict M values !! name = None) as ->; [|done].
  unfold restrict. apply map_lookup_filter_None.
  destruct Hv as [Hv|Hv]; [by left|]. right. intros v _. exact Hv.
Qed.

Lemma error_envelope_is_not_success now text (s s' : Store) (result : Object) :
  (s, Resolved (Messages.error now text)) = (s', Resolved result) ->
  prop_is "status" "success" result = true -> False.
Proof.
  intros [= <- <-] H. rewrite error_is_not_success in H. discriminate H.
Qed.

(** The same for an identifier that is a string, as a controller passes
    it. *)
Lemma delete_by_id M now (id : string) (done_ : Object -> Object)
    (missing : string) s :
  tableName M <> "Tasks" ->
  let p := try_catch
             (let* found := (fun s => (s, Resolved (findByPk M (Some (VStr id)) s))) in
              match found with
              | None => throw (Error missing)
              | Some found =>
                  let* _ := destroy M Database.cascades found in
                  resolve (done_ found)
              end)
             (return_error now) in
  match findByPk M (Some (VStr id)) s with
  | None => p s = (s, Resolved (Messages.error now (Some (VStr missing))))
  | Some found =>
      exists s',
        p s = (s', Resolved (done_ found))
        /\ rows M s' = List.filter (fun r => negb (pk_is M id r)) (rows M s)
        /\ findByPk M (Some (VStr id)) s' = None
  end.
Proof.
  intros HM p.
  pose proof (delete_by_key M now (Some (VStr id)) done_ missing s HM) as H.
  cbn zeta in H. fold p in H.
  destruct (findByPk M (Some (VStr id)) s) as [found|] eqn:Hfind; [|exact H].
  destruct (findByPk_Some _ _ _ _ Hfind) as (k & [= <-] & Hk & _).
  destruct H as (s' & Hrun & Hrows & _ & Hgone). exists s'.
  split; [exact Hrun|]. split; [|exact Hgone].
  rewrite Hrows. unfold key_of. by rewrite Hk.
Qed.

(** X7.  Deleting a tag, a category, a session or a user by identifier:
    when no row has the identifier, the service resolves to the error
    envelope "... not found" and the store is as it was; otherwise it
    resolves to the success envelope with the deleted entity (for a user,
    its view), the table has lost the rows with that identifier and no
    other, and a look-up by the same identifier afterwards answers
    "... not found". *)
Theorem delete_then_find :
  forall (now later : string) (id : string) (s : Store),
    match findByPk TagModel (Some (VStr id)) s with
    | None =>
        TagService.deleteTag now (Some (VStr id)) s
        = (s, Resolved (Messages.error now (Some (VStr "Tag not found"))))
    | Some tag =>
        exists s',
          TagService.deleteTag now (Some (VStr id)) s
          = (s', Resolved (Messages.success now (Some (VObj tag))))
          /\ rows TagModel s'
             = List.filter (fun r => negb (pk_is TagModel id r)) (rows TagModel s)
          /\ TagService.findTagByID later (Some (VStr id)) s'
             = (s', Resolved (Messages.error later (Some (VStr "Tag not found"))))
    end
    /\ match findByPk CategoryModel (Some (VStr id)) s with
       | None =>
           CategoryService.deleteCategory now (Some (VStr id)) s
           = (s, Resolved (Messages.error now (Some (VStr "Category not found"))))
       | Some category =>
           exists s',
             CategoryService.deleteCategory now (Some (VStr id)) s
             = (s', Resolved (Messages.success now (Some (VObj category))))
             /\ rows CategoryModel s'
                = List.filter (fun r => negb (pk_is CategoryModel id r))
                              (rows CategoryModel s)
             /\ CategoryService.findCategoryByID later (Some (VStr id)) s'
                = (s', Resolved (Messages.error later
                                   (Some (VStr "Category not found"))))
       end
    /\ match findByPk SessionModel (Some (VStr id)) s with
       | None =>
           SessionService.deleteSession now (Some (VStr id)) s
           = (s, Resolved (Messages.error now (Some (VStr "Session not found"))))
       | Some session =>
           exists s',
             SessionService.deleteSession now (Some (VStr id)) s
             = (s', Resolved (Messages.success now (Some (VObj session))))
             /\ rows SessionModel s'
                = List.filter (fun r => negb (pk_is SessionModel id r))
                              (rows SessionModel s)
             /\ SessionService.findSessionByID later (Some (VStr id)) s'
                = (s', Resolved (Messages.error later
                                   (Some (VStr "Session not found"))))
       end
    /\ match findByPk UserModel (Some (VStr id)) s with
       | None =>
           UserService.deleteUser now (Some (VStr id)) s
           = (s, Resolved (Messages.error now (Some (VStr "User not found"))))
       | Some user =>
           exists s',
             UserService.deleteUser now (Some (VStr id)) s
             = (s', Resolved (Messages.success now
                                (Some (VObj (UserView.toDTO user)))))
             /\ rows UserModel s'
                = List.filter (fun r => negb (pk_is UserModel id r))
                              (rows UserModel s)
             /\ UserService.findUserByID later (Some (VStr id)) s'
                = (s', Resolved (Messages.error later
                                   (Some (VStr "User not found"))))
       end.
Proof.
  intros now later id s.
  pose proof (delete_by_id TagModel now id
                (fun t => Messages.success now (Some (VObj t)))
                "Tag not found" s ltac:(done)) as Htag.
  pose proof (delete_by_id CategoryModel now id
                (fun t => Messages.success now (Some (VObj t)))
                "Category not found" s ltac:(done)) as Hcategory.
  pose proof (delete_by_id SessionModel now id
                (fun t => Messages.success now (Some (VObj t)))
                "Session not found" s ltac:(done)) as Hsession.
  pose proof (delete_by_id UserModel now id
                (fun t => Messages.success now (Some (VObj (UserView.toDTO t))))
                "User not found" s ltac:(done)) as Huser.
  cbn zeta in *.
  split; [|split; [|split]].
  - destruct (findByPk TagModel (Some (VStr id)) s) as [x|]; [|exact Htag].
    destruct Htag as (s' & Hrun & Hrows & Hgone). exists s'.
    split; [exact Hrun|]. split; [exact Hrows|].
    unfold TagService.findTagByID, try_catch, await. by rewrite Hgone.
  - destruct (findByPk CategoryModel (Some (VStr id)) s) as [x|];
      [|exact Hcategory].
    destruct Hcategory as (s' & Hrun & Hrows & Hgone). exists s'.
    split; [exact Hrun|]. split; [exact Hrows|].
    unfold CategoryService.findCategoryByID, try_catch, await. by rewrite Hgone.
  - destruct (findByPk SessionModel (Some (VStr id)) s) as [x|];
      [|exact Hsession].
    destruct Hsession as (s' & Hrun & Hrows & Hgone). exists s'.
    split; [exact Hrun|]. split; [exact Hrows|].
    unfold SessionService.findSessionByID, try_catch, await. by rewrite Hgone.
  - destruct (findByPk UserModel (Some (VStr id)) s) as [x|]; [|exact Huser].
    destruct Huser as (s' & Hrun & Hrows & Hgone). exists s'.
    split; [exact Hrun|]. split; [exact Hrows|].
    unfold UserService.findUserByID, try_catch, await. by rewrite Hgone.
Qed.

(** What [instance.update] makes of a row: the key is kept, a supplied
    attribute of the model takes the supplied value, and an attribute that
    is not supplied keeps its value, the time of the last update apart. *)
Lemma updated_row M now (data old : Object) (k : string) :
  onUpdateValues M now = <["updatedAt" := VStr now]> ∅ ->
  primaryKeyAttribute M <> "updatedAt" ->
  old !! primaryKeyAttribute M = Some (VStr k) ->
  let new := write M now (delete (primaryKeyAttribute M) data) old in
  new !! primaryKeyAttribute M = Some (VStr k)
  /\ (forall name v,
        name ∈ attribute_names M -> name <> primaryKeyAttribute M ->
        name <> "updatedAt" ->
        data !! name = Some v -> new !! name = Some v)
  /\ (forall name,
        name <> "updatedAt" -> data !! name = None -> new !! name = old !! name).
Proof.
  intros Hu Hpk Hk new. subst new.
  assert (forall name, name <> "updatedAt" -> onUpdateValues M now !! name = None)
    as Hnone.
  { intros name Hne. rewrite Hu, lookup_insert_ne by (intros Heq; by apply Hne).
    apply lookup_empty. }
  split; [|split].
  - rewrite write_key; [done|]. by apply Hnone.
  - intros name v Hin Hne Hne' Hv. apply write_supplied; [done|by apply Hnone|].
    rewrite lookup_delete_ne; [done|]. intros Heq. by apply Hne.
  - intros name Hne Hv. apply write_kept; [by apply Hnone|]. left.
    destruct (decide (primaryKeyAttribute M = name)) as [<-|Hne'].
    + apply lookup_delete_eq.
    + by rewrite lookup_delete_ne.
Qed.

(** The shape of the update services, for an identifier that is a string:
    what a call that resolved has done. *)
Lemma update_by_id lib M now (id : string) (data : Object)
    (done_ : Object -> Object) (missing : string) s s' result :
  onUpdateValues M now = <["updatedAt" := VStr now]> ∅ ->
  primaryKeyAttribute M <> "updatedAt" ->
  (forall x, prop_is "status" "success" (done_ x) = true) ->
  try_catch
    (let* found := (fun s => (s, Resolved (findByPk M (Some (VStr id)) s))) in
     match found with
     | None => throw (Error missing)
     | Some found =>
         let* found := instance_update lib M now found data in
         resolve (done_ found)
     end)
    (return_error now) s
  = (s', Resolved result) ->
  (prop_is "status" "success" result = false -> s' = s)
  /\ (prop_is "status" "success" result = true ->
      exists old new,
        findByPk M (Some (VStr id)) s = Some old
        /\ result = done_ new
        /\ findByPk M (Some (VStr id)) s' = Some new
        /\ new !! primaryKeyAttribute M = Some (VStr id)
        /\ (forall name v,
              name ∈ attribute_names M -> name <> primaryKeyAttribute M ->
              name <> "updatedAt" ->
              data !! name = Some v -> new !! name = Some v)
        /\ (forall name,
              name <> "updatedAt" -> data !! name = None ->
              new !! name = old !! name)).
Proof.
  intros Hu Hpk Hdone Hrun.
  assert (onUpdateValues M now !! primaryKeyAttribute M = None) as Hu'.
  { rewrite Hu, lookup_insert_ne by (intros Heq; by apply Hpk).
    apply lookup_empty. }
  pose proof (update_by_key lib M now (Some (VStr id)) data done_ missing s Hu')
    as H.
  cbn zeta in H.
  destruct (findByPk M (Some (VStr id)) s) as [old|] eqn:Hfind.
  - destruct H as [(text & H)|(s1 & H & _ & Hfound & _)]; rewrite H in Hrun.
    + split; [intros _; by injection Hrun as <- _|].
      intros Hok. exfalso. by eapply error_envelope_is_not_success.
    + injection Hrun as <- <-. split; [by rewrite Hdone|]. intros _.
      destruct (findByPk_Some _ _ _ _ Hfind) as (k & [= <-] & Hk & _).
      destruct (updated_row M now data old id Hu Hpk Hk) as (Hkey & Hnew & Hold).
      eexists old, _. split; [done|]. split; [reflexivity|].
      split; [exact Hfound|]. split; [exact Hkey|]. split; [exact Hnew|exact Hold].
  - rewrite H in Hrun. split; [intros _; by injection Hrun as <- _|].
    intros Hok. exfalso. by eapply error_envelope_is_not_success.
Qed.

(** X6.  Updating a tag, a category or a session by an identifier that is
    not the empty string.  When the service does not succeed, the store is
    as it was.  When it succeeds,
    the entity it returns is the one a look-up by the same identifier
    finds afterwards; its identifier is the one given, whatever the data
    say; every attribute that is not a date has the value the data supply
    for it; and an attribute the data do not mention, the time of the last
    update apart, is as it was. *)
Theorem update_then_find :
  forall (lib : Library) (now later : string) (id : string)
         (data : Object) (s s' : Store) (result : Object),
    id <> "" ->
    (TagService.updateTag lib now (Some (VStr id)) data s = (s', Resolved result) ->
     (prop_is "status" "success" result = false -> s' = s)
     /\ (prop_is "status" "success" result = true ->
         exists old tag,
           findByPk TagModel (Some (VStr id)) s = Some old
           /\ result = Messages.success now (Some (VObj tag))
           /\ TagService.findTagByID later (Some (VStr id)) s'
              = (s', Resolved (Messages.success later (Some (VObj tag))))
           /\ tag !! "tagID" = Some (VStr id)
           /\ (forall name v,
                 In name ["workspaceID"; "name"] ->
                 data !! name = Some v -> tag !! name = Some v)
           /\ (forall name,
                 name <> "updatedAt" -> data !! name = None ->
                 tag !! name = old !! name)))
    /\ (CategoryService.updateCategory lib now (Some (VStr id)) data s
        = (s', Resolved result) ->
        (prop_is "status" "success" result = false -> s' = s)
        /\ (prop_is "status" "success" result = true ->
            exists old category,
              findByPk CategoryModel (Some (VStr id)) s = Some old
              /\ result = Messages.success now (Some (VObj category))
              /\ CategoryService.findCategoryByID later (Some (VStr id)) s'
                 = (s', Resolved (Messages.success later (Some (VObj category))))
              /\ category !! "categoryID" = Some (VStr id)
              /\ (forall name v,
                    In name ["workspaceID"; "name"; "description"] ->
                    data !! name = Some v -> category !! name = Some v)
              /\ (forall name,
                    name <> "updatedAt" -> data !! name = None ->
                    category !! name = old !! name)))
    /\ (SessionService.updateSession lib now (Some (VStr id)) data s
        = (s', Resolved result) ->
        (prop_is "status" "success" result = false -> s' = s)
        /\ (prop_is "status" "success" result = true ->
            exists old session,
              findByPk SessionModel (Some (VStr id)) s = Some old
              /\ result = Messages.success now (Some (VObj session))
              /\ findByPk SessionModel (Some (VStr id)) s' = Some session
              /\ session !! "sessionID" = Some (VStr id)
              /\ (forall name v,
                    In name ["userID"; "workspaceID"; "activities"] ->
                    data !! name = Some v -> session !! name = Some v)
              /\ (forall name,
                    name <> "updatedAt" -> data !! name = None ->
                    session !! name = old !! name))).
Proof.
  intros lib now later id data s s' result _.
  assert (forall (l : list string) (M : ModelDef) (name : string),
             (forall x, In x l -> In x (attribute_names M)) ->
             In name l -> name ∈ attribute_names M) as Hattr.
  { intros l M name Hl Hin. by apply list_elem_of_In, Hl. }
  split; [|split].
  - intros Hrun.
    destruct (update_by_id lib TagModel now id data
                (fun t => Messages.success now (Some (VObj t)))
                "Tag not found" s s' result eq_refl ltac:(done)
                ltac:(intros x; apply success_is_success) Hrun) as [Hfail Hok].
    split; [exact Hfail|]. intros Hs.
    destruct (Hok Hs) as (old & tag & Hold & -> & Hfound & Hkey & Hnew & Hkept).
    exists old, tag. split; [exact Hold|]. split; [reflexivity|]. split.
    { unfold TagService.findTagByID, try_catch, await. by rewrite Hfound. }
    split; [exact Hkey|]. split; [|exact Hkept].
    intros name v Hin Hv.
    apply Hnew; [|cbn in Hin; intuition (subst; discriminate)..|exact Hv].
    apply list_elem_of_In. cbn in Hin |- *. intuition.
  - intros Hrun.
    destruct (update_by_id lib CategoryModel now id data
                (fun t => Messages.success now (Some (VObj t)))
                "Category not found" s s' result eq_refl ltac:(done)
                ltac:(intros x; apply success_is_success) Hrun) as [Hfail Hok].
    split; [exact Hfail|]. intros Hs.
    destruct (Hok Hs) as (old & x & Hold & -> & Hfound & Hkey & Hnew & Hkept).
    exists old, x. split; [exact Hold|]. split; [reflexivity|]. split.
    { unfold CategoryService.findCategoryByID, try_catch, await.
      by rewrite Hfound. }
    split; [exact Hkey|]. split; [|exact Hkept].
    intros name v Hin Hv.
    apply Hnew; [|cbn in Hin; intuition (subst; discriminate)..|exact Hv].
    apply list_elem_of_In. cbn in Hin |- *. intuition.
  - intros Hrun.
    destruct (update_by_id lib SessionModel now id data
                (fun t => Messages.success now (Some (VObj t)))
                "Session not found" s s' result eq_refl ltac:(done)
                ltac:(intros x; apply success_is_success) Hrun) as [Hfail Hok].
    split; [exact Hfail|]. intros Hs.
    destruct (Hok Hs) as (old & x & Hold & -> & Hfound & Hkey & Hnew & Hkept).
    exists old, x. split; [exact Hold|]. split; [reflexivity|].
    split; [exact Hfound|].
    split; [exact Hkey|]. split; [|exact Hkept].
    intros name v Hin Hv.
    apply Hnew; [|cbn in Hin; intuition (subst; discriminate)..|exact Hv].
    apply list_elem_of_In. cbn in Hin |- *. intuition.
Qed.

(** * What the models refuse *)

Section Refusals.
Context (lib : Library).

Lemma check_attributes_some M attrs r name a e :
  In (name, a) attrs ->
  check_attribute lib M name a r = Some e ->
  exists e', check_attributes lib M attrs r = Some e'.
Proof.
  induction attrs as [|[n b] attrs IH]; [done|]. cbn [check_attributes].
  intros [[= -> ->]|Hin] He.
  - rewrite He. by eexists.
  - destruct (check_attribute lib M n b r); [by eexists|]. by apply IH.
Qed.

Lemma check_unique_some M attrs others r name a v o :
  In (name, a) attrs ->
  primaryKey a || unique a = true ->
  r !! name = Some (VStr v) ->
  In o others ->
  prop_is name v o = true ->
  exists e, check_unique M attrs others r = Some e.
Proof.
  induction attrs as [|[n b] attrs IH]; [done|]. cbn [check_unique].
  intros [[= -> ->]|Hin] Hk Hv Ho Hp.
  - rewrite Hv, Hk. cbn [andb].
    assert (existsb (prop_is name v) others = true) as ->
      by (apply existsb_exists; eauto).
    by eexists.
  - destruct (match r !! n with
              | Some (VStr v0) =>
                  (primaryKey b || unique b) && existsb (prop_is n v0) others
              | _ => false
              end); [by eexists|].
    by apply IH.
Qed.

Lemma attribute_In M name a :
  In (name, a) (attributes M) -> name ∈ attribute_names M.
Proof.
  intros H. apply list_elem_of_In. unfold attribute_names.
  by apply (in_map fst) in H.
Qed.

(** The row that [create] checks holds, for an attribute of the model
    without default, what the data supplies. *)
Lemma candidate_lookup M now uuid (data : Object) name :
  name ∈ attribute_names M ->
  defaultValues M now uuid !! name = None ->
  (restrict M data ∪ defaultValues M now uuid) !! name = data !! name.
Proof.
  intros Hin Hd. rewrite lookup_union, restrict_lookup, Hd by done.
  by destruct (data !! name).
Qed.

(** [create] rejects, and writes nothing, when an attribute of the row
    violates its declaration. *)
Lemma create_refuses_attribute M now data s name a e :
  In (name, a) (attributes M) ->
  check_attribute lib M name a
    (restrict M data ∪ defaultValues M now (uuidv4 M s)) = Some e ->
  exists e', create lib M now data s
             = (s, Rejected (Error (sequelize_message lib e'))).
Proof.
  intros Hin He. unfold create.
  destruct (check_attributes_some M (attributes M) _ name a e Hin He)
    as [e' ->].
  by exists e'.
Qed.

(** [create] rejects, and writes nothing, when a row already has the value
    of a unique column. *)
Lemma create_refuses_duplicate M now data s name a v o :
  In (name, a) (attributes M) ->
  primaryKey a || unique a = true ->
  (restrict M data ∪ defaultValues M now (uuidv4 M s)) !! name = Some (VStr v) ->
  In o (rows M s) ->
  prop_is name v o = true ->
  exists e', create lib M now data s
             = (s, Rejected (Error (sequelize_message lib e'))).
Proof.
  intros Hin Hk Hv Ho Hp. unfold create.
  destruct (check_attributes lib M (attributes M) _) as [e|]; [by exists e|].
  destruct (check_unique_some M (attributes M) (rows M s) _ name a v o
              Hin Hk Hv Ho Hp) as [e ->].
  by exists e.
Qed.

(** A required attribute that is [undefined] or [null]. *)
Lemma create_requires M now data s name a :
  In (name, a) (attributes M) ->
  allowNull a = false ->
  defaultValues M now (uuidv4 M s) !! name = None ->
  nullish (data !! name) = true ->
  exists e', create lib M now data s
             = (s, Rejected (Error (sequelize_message lib e'))).
Proof.
  intros Hin Hnull Hd Hv.
  apply (create_refuses_attribute M now data s name a
           (NotNullViolation (tableName M) name) Hin).
  unfold check_attribute.
  rewrite candidate_lookup, Hnull; [|by eapply attribute_In|done].
  by destruct (data !! name) as [[]|].
Qed.

(** A string that fails a validator of its attribute. *)
Lemma create_validates M now data s name a v :
  In (name, a) (attributes M) ->
  defaultValues M now (uuidv4 M s) !! name = None ->
  data !! name = Some (VStr v) ->
  forallb (fun rule => run_validator lib rule v) (validate a) = false ->
  exists e', create lib M now data s
             = (s, Rejected (Error (sequelize_message lib e'))).
Proof.
  intros Hin Hd Hv Hrule.
  apply (create_refuses_attribute M now data s name a
           (ValidationFailed (tableName M) name) Hin).
  unfold check_attribute.
  rewrite candidate_lookup, Hv, Hrule; [|by eapply attribute_In|done].
  by rewrite andb_false_r.
Qed.

Lemma rejected_create_refuses M now data s e' (wrap : Object -> Object) :
  create lib M now data s = (s, Rejected (Error (sequelize_message lib e'))) ->
  refused now s
    (try_catch
       (let* created := create lib M now data in
        resolve (wrap created))
       (return_error now) s).
Proof.
  intros H. unfold refused, try_catch, await, return_error, resolve.
  rewrite H. by eexists.
Qed.

End Refusals.

Ltac attribute_of_model :=
  cbn [attributes UserModel TaskModel TagModel CategoryModel NotificationModel
       SubTaskModel SessionModel];
  repeat first [ left; reflexivity | right ].

(** A notification needs its content. *)
Lemma createNotification_requires_content lib now userID content type s :
  nullish content = true ->
  refused now s
    (NotificationService.createNotification lib now userID content type s).
Proof.
  intros Hnull. unfold NotificationService.createNotification.
  match goal with
  | |- context [create lib NotificationModel now ?d] => set (data := d)
  end.
  destruct (create_requires lib NotificationModel now data s "content"
              (with_allowNull false (column TEXT)))
    as [e He]; [attribute_of_model|done|reflexivity| |].
  { subst data. rewrite lookup_set_prop_ne by done.
    by rewrite lookup_set_prop_eq. }
  by apply (rejected_create_refuses lib NotificationModel now data s e
              (fun t => Messages.success now (Some (VObj t)))).
Qed.

(** X5.  The attributes that must be given.  [saveTask] with task data
    whose [title] is [undefined] or [null], whatever the subtasks,
    [saveTag] and [saveCategory] with data whose [name] is, and
    [createNotification] with a content that is, resolve to an error
    envelope and leave the store as it was. *)
Theorem required_attributes :
  forall (lib : Library) (now : string) (s : Store),
    (forall taskData subTasksData,
        nullish (taskData !! "title") = true ->
        refused now s (TaskService.saveTask lib now taskData subTasksData s))
    /\ (forall tagData,
          nullish (tagData !! "name") = true ->
          refused now s (TagService.saveTag lib now tagData s))
    /\ (forall categoryData,
          nullish (categoryData !! "name") = true ->
          refused now s (CategoryService.saveCategory lib now categoryData s))
    /\ (forall userID content type,
          nullish content = true ->
          refused now s
            (NotificationService.createNotification lib now userID content
               type s)).
Proof.
  intros lib now s. split; [|split; [|split]].
  - intros taskData subTasksData Hnull.
    destruct (create_requires lib TaskModel now taskData s "title"
                (with_allowNull false (column STRING)))
      as [e He]; [attribute_of_model|done|reflexivity|done|].
    unfold refused, TaskService.saveTask, try_catch, await, return_error, resolve.
    rewrite He. by eexists.
  - intros tagData Hnull.
    destruct (create_requires lib TagModel now tagData s "name"
                (with_allowNull false (column STRING)))
      as [e He]; [attribute_of_model|done|reflexivity|done|].
    by apply (rejected_create_refuses lib TagModel now tagData s e
                (fun t => Messages.success now (Some (VObj t)))).
  - intros categoryData Hnull.
    destruct (create_requires lib CategoryModel now categoryData s "name"
                (with_allowNull false (column STRING)))
      as [e He]; [attribute_of_model|done|reflexivity|done|].
    by apply (rejected_create_refuses lib CategoryModel now categoryData s e
                (fun t => Messages.success now (Some (VObj t)))).
  - intros userID content type. apply createNotification_requires_content.
Qed.

(** X8.  What [saveUser] refuses, with an error envelope and the store as
    it was: data without first name, last name, email or password; a first
    or last name that is empty or has a character that is not a letter; a
    phone number that is empty or has a character that is neither a digit
    nor a dash; an email that [isEmail] rejects; a password of fewer than 8
    characters, or of more than 100 without counting its variation
    selectors. *)
Theorem saveUser_validation :
  forall (lib : Library) (now : string) (userData : Object) (s : Store),
    (nullish (userData !! "firstName") || nullish (userData !! "lastName")
     || nullish (userData !! "Email") || nullish (userData !! "Password") = true ->
     refused now s (UserService.saveUser lib now userData s))
    /\ (forall name,
          userData !! "firstName" = Some (VStr name)
          \/ userData !! "lastName" = Some (VStr name) ->
          name = "" \/ all_chars letter name = false ->
          refused now s (UserService.saveUser lib now userData s))
    /\ (forall number,
          userData !! "phoneNumber" = Some (VStr number) ->
          number = "" \/ all_chars digit_or_dash number = false ->
          refused now s (UserService.saveUser lib now userData s))
    /\ (forall email,
          userData !! "Email" = Some (VStr email) ->
          isEmail lib email = false ->
          refused now s (UserService.saveUser lib now userData s))
    /\ (forall password,
          userData !! "Password" = Some (VStr password) ->
          (characters password < 8
           \/ 100 < characters password - selectors password)%nat ->
          refused now s (UserService.saveUser lib now userData s)).
Proof.
  intros lib now userData s.
  assert (forall e,
             create lib UserModel now userData s
             = (s, Rejected (Error (sequelize_message lib e))) ->
             refused now s (UserService.saveUser lib now userData s)) as Hrefused.
  { intros e He.
    by apply (rejected_create_refuses lib UserModel now userData s e
                (fun u => Messages.success now (Some (VObj (UserView.toDTO u))))). }
  assert (forall name a,
             In (name, a) (attributes UserModel) ->
             allowNull a = false ->
             defaultValues UserModel now (uuidv4 UserModel s) !! name = None ->
             nullish (userData !! name) = true ->
             refused now s (UserService.saveUser lib now userData s)) as Hrequired.
  { intros name a Hin Hnull Hd Hv.
    destruct (create_requires lib UserModel now userData s name a Hin Hnull Hd Hv)
      as [e He].
    by apply (Hrefused e). }
  assert (forall name a v,
             In (name, a) (attributes UserModel) ->
             defaultValues UserModel now (uuidv4 UserModel s) !! name = None ->
             userData !! name = Some (VStr v) ->
             forallb (fun rule => run_validator lib rule v) (validate a) = false ->
             refused now s (UserService.saveUser lib now userData s)) as Hvalidated.
  { intros name a v Hin Hd Hv Hrule.
    destruct (create_validates lib UserModel now userData s name a v Hin Hd Hv Hrule)
      as [e He].
    by apply (Hrefused e). }
  assert (forall class v,
             v = "" \/ all_chars class v = false ->
             forallb (fun rule => run_validator lib rule v) [is_ class] = false)
    as Hclass.
  { intros class v [->|Hv]; cbn; [done|]. rewrite Hv. by rewrite andb_false_r. }
  split; [|split; [|split; [|split]]].
  - intros H. apply orb_true_iff in H as [H|H];
      [apply orb_true_iff in H as [H|H]; [apply orb_true_iff in H as [H|H]|]|].
    + by eapply (Hrequired "firstName"); [attribute_of_model| | |].
    + by eapply (Hrequired "lastName"); [attribute_of_model| | |].
    + by eapply (Hrequired "Email"); [attribute_of_model| | |].
    + by eapply (Hrequired "Password"); [attribute_of_model| | |].
  - intros name [Hn|Hn] Hbad.
    + eapply (Hvalidated "firstName"); [attribute_of_model|reflexivity|exact Hn|].
      by apply Hclass.
    + eapply (Hvalidated "lastName"); [attribute_of_model|reflexivity|exact Hn|].
      by apply Hclass.
  - intros number Hn Hbad.
    eapply (Hvalidated "phoneNumber"); [attribute_of_model|reflexivity|exact Hn|].
    by apply Hclass.
  - intros email He Hbad.
    eapply (Hvalidated "Email"); [attribute_of_model|reflexivity|exact He|].
    cbn. by rewrite Hbad.
  - intros password Hp Hbad.
    eapply (Hvalidated "Password"); [attribute_of_model|reflexivity|exact Hp|].
    cbn [validate with_validate forallb run_validator]. unfold isLength.
    rewrite andb_true_r. apply andb_false_iff.
    destruct Hbad as [Hbad|Hbad]; [left|right]; apply Nat.leb_gt; lia.
Qed.

(** What a successful [saveUser] has done. *)
Lemma saveUser_resolved lib now userData s s' result :
  UserService.saveUser lib now userData s = (s', Resolved result) ->
  prop_is "status" "success" result = true ->
  exists user,
    create lib UserModel now userData s = (s', Resolved user)
    /\ result = Messages.success now (Some (VObj (UserView.toDTO user))).
Proof.
  unfold UserService.saveUser, try_catch, await, return_error, resolve.
  destruct (create lib UserModel now userData s) as [s1 [user|e]].
  - intros [= <- <-] _. by exists user.
  - intros [= <- <-] H. by rewrite error_is_not_success in H.
Qed.

(** A created user has an email and a password, which are strings. *)
Lemma created_user_strings lib now userData s s' user :
  create lib UserModel now userData s = (s', Resolved user) ->
  exists email hash,
    user !! "Email" = Some (VStr email)
    /\ user !! "Password" = Some (VStr hash)
    /\ user !! "Email" = userData !! "Email"
    /\ user !! "Password" = userData !! "Password".
Proof.
  intros Hc. apply create_resolved in Hc as (-> & Ha & _).
  assert (forall name a,
             In (name, a) (attributes UserModel) ->
             allowNull a = false ->
             defaultValues UserModel now (uuidv4 UserModel s) !! name = None ->
             exists v,
               (restrict UserModel userData
                ∪ defaultValues UserModel now (uuidv4 UserModel s)) !! name
               = Some (VStr v)
               /\ (restrict UserModel userData
                   ∪ defaultValues UserModel now (uuidv4 UserModel s)) !! name
                  = userData !! name) as Hstring.
  { intros name a Hin Hnull Hd.
    pose proof (check_attributes_none lib _ _ _ _ _ Ha Hin) as Hc.
    unfold check_attribute in Hc. rewrite Hnull in Hc.
    rewrite candidate_lookup in Hc by first [by eapply attribute_In | done].
    rewrite candidate_lookup by first [by eapply attribute_In | done].
    destruct (userData !! name) as [[|v| |]|]; try done. by exists v. }
  destruct (Hstring "Email" (with_validate [isEmail_]
                               (with_unique (with_allowNull false (column STRING)))))
    as (email & He & He'); [attribute_of_model|done|reflexivity|].
  destruct (Hstring "Password" (with_validate [len 8 100]
                                  (with_allowNull false (column STRING))))
    as (hash & Hp & Hp'); [attribute_of_model|done|reflexivity|].
  by exists email, hash.
Qed.

(** X9.  One account per email address: after a successful [saveUser],
    a [saveUser] with data of the same [Email] resolves to an error
    envelope and leaves the store as it was. *)
Theorem email_is_unique :
  forall (lib : Library) (now later : string) (userData other : Object)
         (s s' : Store) (result : Object),
    UserService.saveUser lib now userData s = (s', Resolved result) ->
    prop_is "status" "success" result = true ->
    other !! "Email" = userData !! "Email" ->
    refused later s' (UserService.saveUser lib later other s').
Proof.
  intros lib now later userData other s s' result Hrun Hok Hsame.
  destruct (saveUser_resolved _ _ _ _ _ _ Hrun Hok) as (user & Hc & _).
  destruct (created_user_strings _ _ _ _ _ _ Hc) as (email & _ & He & _ & He' & _).
  pose proof (create_rows _ _ _ _ _ _ _ Hc) as Hrows.
  destruct (create_refuses_duplicate lib UserModel later other s' "Email"
              (with_validate [isEmail_]
                 (with_unique (with_allowNull false (column STRING))))
              email user) as [e Hrefused].
  - attribute_of_model.
  - done.
  - rewrite candidate_lookup; [|cbn; set_solver|reflexivity]. congruence.
  - rewrite Hrows. apply in_or_app. right. by left.
  - by apply prop_is_true.
  - by apply (rejected_create_refuses lib UserModel later other s' e
                (fun u => Messages.success later (Some (VObj (UserView.toDTO u))))).
Qed.

(** * Passwords and sessions of users *)

Lemma editView_password user :
  UserEditView.toDTO user !! "password" = user !! "Password".
Proof.
  unfold UserEditView.toDTO. rewrite !lookup_set_prop_ne by done.
  apply lookup_set_prop_eq.
Qed.

(** X10.  A successful [updateUser], for an identifier that is not the
    empty string, answers with the edit view of the updated user, whose [password] is the stored [Password]; a [Password]
    in the data is stored as it is given, and without one the stored
    [Password] is as it was. *)
Theorem updateUser_returns_the_password :
  forall (lib : Library) (now : string) (userID : string)
         (updatedUserData : Object) (s s' : Store) (result : Object),
    userID <> "" ->
    UserService.updateUser lib now (Some (VStr userID)) updatedUserData s
    = (s', Resolved result) ->
    prop_is "status" "success" result = true ->
    exists old user,
      findByPk UserModel (Some (VStr userID)) s = Some old
      /\ findByPk UserModel (Some (VStr userID)) s' = Some user
      /\ result = Messages.success now (Some (VObj (UserEditView.toDTO user)))
      /\ property "password" (result !! "message") = user !! "Password"
      /\ (forall password,
            updatedUserData !! "Password" = Some password ->
            user !! "Password" = Some password)
      /\ (updatedUserData !! "Password" = None ->
          user !! "Password" = old !! "Password").
Proof.
  intros lib now userID data s s' result _ Hrun Hok.
  destruct (update_by_id lib UserModel now userID data
              (fun u => Messages.success now (Some (VObj (UserEditView.toDTO u))))
              "User not found" s s' result eq_refl ltac:(done)
              ltac:(intros x; apply success_is_success) Hrun) as [_ H].
  destruct (H Hok) as (old & user & Hold & -> & Hfound & _ & Hnew & Hkept).
  exists old, user. split; [exact Hold|]. split; [exact Hfound|].
  split; [reflexivity|]. split; [|split].
  - rewrite success_message. cbn [property]. apply editView_password.
  - intros password Hp. apply Hnew; [|done..].
    apply list_elem_of_In. vm_compute. tauto.
  - intros Hp. by apply Hkept.
Qed.

(** X12.  Register, log in, and keep the user in the session.  A user
    that [User.create] has stored is found by its key, and is the user
    the verify callback hands over for its email and a password that
    matches its hash.  [serializeUser] reads [UserID], which that user
    does not have (its key is [userID]): it hands [undefined] over, and
    for that [deserializeUser] finds no user, in any store. *)
Theorem session_loses_the_user :
  forall (lib : Library) (now : string) (userData : Object) (s s' : Store)
         (user : Object),
    create lib UserModel now userData s = (s', Resolved user) ->
    exists stored email hash,
      PassportSession.deserializeUser (user !! "userID") s' = Some stored
      /\ stored !! "Email" = Some (VStr email)
      /\ stored !! "Password" = Some (VStr hash)
      /\ (forall password,
            bcrypt_compare lib password hash = true ->
            Passport.verify lib email password s' = Passport.done_user stored)
      /\ PassportSession.serializeUser stored = None
      /\ (forall store,
            PassportSession.deserializeUser
              (PassportSession.serializeUser stored) store = None).
Proof.
  intros lib now userData s s' user Hc.
  destruct (created_user_strings _ _ _ _ _ _ Hc) as (email & hash & He & Hp & _).
  exists user, email, hash. split.
  { apply (create_then_findByPk lib UserModel now userData s s' user
             has_key_UserModel Hc). }
  split; [done|]. split; [done|].
  assert (PassportSession.serializeUser user = None) as Hserial.
  { unfold PassportSession.serializeUser.
    pose proof Hc as Hrow. apply create_resolved in Hrow as (-> & _).
    rewrite lookup_union.
    assert (restrict UserModel userData !! "UserID" = None) as ->.
    { unfold restrict. apply map_lookup_filter_None. right. intros v _.
      rewrite list_elem_of_In. cbn. intuition discriminate. }
    reflexivity. }
  split; [|split; [done|]].
  - intros password Hmatch. unfold Passport.verify, findOne.
    rewrite (create_rows _ _ _ _ _ _ _ Hc).
    pose proof Hc as Hu. apply create_resolved in Hu as (_ & _ & Hu & _).
    rewrite find_app_r.
    + cbn [List.find]. unfold prop_is at 1. rewrite He, String.eqb_refl.
      by rewrite Hp, Hmatch.
    + apply find_none_iff. intros o Ho.
      eapply (check_unique_none UserModel (attributes UserModel)); eauto.
      * attribute_of_model.
      * done.
  - intros store. by rewrite Hserial.
Qed.

(** * Notifications *)

(** X13.  [markAsRead].  When no notification has the identifier, it
    resolves to the error envelope "Notification not found" and the store
    is as it was.  Otherwise it succeeds with the notification, which is
    the one found afterwards and is "Read"; its other attributes, the time
    of the last update apart, are as they were; the table has as many rows
    as before, every other notification is still in it, and the other
    tables are as they were. *)
Theorem markAsRead_changes_nothing_else :
  forall (lib : Library) (now : string) (notificationID : string) (s : Store),
    match findByPk NotificationModel (Some (VStr notificationID)) s with
    | None =>
        NotificationService.markAsRead lib now (Some (VStr notificationID)) s
        = (s, Resolved (Messages.error now
                          (Some (VStr "Notification not found"))))
    | Some old =>
        exists s' n,
          NotificationService.markAsRead lib now (Some (VStr notificationID)) s
          = (s', Resolved (Messages.success now (Some (VObj n))))
          /\ findByPk NotificationModel (Some (VStr notificationID)) s' = Some n
          /\ n !! "readStatus" = Some (VStr "Read")
          /\ (forall name, name <> "readStatus" -> name <> "updatedAt" ->
                           n !! name = old !! name)
          /\ length (rows NotificationModel s') = length (rows NotificationModel s)
          /\ (forall r, In r (rows NotificationModel s) ->
                        pk_is NotificationModel notificationID r = false ->
                        In r (rows NotificationModel s'))
          /\ (forall name, name <> "Notifications" ->
                           table name s' = table name s)
    end.
Proof.
  intros lib now id s.
  pose proof (update_by_key lib NotificationModel now (Some (VStr id))
                {["readStatus" := VStr "Read"]}
                (fun n => Messages.success now (Some (VObj n)))
                "Notification not found" s eq_refl) as H.
  cbn zeta in H.
  unfold NotificationService.markAsRead.
  unfold try_catch, await in H |- *.
  destruct (findByPk NotificationModel (Some (VStr id)) s) as [old|] eqn:Hfind;
    [|done].
  destruct (findByPk_Some _ _ _ _ Hfind) as (k & [= <-] & Hk & _).
  destruct H as [(text & H)|(s' & H & Hrows & Hfound & Hother)].
  { exfalso.
    unfold instance_update, await in H. rewrite Hk in H.
    change (primaryKeyAttribute NotificationModel) with "notificationID" in H.
    pose proof (mark_read_update lib now id s) as Hup.
    change (primaryKeyAttribute NotificationModel) with "notificationID" in Hup.
    rewrite Hup in H. discriminate H. }
  exists s', (write NotificationModel now
                (delete "notificationID" {["readStatus" := VStr "Read"]}) old).
  split; [exact H|]. clear H. split; [exact Hfound|].
  split; [apply write_read_status|]. split; [|split; [|split]].
  - intros name Hn1 Hn2. apply write_kept.
    + change (onUpdateValues NotificationModel now)
        with (<["updatedAt" := VStr now]> (∅ : Object)).
      rewrite lookup_insert_ne by (intros Heq; by apply Hn2).
      apply lookup_empty.
    + left. destruct (decide (name = "notificationID")) as [->|Hne].
      * apply lookup_delete_eq.
      * rewrite lookup_delete_ne by (intros Heq; by apply Hne).
        apply lookup_singleton_ne. intros Heq. by apply Hn1.
  - rewrite Hrows. apply length_map.
  - intros r Hin Hp. rewrite Hrows. apply in_map_iff. exists r.
    split; [|exact Hin]. unfold key_of. rewrite Hk, Hp. reflexivity.
  - exact Hother.
Qed.

(** What a successful [createNotification] has done. *)
Lemma createNotification_resolved lib now userID content type s s' result :
  NotificationService.createNotification lib now userID content type s
  = (s', Resolved result) ->
  (prop_is "status" "success" result = false -> s' = s)
  /\ (prop_is "status" "success" result = true ->
      exists n,
        result = Messages.success now (Some (VObj n))
        /\ rows NotificationModel s' = (rows NotificationModel s ++ [n])%list
        /\ (forall name, name <> "Notifications" ->
                         table name s' = table name s)
        /\ n !! "userID" = userID
        /\ n !! "content" = content
        /\ n !! "type" = Some (default (VStr "Reminder") type)
        /\ n !! "readStatus" = Some (VStr "Unread")
        /\ n !! "taskID" = None
        /\ n !! "sessionID" = None).
Proof.
  unfold NotificationService.createNotification, try_catch, await,
    return_error, resolve.
  match goal with
  | |- context [create lib NotificationModel now ?d s] => set (data := d)
  end.
  destruct (create lib NotificationModel now data s) as [s1 [n|e]] eqn:Hc;
    intros [= <- <-].
  2:{ apply create_rejected in Hc as ->. split; [done|].
      intros H. by rewrite error_is_not_success in H. }
  split; [intros H; by rewrite success_is_success in H|]. intros _.
  exists n. split; [done|]. split; [by eapply create_rows|].
  split.
  { intros name Hne.
    pose proof (create_other_table lib NotificationModel now data s name Hne) as Ho.
    by rewrite Hc in Ho. }
  apply create_resolved in Hc as (-> & _).
  assert (forall name,
             name ∈ attribute_names NotificationModel ->
             defaultValues NotificationModel now (uuidv4 NotificationModel s)
             !! name = None ->
             (restrict NotificationModel data
              ∪ defaultValues NotificationModel now (uuidv4 NotificationModel s))
             !! name = data !! name) as Hplain
    by (intros name; apply candidate_lookup).
  assert (forall name v,
             name ∈ attribute_names NotificationModel ->
             data !! name = Some v ->
             (restrict NotificationModel data
              ∪ defaultValues NotificationModel now (uuidv4 NotificationModel s))
             !! name = Some v) as Hgiven.
  { intros name v Hin Hv. apply lookup_union_Some_l.
    by rewrite restrict_lookup. }
  assert (forall name : string,
             In name (attribute_names NotificationModel) ->
             name ∈ attribute_names NotificationModel) as Hin
    by (intros name; apply list_elem_of_In).
  split; [|split; [|split; [|split; [|split]]]].
  - rewrite Hplain; [|apply Hin; cbn; tauto|reflexivity].
    subst data. apply lookup_set_prop_eq.
  - rewrite Hplain; [|apply Hin; cbn; tauto|reflexivity].
    subst data. rewrite lookup_set_prop_ne by done. apply lookup_set_prop_eq.
  - apply Hgiven; [apply Hin; cbn; tauto|].
    subst data. rewrite !lookup_set_prop_ne by done.
    rewrite lookup_set_prop_eq. by destruct type.
  - apply Hgiven; [apply Hin; cbn; tauto|].
    subst data. rewrite !lookup_set_prop_ne by done. apply lookup_insert_eq.
  - rewrite Hplain; [|apply Hin; cbn; tauto|reflexivity].
    subst data. rewrite !lookup_set_prop_ne by done.
    rewrite lookup_insert_ne by done. apply lookup_empty.
  - rewrite Hplain; [|apply Hin; cbn; tauto|reflexivity].
    subst data. rewrite !lookup_set_prop_ne by done.
    rewrite lookup_insert_ne by done. apply lookup_empty.
Qed.

(** X14.  [POST /notification].  The handler answers 400, with an error
    envelope and the store as it was, or 201; it answers 400 when the body
    has no [message].  When it answers 201, one notification has been
    added and is the payload of the envelope: its [content] is the
    [message] of the body, its [userID] the one of the body when there is
    one, its [type] is "Reminder" whatever the body says, and it belongs
    to no task and to no session. *)
Theorem createNotification_endpoint :
  forall (lib : Library) (now : string) (body : Object) (s : Store),
    exists s' status json,
      NotificationController.createNotification lib now body s
      = (s', Resolved (status, json))
      /\ (nullish (body !! "message") = true -> status = 400)
      /\ (status = 400 /\ s' = s /\ json !! "status" = Some (VStr "error")
          \/ status = 201
             /\ exists n,
                 json = Messages.success now (Some (VObj n))
                 /\ rows NotificationModel s'
                    = (rows NotificationModel s ++ [n])%list
                 /\ n !! "content" = body !! "message"
                 /\ (forall userID, body !! "userID" = Some userID ->
                                    n !! "userID" = Some userID)
                 /\ n !! "type" = Some (VStr "Reminder")
                 /\ nullish (n !! "taskID") = true
                 /\ nullish (n !! "sessionID") = true).
Proof.
  intros lib now body s.
  unfold NotificationController.createNotification, await, resolve.
  destruct (NotificationService.createNotification lib now (body !! "userID")
              (body !! "message") None s) as [s' [result|e]] eqn:Hrun.
  2:{ exfalso. revert Hrun.
      unfold NotificationService.createNotification, try_catch, await,
        return_error, resolve.
      match goal with
      | |- context [create lib NotificationModel now ?d s] =>
          by destruct (create lib NotificationModel now d s) as [? [?|?]]
      end. }
  destruct (createNotification_resolved _ _ _ _ _ _ _ _ Hrun) as [Hfail Hok].
  destruct (prop_is "status" "success" result) eqn:Hstatus.
  - destruct (Hok eq_refl)
      as (n & -> & Hrows & _ & Huser & Hcontent & Htype & _ & Htask & Hsession).
    eexists s', 201, _. split; [reflexivity|]. split.
    + intros Hnull. exfalso.
      destruct (createNotification_requires_content lib now (body !! "userID")
                  (body !! "message") None s Hnull) as [text Hrefused].
      rewrite Hrefused in Hrun.
      apply (error_envelope_is_not_success _ _ _ _ _ Hrun).
      apply success_is_success.
    + right. split; [done|]. exists n.
      split; [done|]. split; [done|]. split; [done|].
      split; [intros userID <-; exact Huser|]. split; [done|].
      rewrite Htask, Hsession. split; reflexivity.
  - eexists s', 400, result. split; [reflexivity|]. split; [done|]. left.
    split; [done|]. split; [by apply Hfail|].
    revert Hrun.
    unfold NotificationService.createNotification, try_catch, await,
      return_error, resolve.
    match goal with
    | |- context [create lib NotificationModel now ?d s] =>
        destruct (create lib NotificationModel now d s) as [? [?|?]]
    end; intros [= <- <-].
    + by rewrite success_is_success in Hstatus.
    + apply error_status.
Qed.

(** X16.  [DELETE /notifications/:notificationID].  When no notification
    has the identifier the handler answers 400 with the error envelope
    "Notification not found" and the store is as it was.  Otherwise it
    answers 200 with the text "Notification deleted successfully", one
    [DELETE] has been sent, the table has lost the rows with that
    identifier and no other, and the same request again is answered 400. *)
Theorem deleteNotification_endpoint :
  forall (now later : string) (notificationID : string) (s : Store),
    match findByPk NotificationModel (Some (VStr notificationID)) s with
    | None =>
        NotificationRoutes.deleteNotification now notificationID s
        = (s, Resolved (400, Messages.error now
                               (Some (VStr "Notification not found"))))
    | Some notification =>
        exists s',
          NotificationRoutes.deleteNotification now notificationID s
          = (s', Resolved (200, Messages.success now
                                  (Some (VStr "Notification deleted successfully"))))
          /\ rows NotificationModel s'
             = List.filter
                 (fun r => negb (pk_is NotificationModel notificationID r))
                 (rows NotificationModel s)
          /\ journal s'
             = (journal s ++ [DELETE "Notifications" notificationID])%list
          /\ NotificationRoutes.deleteNotification later notificationID s'
             = (s', Resolved (400, Messages.error later
                                     (Some (VStr "Notification not found"))))
    end.
Proof.
  intros now later id s.
  assert (forall t text,
             respond 200 400 (Messages.error t text)
             = (400, Messages.error t text)) as Herror.
  { intros t text. unfold respond. by rewrite error_is_not_success. }
  assert (forall t text,
             respond 200 400 (Messages.success t text)
             = (200, Messages.success t text)) as Hsuccess.
  { intros t text. unfold respond. by rewrite success_is_success. }
  unfold NotificationRoutes.deleteNotification,
    NotificationService.deleteNotification, try_catch, await, resolve.
  destruct (findByPk NotificationModel (Some (VStr id)) s) as [n|] eqn:Hfind.
  2:{ by rewrite Herror. }
  destruct (findByPk_Some _ _ _ _ Hfind) as (k & [= <-] & Hk & Hin).
  pose proof (destroy_rows NotificationModel Database.cascades n id s Hk
                (cascades_leave_alone NotificationModel ltac:(done))) as Hrows.
  destruct (destroy_keyed NotificationModel Database.cascades n id s Hk)
    as (s' & Hd & Hj & _ & _).
  rewrite Hd in *. cbn [fst] in Hrows. exists s'.
  rewrite Hsuccess. split; [done|]. split; [exact Hrows|]. split; [exact Hj|].
  assert (findByPk NotificationModel (Some (VStr id)) s' = None) as ->.
  { unfold findByPk. rewrite Hrows. apply find_filter_out. }
  by rewrite Herror.
Qed.

(** A created notification and the listings before and after, on the
    rows as the store holds them. *)
Lemma createNotification_then_list :
  forall (lib : Library) (now later : string) (body : Object) (s s' : Store)
         (json : Object),
    NotificationController.createNotification lib now body s
    = (s', Resolved (201, json)) ->
    exists n,
      json !! "message" = Some (VObj n)
      /\ forall userID,
          exists before after,
            NotificationRoutes.getNotificationsForUser later userID s
            = (s, Resolved (200, Messages.success later
                                   (Some (VArr (List.map VObj before)))))
            /\ NotificationRoutes.getNotificationsForUser later userID s'
               = (s', Resolved (200, Messages.success later
                                       (Some (VArr (List.map VObj after)))))
            /\ after ≡ₚ (if prop_is "userID" userID body
                         then n :: before else before).
Proof.
  intros lib now later body s s' json.
  unfold NotificationController.createNotification, await, resolve.
  destruct (NotificationService.createNotification lib now (body !! "userID")
              (body !! "message") None s) as [s1 [result|e]] eqn:Hrun; [|done].
  intros [= <- Hstatus <-].
  destruct (createNotification_resolved _ _ _ _ _ _ _ _ Hrun) as [_ Hok].
  destruct (prop_is "status" "success" result) eqn:Hs; [|done].
  destruct (Hok eq_refl) as (n & -> & Hrows & _ & Huser & _).
  clear Hrun Hok Hstatus Hs.
  exists n. split; [apply success_message|]. intros userID.
  exists (findAll NotificationModel (prop_is "userID" userID) s),
         (findAll NotificationModel (prop_is "userID" userID) s1).
  unfold NotificationRoutes.getNotificationsForUser,
    NotificationService.getNotificationsForUser, try_catch, await, resolve,
    respond.
  rewrite !success_is_success. split; [reflexivity|]. split; [reflexivity|].
  unfold findAll. rewrite Hrows, List.filter_app. cbn [List.filter].
  assert (prop_is "userID" userID n = prop_is "userID" userID body) as ->
    by (unfold prop_is; by rewrite Huser).
  destruct (prop_is "userID" userID body).
  - symmetry. apply Permutation_cons_append.
  - by rewrite app_nil_r.
Qed.

(** * What the listings return *)

Lemma project_lookup attrs (o : Object) name :
  name ∈ attrs -> Database.project attrs o !! name = o !! name.
Proof.
  intros H. unfold Database.project. destruct (o !! name) as [v|] eqn:Hv.
  - by apply map_lookup_filter_Some.
  - apply map_lookup_filter_None. by left.
Qed.

Lemma objects_of_projected name attrs children (o : Object) :
  objects_of (Database.many name (Some attrs) children o !! name)
  = List.map (Database.project attrs) children.
Proof.
  unfold Database.many. rewrite lookup_insert_eq. cbn [objects_of].
  induction children as [|c l IH]; [done|]. cbn. by rewrite IH.
Qed.

Lemma with_SubTasks_Notifications_lookup s task k :
  "Notifications" <> k -> "SubTasks" <> k ->
  TaskService.with_SubTasks_Notifications s task !! k = task !! k.
Proof.
  intros H1 H2. unfold TaskService.with_SubTasks_Notifications.
  by rewrite !many_lookup_ne.
Qed.

(** X1.  The task listings leave the store as it was and succeed.
    [findAllTasks] returns the tasks of the workspace, all of them and
    each once for each of its rows; [findTasksByTitle] those of the
    workspace with the title; every task that [findTasksByCategory] returns is of the
    workspace and has a category of the given name; every task that
    [findTasksByTag] returns lists at least one tag, and only tags of the
    given name. *)
Theorem task_listings :
  forall (now workspaceID : string) (s : Store),
    (exists tasks,
        TaskService.findAllTasks now workspaceID s
        = (s, Resolved (Messages.success now (Some (VArr (List.map VObj tasks)))))
        /\ Forall (fun t => t !! "workspaceID" = Some (VStr workspaceID)) tasks
        /\ List.map (fun t => t !! "taskID") tasks
           ≡ₚ List.map (fun t => t !! "taskID")
                (List.filter (prop_is "workspaceID" workspaceID)
                             (rows TaskModel s)))
    /\ (forall taskTitle,
          exists tasks,
            TaskService.findTasksByTitle now taskTitle workspaceID s
            = (s, Resolved (Messages.success now
                              (Some (VArr (List.map VObj tasks)))))
            /\ Forall (fun t => t !! "workspaceID" = Some (VStr workspaceID)
                                /\ t !! "title" = Some (VStr taskTitle)) tasks
            /\ List.map (fun t => t !! "taskID") tasks
               ≡ₚ List.map (fun t => t !! "taskID")
                   (List.filter
                      (fun t => prop_is "title" taskTitle t
                                && prop_is "workspaceID" workspaceID t)
                      (rows TaskModel s)))
    /\ (forall categoryName,
          exists tasks,
            TaskService.findTasksByCategory now categoryName workspaceID s
            = (s, Resolved (Messages.success now
                              (Some (VArr (List.map VObj tasks)))))
            /\ Forall (fun t =>
                         t !! "workspaceID" = Some (VStr workspaceID)
                         /\ property "name" (t !! "Category")
                            = Some (VStr categoryName)) tasks)
    /\ (forall tagName,
          exists tasks,
            TaskService.findTasksByTag now tagName workspaceID s
            = (s, Resolved (Messages.success now
                              (Some (VArr (List.map VObj tasks)))))
            /\ Forall (fun t =>
                         objects_of (t !! "Tags") <> []
                         /\ Forall (fun g => g !! "name" = Some (VStr tagName))
                                   (objects_of (t !! "Tags"))) tasks).
Proof.
  intros now workspaceID s. split; [|split; [|split]].
  - eexists. split; [reflexivity|]. split.
    + apply Forall_forall. intros t Ht.
      apply list_elem_of_In, in_map_iff in Ht as (t0 & <- & Hin).
      apply filter_In in Hin as [_ H]. rewrite with_all_lookup by done.
      by apply prop_is_true.
    + match goal with
      | |- ?a ≡ₚ ?b => enough (a = b) as -> by reflexivity
      end.
      unfold findAll. rewrite map_map. apply map_ext. intros t.
      by rewrite with_all_lookup.
  - intros taskTitle. eexists. split; [reflexivity|]. split.
    + apply Forall_forall. intros t Ht.
      apply list_elem_of_In, in_map_iff in Ht as (t0 & <- & Hin).
      apply filter_In in Hin as [_ H]. rewrite !with_all_lookup by done.
      apply andb_true_iff in H as [H1 H2]. split; by apply prop_is_true.
    + match goal with
      | |- ?a ≡ₚ ?b => enough (a = b) as -> by reflexivity
      end.
      unfold findAll. rewrite map_map. apply map_ext. intros t.
      by rewrite with_all_lookup.
  - intros categoryName. eexists. split; [reflexivity|].
    apply Forall_forall. intros t Ht.
    apply list_elem_of_In, in_map_iff in Ht as (t0 & <- & Hin).
    apply filter_In in Hin as [_ H]. apply andb_true_iff in H as [H1 H2].
    split.
    + rewrite one_lookup_ne, with_SubTasks_Notifications_lookup by done.
      by apply prop_is_true.
    + unfold Database.one. rewrite lookup_insert_eq.
      destruct (Database.Task_Category t0 s) as [c|]; [|done].
      cbn [property]. rewrite project_lookup.
      * by apply prop_is_true.
      * unfold TaskService.category_attributes. set_solver.
  - intros tagName. eexists. split; [reflexivity|].
    apply Forall_forall. intros t Ht.
    apply list_elem_of_In, in_map_iff in Ht as (t0 & <- & Hin).
    apply filter_In in Hin as [_ H]. rewrite objects_of_projected.
    split.
    + by destruct (TaskService.matching_tags tagName workspaceID t0 s).
    + apply Forall_forall. intros g Hg.
      apply list_elem_of_In, in_map_iff in Hg as (g0 & <- & Hg).
      apply filter_In in Hg as [_ Hg]. apply andb_true_iff in Hg as [Hg _].
      rewrite project_lookup.
      * by apply prop_is_true.
      * unfold TaskService.tag_attributes. set_solver.
Qed.

(** X2.  Looking a tag or a category up by name always succeeds and
    leaves the store as it was: the result lists exactly the rows of the
    given name and workspace, and is the empty list, not the error
    "... not found", when there is none. *)
Theorem lookups_by_name :
  forall (now name workspaceID : string) (s : Store),
    (exists tags,
        TagService.findTagByName now name workspaceID s
        = (s, Resolved (Messages.success now (Some (VArr (List.map VObj tags)))))
        /\ (forall g,
              In g tags
              <-> In g (rows TagModel s)
                  /\ g !! "name" = Some (VStr name)
                  /\ g !! "workspaceID" = Some (VStr workspaceID))
        /\ (tags = []
            <-> forall g, In g (rows TagModel s) ->
                          prop_is "name" name g
                          && prop_is "workspaceID" workspaceID g = false))
    /\ (exists categories,
           CategoryService.findCategoryByName now name workspaceID s
           = (s, Resolved (Messages.success now
                             (Some (VArr (List.map VObj categories)))))
           /\ (forall c,
                 In c categories
                 <-> In c (rows CategoryModel s)
                     /\ c !! "name" = Some (VStr name)
                     /\ c !! "workspaceID" = Some (VStr workspaceID))
           /\ (categories = []
               <-> forall c, In c (rows CategoryModel s) ->
                             prop_is "name" name c
                             && prop_is "workspaceID" workspaceID c = false)).
Proof.
  intros now name workspaceID s.
  assert (forall (p : Object -> bool) (l : list Object),
             List.filter p l = [] <-> (forall x, In x l -> p x = false)) as Hnil.
  { intros p l. induction l as [|x l IH]; cbn [List.filter].
    - split; [by intros _ x []|done].
    - destruct (p x) eqn:Hx.
      + split; [done|]. intros H. specialize (H x (or_introl eq_refl)). congruence.
      + rewrite IH. split.
        * intros H y [<-|Hy]; [done|by apply H].
        * intros H y Hy. apply H. by right. }
  split.
  - eexists. split; [reflexivity|]. split.
    + intros g. unfold findAll.
      rewrite filter_In, andb_true_iff, !prop_is_true. tauto.
    + apply Hnil.
  - eexists. split; [reflexivity|]. split.
    + intros g. unfold findAll.
      rewrite filter_In, andb_true_iff, !prop_is_true. tauto.
    + apply Hnil.
Qed.

(** X11.  When [searchUsersByName] succeeds, the store is as it was and
    the result is the list, not empty, of the views of exactly the users
    that have every name that is given and not empty: the first name and
    the last name when both are given, not one or the other. *)
Theorem searchUsersByName_matches :
  forall (now : string) (firstName lastName : option string) (s s' : Store)
         (result : Object),
    UserService.searchUsersByName now firstName lastName s
    = (s', Resolved result) ->
    prop_is "status" "success" result = true ->
    exists users,
      s' = s
      /\ result = Messages.success now
                    (Some (VArr (List.map (fun u => VObj (UserView.toDTO u))
                                          users)))
      /\ users <> []
      /\ (forall u,
            In u users
            <-> In u (rows UserModel s)
                /\ (forall name, firstName = Some name -> name <> "" ->
                                 u !! "firstName" = Some (VStr name))
                /\ (forall name, lastName = Some name -> name <> "" ->
                                 u !! "lastName" = Some (VStr name))).
Proof.
  intros now firstName lastName s s' result.
  unfold UserService.searchUsersByName, try_catch, await, throw, return_error,
    resolve.
  set (query := (UserService.condition "firstName" firstName
                 ++ UserService.condition "lastName" lastName)%list).
  assert (forall u,
             UserService.satisfies query u = true
             <-> (forall name, firstName = Some name -> name <> "" ->
                               u !! "firstName" = Some (VStr name))
                 /\ (forall name, lastName = Some name -> name <> "" ->
                                  u !! "lastName" = Some (VStr name)))
    as Hquery.
  { intros u. subst query. unfold UserService.satisfies.
    rewrite forallb_app, andb_true_iff.
    assert (forall k (x : option string),
               forallb (fun c => prop_is c.1 c.2 u) (UserService.condition k x)
               = true
               <-> (forall name, x = Some name -> name <> "" ->
                                 u !! k = Some (VStr name))) as Hone.
    { intros k [v|]; cbn [UserService.condition truthy].
      - destruct (String.eqb v "") eqn:Hv; cbn [negb forallb].
        + apply String.eqb_eq in Hv as ->. split; [|done].
          by intros _ name [= <-] Hne.
        + apply String.eqb_neq in Hv. cbn [fst snd].
          rewrite andb_true_r, prop_is_true. split.
          * by intros H name [= <-] _.
          * intros H. by apply H.
      - cbn [forallb]. split; [|done]. by intros _ name. }
    by rewrite !Hone. }
  destruct query as [|c q] eqn:Hq.
  { intros [= <- <-] H. by rewrite error_is_not_success in H. }
  rewrite <- Hq in *. clear Hq c q.
  destruct (findAll UserModel (UserService.satisfies query) s) as [|u l] eqn:Hl.
  { intros [= <- <-] H. by rewrite error_is_not_success in H. }
  intros [= <- <-] _. exists (u :: l). split; [done|]. split; [done|].
  split; [done|]. intros u'. rewrite <- Hl. unfold findAll.
  by rewrite filter_In, Hquery.
Qed.

(** * A task with its subtasks and notifications *)

Lemma filter_all {A} (p : A -> bool) (l : list A) :
  Forall (fun x => p x = true) l -> List.filter p l = l.
Proof.
  induction 1 as [|x l Hx Hl IH]; [done|]. cbn [List.filter].
  by rewrite Hx, IH.
Qed.

(** A saved task and the look-up of it, on the rows as the store holds
    them. *)
Lemma saveTask_then_findTaskByID :
  forall (lib : Library) (now later : string) (taskData : Object)
         (subTasksData : list Object) (s s' : Store) (result : Object),
    TaskService.saveTask lib now taskData subTasksData s = (s', Resolved result) ->
    prop_is "status" "success" result = true ->
    exists task created found k,
      result = Messages.success now
                 (Some (VObj (Database.many "SubTasks" None created task)))
      /\ length created = length subTasksData
      /\ task !! "taskID" = Some (VStr k)
      /\ (forall name v,
            name ∈ attribute_names TaskModel ->
            taskData !! name = Some v -> task !! name = Some v)
      /\ TaskService.findTaskByID later (task !! "taskID") s'
         = (s', Resolved (Messages.success later (Some (VObj found))))
      /\ (forall name v,
            "Category" <> name -> "Tags" <> name -> "Notifications" <> name ->
            "SubTasks" <> name ->
            task !! name = Some v -> found !! name = Some v)
      /\ objects_of (found !! "SubTasks")
         ≡ₚ List.map (Database.project TaskService.subTask_attributes)
              (List.filter (prop_is "taskID" k) (rows SubTaskModel s)
               ++ created).
Proof.
  intros lib now later taskData subTasksData s s' result.
  unfold TaskService.saveTask, try_catch, await, return_error, resolve.
  destruct (create lib TaskModel now taskData s) as [s1 [task|e]] eqn:Hc.
  2:{ intros [= <- <-] H. by rewrite error_is_not_success in H. }
  destruct (create_subTasks_all lib now task subTasksData s1)
    as (created & Hr & _ & Ho & Hfk & Hres).
  cbn zeta in *.
  destruct (Promise_all
              (List.map (TaskService.create_subTask lib now task) subTasksData) s1)
    as [s2 [l|e]] eqn:Hall.
  2:{ intros [= <- <-] H. by rewrite error_is_not_success in H. }
  intros [= <- <-] _. cbn [fst snd] in *.
  rewrite <- (Hres l eq_refl) in *. clear Hres.
  destruct (create_key lib TaskModel now taskData s s1 task) as (k & Hk & _);
    [exists uuid_key; split; [by left|done]|done|].
  change (primaryKeyAttribute TaskModel) with "taskID" in Hk.
  pose proof (create_then_findByPk lib TaskModel now taskData s s1 task) as Hfind.
  change (primaryKeyAttribute TaskModel) with "taskID" in Hfind.
  assert (findByPk TaskModel (task !! "taskID") s2 = Some task) as Hfind2.
  { unfold findByPk, rows in *. rewrite Ho by done.
    apply Hfind; [exists uuid_key; split; [by left|done]|done]. }
  assert (rows SubTaskModel s1 = rows SubTaskModel s) as Hsub.
  { pose proof (create_other_table lib TaskModel now taskData s "SubTasks") as H.
    rewrite Hc in H. by apply H. }
  eexists task, created, (TaskService.with_all s2 task), k.
  split; [done|]. split.
  { apply Promise_all_length in Hall. by rewrite length_map in Hall. }
  split; [done|].
  split; [intros name v Hin Hv; by eapply create_supplied|]. split.
  { unfold TaskService.findTaskByID, try_catch, await. by rewrite Hfind2. }
  split; [intros name v H1 H2 H3 H4 <-; by apply with_all_lookup|].
  match goal with
      | |- ?a ≡ₚ ?b => enough (a = b) as -> by reflexivity
      end.
  unfold TaskService.with_all.
  rewrite one_lookup_ne, !many_lookup_ne by done.
  rewrite objects_of_projected. f_equal.
  unfold Database.Task_SubTasks, Database.hasMany.
  change (primaryKeyAttribute TaskModel) with "taskID".
  rewrite Hk, Hr, Hsub, List.filter_app. f_equal.
  apply filter_all. eapply Forall_impl; [exact Hfk|]. cbn beta.
  intros c Hcfk. apply prop_is_true. by rewrite Hcfk.
Qed.

Lemma preserves_destroy M cs instance name :
  name <> tableName M ->
  (forall p fk, In (p, name, fk) cs -> p <> tableName M) ->
  preserves name (destroy M cs instance).
Proof.
  intros Hne Hcs s. unfold destroy.
  destruct (instance !! primaryKeyAttribute M) as [[|k| |]|]; try done.
  cbn [fst]. rewrite table_log, cascades_other_table by done.
  by apply table_set_table_ne.
Qed.

(** X4.  The notifications of a deleted task are deleted with it, as
    [onDelete: "CASCADE"] of [Task.hasMany(Notification)] has it: after
    [deleteTask] of an existing task the notifications are those of
    before whose [taskID] is not the task's. *)
Theorem deleteTask_deletes_its_notifications :
  forall (now : string) (taskID : string) (s : Store) (task : Object),
    findByPk TaskModel (Some (VStr taskID)) s = Some task ->
    rows NotificationModel
      (fst (TaskService.deleteTask now (Some (VStr taskID)) s))
    = List.filter (fun n => negb (prop_is "taskID" taskID n))
                  (rows NotificationModel s).
Proof.
  intros now taskID s task Hfind.
  destruct (findByPk_Some _ _ _ _ Hfind) as (k & [= <-] & Hk & _).
  unfold TaskService.deleteTask, try_catch, await, resolve.
  rewrite Hfind. cbn [fmap option_fmap option_map]. rewrite objects_of_many.
  assert (preserves "Notifications"
            (Promise_all (List.map (destroy SubTaskModel Database.cascades)
                                   (Database.Task_SubTasks task s)))) as Hsubs.
  { apply preserves_Promise_all, Forall_forall. intros p Hp.
    apply list_elem_of_In, in_map_iff in Hp as (x & <- & _).
    apply preserves_destroy; [done|]. by intros p fk [[= <- _]|[]]. }
  specialize (Hsubs s).
  destruct (Promise_all (List.map (destroy SubTaskModel Database.cascades)
                                  (Database.Task_SubTasks task s)) s)
    as [s1 [us|e]] eqn:Hall; cbn [fst] in Hsubs.
  2:{ exfalso.
      destruct (destroy_all SubTaskModel Database.cascades
                  (Database.Task_SubTasks task s) s) as (? & ? & Hd & _).
      congruence. }
  unfold destroy at 1.
  change (primaryKeyAttribute TaskModel) with "taskID" in Hk |- *.
  rewrite many_lookup_ne by done. rewrite Hk. cbn [fst].
  unfold rows at 1. rewrite table_log.
  change (tableName NotificationModel) with "Notifications".
  change (tableName TaskModel) with "Tasks".
  unfold Database.cascades. cbn [fold_right]. unfold cascade_from.
  rewrite String.eqb_refl, table_set_table_eq.
  rewrite table_set_table_ne by done. unfold rows.
  change (tableName NotificationModel) with "Notifications".
  by rewrite Hsubs.
Qed.

(** * Updating a task: what is left out of the success case *)

Section UpdateTaskEdges.
Context (lib : Library).

Lemma update_or_create_rejected now task entry s s' e :
  TaskService.update_or_create lib now task entry s = (s', Rejected e) -> s' = s.
Proof.
  unfold TaskService.update_or_create, await, resolve.
  destruct (truthy (entry !! "subTaskID")).
  - destruct (update lib SubTaskModel now entry (entry !! "subTaskID") s)
      as [s1 [n|e']] eqn:Hu; [done|].
    intros [= <- _]. by apply update_rejected in Hu.
  - destruct (TaskService.create_subTask lib now task entry s)
      as [s1 [c|e']] eqn:Hc; [done|].
    intros [= <- _]. by apply create_rejected in Hc.
Qed.

(** What a resolved [instance.update] has done. *)
Lemma instance_update_resolved M now instance values k s s1 updated :
  onUpdateValues M now !! primaryKeyAttribute M = None ->
  instance !! primaryKeyAttribute M = Some (VStr k) ->
  instance_update lib M now instance values s = (s1, Resolved updated) ->
  let values' := delete (primaryKeyAttribute M) values in
  updated = write M now values' instance
  /\ journal s1 = (journal s ++ [UPDATE (tableName M) k])%list
  /\ (forall name, name <> tableName M -> table name s1 = table name s)
  /\ (forall found,
        findByPk M (Some (VStr k)) s = Some found ->
        findByPk M (Some (VStr k)) s1 = Some (write M now values' found)).
Proof.
  intros Hu Hk. unfold instance_update, await, resolve. rewrite Hk.
  destruct (update lib M now (delete (primaryKeyAttribute M) values)
              (Some (VStr k)) s) as [s' [n|e]] eqn:Hup; [|done].
  intros [= <- <-]. cbn zeta.
  pose proof (update_other_table lib M now
                (delete (primaryKeyAttribute M) values) (Some (VStr k)) s)
    as Hother.
  rewrite Hup in Hother. cbn [fst] in Hother.
  apply update_resolved in Hup as [-> _].
  split; [done|]. split; [done|]. split; [by intros name Hne; apply Hother|].
  intros found Hfind. unfold findByPk in *. unfold rows at 1.
  rewrite table_log, table_set_table_eq, find_map_commute.
  - rewrite Hfind. cbn. apply find_some in Hfind as [_ ->]. done.
  - intros x. destruct (pk_is M k x) eqn:Hx; [|done].
    unfold pk_is, prop_is in *. by rewrite write_key.
Qed.

(** X19.  [updateTask] undoes nothing either.  When the update of the
    task itself, found by an identifier that is not the empty string, has
    resolved and the one subtask entry is then refused,
    [updateTask] resolves to the error envelope of that refusal, and the
    task found afterwards has the values that the task data supply for
    the attributes that are not dates. *)
Theorem updateTask_is_not_atomic :
  forall (now : string) (taskID : string) (updatedTaskData bad : Object)
         (s s1 s2 : Store) (task updated : Object) (err : JSError),
    taskID <> "" ->
    findByPk TaskModel (Some (VStr taskID)) s = Some task ->
    instance_update lib TaskModel now
      (Database.many "SubTasks" None (Database.Task_SubTasks task s) task)
      updatedTaskData s
    = (s1, Resolved updated) ->
    TaskService.update_or_create lib now updated bad s1 = (s2, Rejected err) ->
    exists s' row,
      TaskService.updateTask lib now (Some (VStr taskID)) updatedTaskData
        [bad] s
      = (s', Resolved (Messages.error now (Some (VStr (message err)))))
      /\ findByPk TaskModel (Some (VStr taskID)) s' = Some row
      /\ row !! "taskID" = Some (VStr taskID)
      /\ (forall name v,
            In name ["workspaceID"; "categoryID"; "userID"; "title";
                     "description"; "status"; "priority"] ->
            updatedTaskData !! name = Some v -> row !! name = Some v).
Proof.
  intros now taskID data bad s s1 s2 task updated err _ Hfind Hup Hbad.
  destruct (findByPk_Some _ _ _ _ Hfind) as (k & [= <-] & Hk & _).
  pose proof (update_or_create_rejected _ _ _ _ _ _ Hbad) as ->.
  assert (Database.many "SubTasks" None (Database.Task_SubTasks task s) task
          !! primaryKeyAttribute TaskModel = Some (VStr taskID)) as Hk'.
  { change (primaryKeyAttribute TaskModel) with "taskID" in Hk |- *.
    by rewrite many_lookup_ne. }
  destruct (instance_update_resolved TaskModel now _ data taskID s s1 updated
              eq_refl Hk' Hup)
    as (_ & _ & _ & Hfound).
  cbn zeta in Hfound. specialize (Hfound task Hfind).
  destruct (updated_row TaskModel now data task taskID eq_refl ltac:(done) Hk)
    as (Hkey & Hnew & _).
  eexists _, _. split; [|split; [|split]].
  - unfold TaskService.updateTask, try_catch, await, resolve, return_error.
    rewrite Hfind. cbn [fmap option_fmap option_map].
    unfold await in Hup. rewrite Hup.
    cbn [List.map Promise_all]. rewrite Hbad. reflexivity.
  - exact Hfound.
  - exact Hkey.
  - intros name v Hin Hv.
    apply Hnew; [|cbn in Hin; intuition (subst; discriminate)..|exact Hv].
    apply list_elem_of_In. cbn in Hin |- *. intuition.
Qed.

(** X20.  An entry that names no subtask.  When the one entry of an
    update carries, as [subTaskID], a string that is the key of no
    subtask, and [updateTask] succeeds, the subtasks are as they were:
    nothing is updated, nothing is created, and no error is reported. *)
Theorem unknown_subtask_is_ignored :
  forall (now : string) (taskID : option Value) (updatedTaskData entry : Object)
         (key : string) (s s' : Store) (result : Object),
    entry !! "subTaskID" = Some (VStr key) ->
    key <> "" ->
    (forall r, In r (rows SubTaskModel s) -> pk_is SubTaskModel key r = false) ->
    TaskService.updateTask lib now taskID updatedTaskData [entry] s
    = (s', Resolved result) ->
    prop_is "status" "success" result = true ->
    rows SubTaskModel s' = rows SubTaskModel s.
Proof.
  intros now taskID data entry key s s' result Hkey Hne Hnone.
  assert (truthy (entry !! "subTaskID") = true) as Ht.
  { rewrite Hkey. cbn. apply negb_true_iff. by apply String.eqb_neq. }
  unfold TaskService.updateTask, try_catch, await, resolve, return_error, throw.
  destruct (findByPk TaskModel taskID s) as [task|];
    cbn [fmap option_fmap option_map].
  2:{ intros [= <- <-] H. by rewrite error_is_not_success in H. }
  match goal with
  | |- context [instance_update lib TaskModel now ?i data s] =>
      pose proof (preserves_instance_update lib TaskModel now i data "SubTasks"
                    ltac:(done) s) as Htask;
      destruct (instance_update lib TaskModel now i data s)
        as [s1 [updated|e]] eqn:Hup
  end.
  2:{ intros [= <- <-] H. by rewrite error_is_not_success in H. }
  cbn [fst] in Htask. cbn [List.map Promise_all].
  destruct (TaskService.update_or_create lib now updated entry s1)
    as [s2 [u|e]] eqn:Hentry.
  2:{ intros [= <- <-] H. by rewrite error_is_not_success in H. }
  intros [= <- <-] _.
  apply update_or_create_resolved in Hentry as [_ [[_ Hrows]|[Hf _]]];
    [|congruence].
  rewrite Hrows. unfold rows in *.
  change (tableName SubTaskModel) with "SubTasks" in *. rewrite Htask.
  rewrite <- (map_id (table "SubTasks" s)) at 2. apply map_ext_in.
  intros r Hr. unfold rewritten, entry_selects.
  by rewrite Hkey, (Hnone r Hr), andb_false_r.
Qed.

End UpdateTaskEdges.

(** * Updating a task with its subtasks: what is found afterwards *)

Lemma rewritten_subTaskID now e r :
  rewritten now e r !! "subTaskID" = r !! "subTaskID".
Proof.
  unfold rewritten, entry_selects.
  destruct (truthy (e !! "subTaskID")); [|done]. cbn [andb].
  destruct (e !! "subTaskID") as [[|k| |]|] eqn:Hk; try done.
  destruct (pk_is SubTaskModel k r) eqn:Hsel; [|done].
  rewrite (write_subTask_key now e r k Hk). symmetry.
  by apply prop_is_true in Hsel.
Qed.

Lemma apply_entries_subTaskID now entries r :
  apply_entries now entries r !! "subTaskID" = r !! "subTaskID".
Proof.
  revert r. induction entries as [|e es IH]; intros r; [done|].
  unfold apply_entries in *. cbn [fold_left].
  by rewrite IH, rewritten_subTaskID.
Qed.

Lemma names_rewritten now e e' r :
  names e' (rewritten now e r) = names e' r.
Proof. unfold names. by rewrite entry_selects_rewritten. Qed.

Lemma names_apply_entries now entries e' r :
  names e' (apply_entries now entries r) = names e' r.
Proof.
  revert r. induction entries as [|e es IH]; intros r; [done|].
  unfold apply_entries in *. cbn [fold_left].
  by rewrite IH, names_rewritten.
Qed.

Lemma names_false e r :
  names e r = false ->
  truthy (e !! "subTaskID") = true -> entry_selects e r = false.
Proof. unfold names. intros H Ht. by rewrite Ht in H. Qed.

(** A row that no entry names is as it was. *)
Lemma apply_entries_unnamed now entries r :
  (forall e, In e entries -> names e r = false) ->
  apply_entries now entries r = r.
Proof.
  intros H. apply apply_entries_unmentioned. intros e Hin.
  by apply names_false, H.
Qed.

(** A row that one entry names holds what the entry supplies, and what it
    had for the rest. *)
Lemma apply_entries_named now before e after r :
  names e r = true ->
  (forall e', In e' (before ++ after) -> names e' r = false) ->
  let new := apply_entries now (before ++ e :: after) r in
  (forall name v,
      In name ["taskID"; "title"; "description"; "status"; "priority"] ->
      e !! name = Some v -> new !! name = Some v)
  /\ (forall name, name <> "updatedAt" -> e !! name = None ->
                   new !! name = r !! name).
Proof.
  intros Hn Hothers new. subst new.
  apply andb_true_iff in Hn as [Ht Hsel].
  rewrite (apply_entries_single now before e after r Ht Hsel).
  2:{ intros e' Hin. by apply names_false, Hothers. }
  assert (forall name, name <> "updatedAt" ->
                       onUpdateValues SubTaskModel now !! name = None) as Hu.
  { intros name Hne.
    change (onUpdateValues SubTaskModel now)
      with (<["updatedAt" := VStr now]> (∅ : Object)).
    rewrite lookup_insert_ne by (intros Heq; by apply Hne).
    apply lookup_empty. }
  split.
  - intros name v Hin Hv. apply write_supplied; [|apply Hu|exact Hv].
    + apply list_elem_of_In. cbn in Hin |- *. intuition.
    + cbn in Hin. intuition (subst; discriminate).
  - intros name Hne Hv. apply write_kept; [by apply Hu|by left].
Qed.

Section UpdateTaskObserved.
Context (lib : Library).

(** What [create_subTask] stores of an entry. *)
Lemma create_subTask_supplied now task e s s' c name v :
  TaskService.create_subTask lib now task e s = (s', Resolved c) ->
  In name ["title"; "description"; "status"; "priority"] ->
  e !! name = Some v -> c !! name = Some v.
Proof.
  unfold TaskService.create_subTask. intros Hc Hin Hv.
  eapply create_supplied; [exact Hc| |].
  - apply list_elem_of_In. cbn in Hin |- *. intuition.
  - rewrite lookup_set_prop_ne; [exact Hv|].
    cbn in Hin. intuition (subst; discriminate).
Qed.

Lemma named_or_not (entries : list Object) (c : Object) :
  (exists e', In e' entries /\ names e' c = true)
  \/ (forall e', In e' entries -> names e' c = false).
Proof.
  induction entries as [|e es [(e' & Hin & Hn)|IH]].
  - right. by intros e' [].
  - left. exists e'. split; [by right|done].
  - destruct (names e c) eqn:Hn.
    + left. exists e. split; [by left|done].
    + right. intros e' [<-|Hin]; [done|by apply IH].
Qed.

(** All the callbacks, when [Promise.all] resolves. *)
Lemma update_or_create_every now task entries s s' us :
  Promise_all (List.map (TaskService.update_or_create lib now task) entries) s
  = (s', Resolved us) ->
  (forall name, name <> "SubTasks" -> table name s' = table name s)
  /\ exists created,
      rows SubTaskModel s'
      = (List.map (apply_entries now entries) (rows SubTaskModel s)
         ++ created)%list
      /\ Forall2 (created_for (task !! "taskID") entries s) (unkeyed entries)
                 created.
Proof.
  revert s us. induction entries as [|e es IH]; intros s us Hall.
  - cbn in Hall. injection Hall as <- _. split; [done|]. exists [].
    rewrite app_nil_r. split; [|constructor].
    unfold apply_entries. cbn. by rewrite map_id.
  - cbn [List.map Promise_all] in Hall.
    destruct (TaskService.update_or_create lib now task e s)
      as [s1 [u|err]] eqn:He; [|done].
    destruct (Promise_all _ s1) as [s2 [us'|err]] eqn:Hrest; [|done].
    injection Hall as <- _.
    destruct (IH s1 us' Hrest) as (Ho' & created & Hr' & Hall').
    unfold TaskService.update_or_create in He.
    destruct (truthy (e !! "subTaskID")) eqn:Ht; unfold await, resolve in He.
    + destruct (update lib SubTaskModel now e (e !! "subTaskID") s)
        as [s1' [n|err]] eqn:Hu; [|done].
      injection He as <-. apply update_resolved in Hu as [-> _].
      assert (rows SubTaskModel
                (log (UPDATE (tableName SubTaskModel)
                             (interpolate (e !! "subTaskID")))
                   (set_table (tableName SubTaskModel)
                      (List.map
                         (fun r => if match e !! "subTaskID" with
                                      | Some (VStr k) => pk_is SubTaskModel k r
                                      | _ => false
                                      end
                                   then write SubTaskModel now e r else r)
                         (rows SubTaskModel s)) s))
              = List.map (rewritten now e) (rows SubTaskModel s)) as Hrows.
      { unfold rows at 1. rewrite table_log, table_set_table_eq.
        apply map_ext. intros r. unfold rewritten, entry_selects.
        by rewrite Ht. }
      split.
      { intros name Hne. rewrite Ho' by done. rewrite table_log.
        by apply table_set_table_ne. }
      exists created. split.
      * rewrite Hr', Hrows, map_map. done.
      * unfold unkeyed in *. cbn [List.filter]. rewrite Ht. cbn [negb].
        eapply Forall2_impl; [exact Hall'|]. cbn beta.
        intros e0 c ((k & Hk & Hfresh) & Hcase). split.
        -- exists k. split; [done|]. intros r Hr.
           rewrite <- (rewritten_key now e r k). apply Hfresh.
           rewrite Hrows. by apply in_map.
        -- destruct Hcase as [(e' & Hin & Hn)|Hown]; [|by right].
           left. exists e'. split; [by right|done].
    + destruct (TaskService.create_subTask lib now task e s)
        as [s1' [c|err]] eqn:Hc; [|done].
      injection He as ->.
      destruct (create_key lib SubTaskModel now _ s s1 c has_key_SubTaskModel Hc)
        as (k & Hk & Hfresh).
      change (primaryKeyAttribute SubTaskModel) with "subTaskID" in Hk.
      pose proof (create_subTask_supplied now task e s s1 c) as Hsupplied.
      specialize (fun name v => Hsupplied name v Hc).
      apply create_subTask_resolved in Hc as (Hrows & _ & Ho & Hfk).
      split; [intros name Hne; by rewrite Ho', Ho|].
      exists (apply_entries now es c :: created). split.
      * rewrite Hr', Hrows, map_app. cbn [List.map].
        rewrite <- app_assoc. cbn [app]. f_equal.
        apply map_ext. intros r. unfold apply_entries. cbn [fold_left].
        unfold rewritten at 3. by rewrite Ht.
      * unfold unkeyed in *. cbn [List.filter]. rewrite Ht. cbn [negb].
        constructor.
        -- split.
           { exists k. split; [by rewrite apply_entries_subTaskID|done]. }
           destruct (named_or_not es c) as [(e' & Hin & Hn)|Hnone].
           ++ left. exists e'. split; [by right|].
              by rewrite names_apply_entries.
           ++ right. rewrite (apply_entries_unnamed now es c Hnone).
              split; [done|]. exact Hsupplied.
        -- eapply Forall2_impl; [exact Hall'|]. cbn beta.
           intros e0 c0 ((k0 & Hk0 & Hfresh0) & Hcase). split.
           ++ exists k0. split; [done|]. intros r Hr. apply Hfresh0.
              rewrite Hrows. apply in_or_app. by left.
           ++ destruct Hcase as [(e' & Hin & Hn)|Hown]; [|by right].
              left. exists e'. split; [by right|done].
Qed.


Lemma Forall2_map_self {A} (R : A -> A -> Prop) (f : A -> A) (l : list A) :
  (forall x, In x l -> R x (f x)) -> Forall2 R l (List.map f l).
Proof.
  induction l as [|a l IH]; intros H; [constructor|].
  cbn [List.map]. constructor; [apply H; by left|].
  apply IH. intros x Hx. apply H. by right.
Qed.

Lemma apply_entries_updated_by now entries r :
  updated_by entries r (apply_entries now entries r).
Proof.
  split; [apply apply_entries_subTaskID|]. split.
  - apply apply_entries_unnamed.
  - intros before e after -> Hn Hothers. by apply apply_entries_named.
Qed.

End UpdateTaskObserved.

(** C4, as amended.  For an existing task, when [updateTask] succeeds: the
    task found afterwards has the identifier given, every value that the
    task data supply for an attribute that is neither the key nor a date,
    and, the time of the last update apart, what it had for what the data
    do not mention; the other tasks are still there and there is no new
    one.  The subtask rows that were there are still there, each with its
    key: a row that no entry names is as it was, and a row that one entry
    names holds what that entry supplies.  After them comes one new row
    for each entry without a [subTaskID], with an unused key, the task's
    identifier as [taskID] and the values of the entry. *)
Theorem updateTask_effect :
  forall (lib : Library) (now : string) (taskID : string)
         (updatedTaskData : Object) (entries : list Object)
         (s s' : Store) (result task : Object),
    taskID <> "" ->
    findByPk TaskModel (Some (VStr taskID)) s = Some task ->
    TaskService.updateTask lib now (Some (VStr taskID)) updatedTaskData
      entries s
    = (s', Resolved result) ->
    prop_is "status" "success" result = true ->
    (exists row,
        findByPk TaskModel (Some (VStr taskID)) s' = Some row
        /\ row !! "taskID" = Some (VStr taskID)
        /\ (forall name v,
              In name ["workspaceID"; "categoryID"; "userID"; "title";
                       "description"; "status"; "priority"] ->
              updatedTaskData !! name = Some v -> row !! name = Some v)
        /\ (forall name,
              name <> "updatedAt" -> updatedTaskData !! name = None ->
              row !! name = task !! name))
    /\ (forall r, In r (rows TaskModel s) ->
                  pk_is TaskModel taskID r = false ->
                  In r (rows TaskModel s'))
    /\ length (rows TaskModel s') = length (rows TaskModel s)
    /\ exists updated created,
        rows SubTaskModel s' = (updated ++ created)%list
        /\ Forall2 (updated_by entries) (rows SubTaskModel s) updated
        /\ Forall2 (created_for (Some (VStr taskID)) entries s)
                   (unkeyed entries) created.
Proof.
  intros lib now taskID data entries s s' result task _ Hfind Hrun Hok.
  destruct (findByPk_Some _ _ _ _ Hfind) as (k & [= <-] & Hk & _).
  change (primaryKeyAttribute TaskModel) with "taskID" in Hk.
  unfold TaskService.updateTask, try_catch, await in Hrun.
  rewrite Hfind in Hrun. cbn [fmap option_fmap option_map] in Hrun.
  unfold instance_update, await in Hrun.
  change (primaryKeyAttribute TaskModel) with "taskID" in Hrun.
  rewrite many_lookup_ne, Hk in Hrun by done.
  destruct (update lib TaskModel now (delete "taskID" data)
              (Some (VStr taskID)) s) as [s1 [n|err]] eqn:Hupd.
  2:{ unfold return_error, resolve in Hrun. injection Hrun as <- <-.
      by rewrite error_is_not_success in Hok. }
  unfold resolve at 1 in Hrun.
  destruct (Promise_all _ s1) as [s2 [us|err]] eqn:Hall.
  2:{ unfold return_error, resolve in Hrun. injection Hrun as <- <-.
      by rewrite error_is_not_success in Hok. }
  unfold resolve in Hrun. injection Hrun as <- _.
  apply update_resolved in Hupd as [-> _].
  set (s1 := log _ _) in *.
  assert (rows TaskModel s1
          = List.map (fun r => if pk_is TaskModel taskID r
                               then write TaskModel now (delete "taskID" data) r
                               else r) (rows TaskModel s)) as Htasks.
  { unfold rows at 1. subst s1. by rewrite table_log, table_set_table_eq. }
  assert (rows SubTaskModel s1 = rows SubTaskModel s) as Hsubs.
  { unfold rows. subst s1. rewrite table_log. by apply table_set_table_ne. }
  apply update_or_create_every in Hall as (Ho & created & Hr & Hcreated).
  rewrite write_task_key, many_lookup_ne, Hk in Hcreated by done.
  assert (rows TaskModel s2 = rows TaskModel s1) as Htasks2
    by (unfold rows; by apply Ho).
  destruct (updated_row TaskModel now data task taskID eq_refl ltac:(done) Hk)
    as (Hkey & Hnew & Hkept).
  split; [|split; [|split]].
  - exists (write TaskModel now (delete "taskID" data) task).
    split; [|split; [exact Hkey|split; [|exact Hkept]]].
    + unfold findByPk in *. rewrite Htasks2, Htasks, find_map_commute, Hfind.
      * cbn. apply find_some in Hfind as [_ ->]. done.
      * intros r. destruct (pk_is TaskModel taskID r) eqn:Hp; [|done].
        rewrite pk_is_Task in *. unfold prop_is. rewrite write_task_key.
        apply prop_is_true in Hp. rewrite Hp. apply String.eqb_refl.
    + intros name v Hin Hv.
      apply Hnew; [|cbn in Hin; intuition (subst; discriminate)..|exact Hv].
      apply list_elem_of_In. cbn in Hin |- *. intuition.
  - intros r Hin Hp. rewrite Htasks2, Htasks. apply in_map_iff. exists r.
    split; [|exact Hin]. by rewrite Hp.
  - rewrite Htasks2, Htasks. apply length_map.
  - exists (List.map (apply_entries now entries) (rows SubTaskModel s)), created.
    split; [by rewrite <- Hsubs|]. split.
    + apply Forall2_map_self. intros r _. apply apply_entries_updated_by.
    + eapply Forall2_impl; [exact Hcreated|]. cbn beta.
      intros e c [(k0 & Hk0 & Hfresh) Hcase]. split; [|exact Hcase].
      exists k0. split; [exact Hk0|]. intros r Hin. apply Hfresh.
      by rewrite Hsubs.
Qed.

(** * Create, then find: what the look-up returns *)

Lemma plain_attribute_In M name :
  In name (plain_attributes M) -> name ∈ attribute_names M.
Proof.
  unfold plain_attributes, attribute_names. intros H.
  apply list_elem_of_In. apply in_map_iff in H as (p & <- & Hp).
  apply filter_In in Hp as [Hp _]. by apply in_map.
Qed.

Lemma create_holds_input lib M now data s s' row :
  create lib M now data s = (s', Resolved row) -> holds_input M data row.
Proof.
  intros Hc name v Hin Hv.
  eapply create_supplied; [exact Hc|by apply plain_attribute_In|exact Hv].
Qed.

Lemma session_with_all_lookup s session k :
  "Notifications" <> k -> "Workspace" <> k -> "User" <> k ->
  SessionService.with_all s session !! k = session !! k.
Proof.
  intros H1 H2 H3. unfold SessionService.with_all.
  by rewrite many_lookup_ne, !one_lookup_ne.
Qed.

(** C9, as amended.  For a tag, a category, a task, a session and a
    notification, a successful save followed by a look-up by the identifier
    of the returned entity finds an entity with that identifier in which
    every attribute that is neither the key nor a date has the value that
    the input supplies for it.  For a user, a successful save stores a row
    with the supplied values of these attributes, and a find by the key of
    that row returns its view: the first and last name joined by a space as
    [fullName], the email and the phone number, and no password. *)
Theorem create_then_find :
  forall (lib : Library) (now later : string),
    (forall tagData s s' result,
        TagService.saveTag lib now tagData s = (s', Resolved result) ->
        prop_is "status" "success" result = true ->
        exists tag found,
          result = Messages.success now (Some (VObj tag))
          /\ TagService.findTagByID later (tag !! "tagID") s'
             = (s', Resolved (Messages.success later (Some (VObj found))))
          /\ found !! "tagID" = tag !! "tagID"
          /\ holds_input TagModel tagData found)
    /\ (forall categoryData s s' result,
          CategoryService.saveCategory lib now categoryData s
          = (s', Resolved result) ->
          prop_is "status" "success" result = true ->
          exists category found,
            result = Messages.success now (Some (VObj category))
            /\ CategoryService.findCategoryByID later
                 (category !! "categoryID") s'
               = (s', Resolved (Messages.success later (Some (VObj found))))
            /\ found !! "categoryID" = category !! "categoryID"
            /\ holds_input CategoryModel categoryData found)
    /\ (forall taskData subTasksData s s' result,
          TaskService.saveTask lib now taskData subTasksData s
          = (s', Resolved result) ->
          prop_is "status" "success" result = true ->
          exists task found,
            result = Messages.success now (Some (VObj task))
            /\ TaskService.findTaskByID later (task !! "taskID") s'
               = (s', Resolved (Messages.success later (Some (VObj found))))
            /\ found !! "taskID" = task !! "taskID"
            /\ holds_input TaskModel taskData found)
    /\ (forall sessionData s s' result,
          SessionService.saveSession lib now sessionData s
          = (s', Resolved result) ->
          prop_is "status" "success" result = true ->
          exists session found,
            result = Messages.success now (Some (VObj session))
            /\ SessionService.findSessionByID later
                 (session !! "sessionID") s'
               = (s', Resolved (Messages.success later (Some (VObj found))))
            /\ found !! "sessionID" = session !! "sessionID"
            /\ holds_input SessionModel sessionData found)
    /\ (forall userID content type s s' result,
          NotificationService.createNotification lib now userID content type s
          = (s', Resolved result) ->
          prop_is "status" "success" result = true ->
          exists notification found,
            result = Messages.success now (Some (VObj notification))
            /\ findByPk NotificationModel
                 (notification !! "notificationID") s'
               = Some found
            /\ found !! "notificationID" = notification !! "notificationID"
            /\ found !! "content" = content
            /\ (forall user, userID = Some user ->
                             found !! "userID" = Some user)
            /\ found !! "type"
               = match type with
                 | None => Some (VStr "Reminder")
                 | Some given => Some given
                 end)
    /\ (forall userData s s' result,
          UserService.saveUser lib now userData s = (s', Resolved result) ->
          prop_is "status" "success" result = true ->
          exists user view,
            rows UserModel s' = (rows UserModel s ++ [user])%list
            /\ holds_input UserModel userData user
            /\ UserService.findUserByID later (user !! "userID") s'
               = (s', Resolved (Messages.success later (Some (VObj view))))
            /\ view !! "fullName"
               = Some (VStr (interpolate (user !! "firstName") ++ " "
                             ++ interpolate (user !! "lastName")))
            /\ view !! "email" = user !! "Email"
            /\ view !! "phoneNumber" = user !! "phoneNumber"
            /\ view !! "password" = None
            /\ view !! "Password" = None).
Proof.
  intros lib now later. split; [|split; [|split; [|split; [|split]]]].
  - intros tagData s s' result Hrun Hok.
    unfold TagService.saveTag, try_catch, await, resolve, return_error in Hrun.
    destruct (create lib TagModel now tagData s) as [s1 [tag|e]] eqn:Hc.
    2:{ injection Hrun as <- <-. by rewrite error_is_not_success in Hok. }
    injection Hrun as <- <-. exists tag, tag. split; [done|]. split.
    + unfold TagService.findTagByID, try_catch, await, resolve.
      change (tag !! "tagID") with (tag !! primaryKeyAttribute TagModel).
      by rewrite (create_then_findByPk _ _ _ _ _ _ _ has_key_TagModel Hc).
    + split; [done|]. by eapply create_holds_input.
  - intros categoryData s s' result Hrun Hok.
    unfold CategoryService.saveCategory, try_catch, await, resolve, return_error
      in Hrun.
    destruct (create lib CategoryModel now categoryData s)
      as [s1 [category|e]] eqn:Hc.
    2:{ injection Hrun as <- <-. by rewrite error_is_not_success in Hok. }
    injection Hrun as <- <-. exists category, category. split; [done|]. split.
    + unfold CategoryService.findCategoryByID, try_catch, await, resolve.
      change (category !! "categoryID")
        with (category !! primaryKeyAttribute CategoryModel).
      by rewrite (create_then_findByPk _ _ _ _ _ _ _ has_key_CategoryModel Hc).
    + split; [done|]. by eapply create_holds_input.
  - intros taskData subTasksData s s' result Hrun Hok.
    destruct (saveTask_then_findTaskByID lib now later taskData subTasksData
                s s' result Hrun Hok)
      as (task & created & found & k & -> & _ & Hk & Hin & Hfind & Hown & _).
    exists (Database.many "SubTasks" None created task), found.
    split; [done|]. rewrite many_lookup_ne by done.
    split; [exact Hfind|]. split; [rewrite Hk; by apply Hown|].
    intros name v Hname Hv.
    apply Hown; [..|apply Hin; [by apply plain_attribute_In|exact Hv]];
      intros <-; vm_compute in Hname; intuition discriminate.
  - intros sessionData s s' result Hrun Hok.
    unfold SessionService.saveSession, try_catch, await, resolve, return_error
      in Hrun.
    destruct (create lib SessionModel now sessionData s)
      as [s1 [session|e]] eqn:Hc.
    2:{ injection Hrun as <- <-. by rewrite error_is_not_success in Hok. }
    injection Hrun as <- <-.
    exists session, (SessionService.with_all s1 session).
    split; [done|]. split.
    + unfold SessionService.findSessionByID, try_catch, await, resolve.
      change (session !! "sessionID")
        with (session !! primaryKeyAttribute SessionModel).
      rewrite (create_then_findByPk lib SessionModel now sessionData s s1
                 session); [done| |exact Hc].
      exists uuid_key. split; [by left|done].
    + split; [by apply session_with_all_lookup|].
      intros name v Hin Hv. rewrite session_with_all_lookup.
      * by eapply create_holds_input.
      * intros <-. vm_compute in Hin. intuition discriminate.
      * intros <-. vm_compute in Hin. intuition discriminate.
      * intros <-. vm_compute in Hin. intuition discriminate.
  - intros userID content type s s' result Hrun Hok.
    unfold NotificationService.createNotification, try_catch, await, resolve,
      return_error in Hrun.
    match type of Hrun with
    | context [create lib NotificationModel now ?d s] =>
        destruct (create lib NotificationModel now d s)
          as [s1 [n|e]] eqn:Hc
    end.
    2:{ injection Hrun as <- <-. by rewrite error_is_not_success in Hok. }
    injection Hrun as <- <-. exists n, n. split; [done|]. split.
    { apply (create_then_findByPk lib NotificationModel now _ s s1 n
               has_key_NotificationModel Hc). }
    split; [done|].
    pose proof (create_resolved lib _ _ _ _ _ _ Hc) as (Hrow & Ha & _).
    assert (forall name, name ∈ attribute_names NotificationModel ->
                         forall v, _ !! name = Some v -> n !! name = Some v)
      as Hsupplied
      by (intros name Hin v Hv; eapply create_supplied; [exact Hc|exact Hin|exact Hv]).
    split; [|split].
    + destruct content as [c|].
      * apply Hsupplied; [apply list_elem_of_In; vm_compute; tauto|].
        rewrite lookup_set_prop_ne by done. apply lookup_set_prop_eq.
      * exfalso.
        assert (In ("content", with_allowNull false (column TEXT))
                   (attributes NotificationModel)) as Hin
          by (vm_compute; tauto).
        pose proof (check_attributes_none lib _ _ _ _ _ Ha Hin) as Hcheck.
        unfold check_attribute in Hcheck. rewrite Hrow in Hcheck.
        rewrite lookup_union, restrict_lookup in Hcheck
          by (apply list_elem_of_In; vm_compute; tauto).
        rewrite lookup_set_prop_ne, lookup_set_prop_eq in Hcheck by done.
        assert (defaultValues NotificationModel now
                  (uuidv4 NotificationModel s) !! "content" = None) as Hd
          by reflexivity.
        rewrite Hd in Hcheck. discriminate Hcheck.
    + intros user ->. apply Hsupplied; [apply list_elem_of_In; vm_compute; tauto|].
      apply lookup_set_prop_eq.
    + destruct type as [given|].
      * apply Hsupplied; [apply list_elem_of_In; vm_compute; tauto|].
        rewrite !lookup_set_prop_ne by done. apply lookup_set_prop_eq.
      * apply Hsupplied; [apply list_elem_of_In; vm_compute; tauto|].
        rewrite !lookup_set_prop_ne by done. apply lookup_set_prop_eq.
  - intros userData s s' result Hrun Hok.
    unfold UserService.saveUser, try_catch, await, resolve, return_error in Hrun.
    destruct (create lib UserModel now userData s) as [s1 [user|e]] eqn:Hc.
    2:{ injection Hrun as <- <-. by rewrite error_is_not_success in Hok. }
    injection Hrun as <- <-. exists user, (UserView.toDTO user).
    split; [by eapply create_rows|]. split; [by eapply create_holds_input|].
    split.
    { unfold UserService.findUserByID, try_catch, await, resolve.
      change (user !! "userID") with (user !! primaryKeyAttribute UserModel).
      by rewrite (create_then_findByPk _ _ _ _ _ _ _ has_key_UserModel Hc). }
    split; [apply toDTO_fullName|]. split; [apply toDTO_email|].
    split; [apply toDTO_phoneNumber|].
    split; by apply toDTO_other.
Qed.

(** * What is found of a saved task and of a created notification *)

(** X3.  A task that [saveTask] has saved is found by [findTaskByID] under
    the identifier of the returned task.  The task found has that
    identifier and every value the returned one has for an attribute that
    is neither the key nor a date, and its [SubTasks] are, in some order,
    one for each subtask that was created and for each subtask the store
    already held for that identifier, with the identifier, the title and
    the status of that subtask. *)
Theorem saved_task_is_found :
  forall (lib : Library) (now later : string) (taskData : Object)
         (subTasksData : list Object) (s s' : Store) (result : Object),
    TaskService.saveTask lib now taskData subTasksData s = (s', Resolved result) ->
    prop_is "status" "success" result = true ->
    exists task created found k subs,
      result = Messages.success now
                 (Some (VObj (Database.many "SubTasks" None created task)))
      /\ length created = length subTasksData
      /\ task !! "taskID" = Some (VStr k)
      /\ TaskService.findTaskByID later (task !! "taskID") s'
         = (s', Resolved (Messages.success later (Some (VObj found))))
      /\ found !! "taskID" = Some (VStr k)
      /\ agrees_on (plain_attributes TaskModel) task found
      /\ objects_of (found !! "SubTasks") ≡ₚ subs
      /\ Forall2 (agrees_on ["subTaskID"; "title"; "status"])
           (List.filter (prop_is "taskID" k) (rows SubTaskModel s) ++ created)
           subs.
Proof.
  intros lib now later taskData subTasksData s s' result Hrun Hok.
  destruct (saveTask_then_findTaskByID lib now later taskData subTasksData
              s s' result Hrun Hok)
    as (task & created & found & k & Hresult & Hlen & Hk & _ & Hfind & Hown
        & Hsubs).
  exists task, created, found, k. eexists.
  split; [exact Hresult|]. split; [exact Hlen|]. split; [exact Hk|].
  split; [exact Hfind|]. split; [by apply Hown|]. split.
  { intros name v Hin Hv.
    apply Hown; [..|exact Hv]; intros <-; vm_compute in Hin;
      intuition discriminate. }
  split; [exact Hsubs|].
  apply Forall2_fmap_r, Forall_Forall2_diag, Forall_forall.
  intros c _ name v Hin Hv. rewrite project_lookup.
  - exact Hv.
  - apply list_elem_of_In. vm_compute in Hin |- *. tauto.
Qed.

(** X15.  A notification created through the controller is listed for its
    user.  When [createNotification] answers 201, the listing of the user
    named in the body has afterwards, in some order, what it had before
    and one more notification, which has the identifier, the user, the
    content and the type of the one in the answer; the listing of any other
    user is as before. *)
Theorem created_notification_is_listed :
  forall (lib : Library) (now later : string) (body : Object) (s s' : Store)
         (json : Object),
    NotificationController.createNotification lib now body s
    = (s', Resolved (201, json)) ->
    exists n,
      json !! "message" = Some (VObj n)
      /\ forall userID,
          exists before after,
            NotificationRoutes.getNotificationsForUser later userID s
            = (s, Resolved (200, Messages.success later
                                   (Some (VArr (List.map VObj before)))))
            /\ NotificationRoutes.getNotificationsForUser later userID s'
               = (s', Resolved (200, Messages.success later
                                       (Some (VArr (List.map VObj after)))))
            /\ if prop_is "userID" userID body
               then exists listed,
                      after ≡ₚ listed :: before
                      /\ agrees_on ["notificationID"; "userID"; "content";
                                    "type"] n listed
               else after ≡ₚ before.
Proof.
  intros lib now later body s s' json Hrun.
  destruct (createNotification_then_list lib now later body s s' json Hrun)
    as (n & Hjson & Hlists).
  exists n. split; [exact Hjson|]. intros userID.
  destruct (Hlists userID) as (before & after & Hbefore & Hafter & Hperm).
  exists before, after. split; [exact Hbefore|]. split; [exact Hafter|].
  destruct (prop_is "userID" userID body); [|exact Hperm].
  exists n. split; [exact Hperm|]. by intros name v _ Hv.
Qed.

(** * The endpoints that take an identifier from the path *)

(** Routes of another method are passed over when their parameters can be
    decoded. *)
Lemma route_skips_others {Handler} decode
    (pre rest : list (Route (Handler := Handler))) meth segments :
  Forall (fun r : Route (Handler := Handler) =>
            match match_path (snd (fst r)) segments with
            | None => True
            | Some raw =>
                is_Some (decode_params decode raw)
                /\ handles (fst (fst r)) meth = false
            end) pre ->
  route decode (pre ++ rest) meth segments = route decode rest meth segments.
Proof.
  induction 1 as [|[[m' p] h] pre Hp Hpre IH]; [done|].
  cbn [app route]. cbn [fst snd] in Hp.
  destruct (match_path p segments) as [raw|]; [|exact IH].
  destruct Hp as [[params ->] ->]. exact IH.
Qed.

Lemma app_item_after decode pre m name h post (meth : Method) collection word id :
  App.routers = (pre ++ (m, [Lit collection; Param name], h) :: post)%list ->
  Forall (fun r : Route (Handler := App.Handler) =>
            match match_path (snd (fst r)) [collection; word] with
            | None => True
            | Some raw =>
                is_Some (decode_params decode raw)
                /\ handles (fst (fst r)) meth = false
            end) pre ->
  no_slash collection = true ->
  collection <> "" ->
  no_slash word = true ->
  word <> "" ->
  decode word = Some id ->
  handles m meth = true ->
  meth <> Options ->
  App.app decode (request meth ("/v1/" ++ collection ++ "/" ++ word))
  = App.Invoke h [(name, id)].
Proof.
  intros Hrouters Hpre Hc Hc' Hw Hw' Hid Hm Hmeth.
  apply (app_routes decode meth _ ["v1"; collection; word] [collection; word]);
    [done|by apply segments_of_item| |].
  - unfold mounted. cbn [lower App.URLVersion]. rewrite String.eqb_refl.
    destruct collection; done.
  - cbn [drop_trailing_slash]. apply String.eqb_neq in Hw'. rewrite Hw'.
    rewrite Hrouters, route_skips_others by done. cbn [route match_path].
    rewrite String.eqb_refl, Hw'. cbn [fmap option_fmap option_map decode_params].
    by rewrite Hid, Hm.
Qed.

Ltac compare_literals :=
  repeat match goal with
         | |- context [String.eqb (lower ?a) (lower ?b)] =>
             let v := eval vm_compute in (String.eqb (lower a) (lower b)) in
             match v with
             | true => change (String.eqb (lower a) (lower b)) with true
             | false => change (String.eqb (lower a) (lower b)) with false
             end
         end.

Ltac routes_skip Hw Hid :=
  unfold App.categoryRouter, App.notificationRouter, App.sessionRouter,
    App.tagRouter, App.taskRouter, App.userRouter;
  cbn [app firstn];
  repeat (constructor;
          [cbn [match_path fst snd]; compare_literals; cbn [match_path];
           rewrite ?Hw;
           repeat match goal with
                  | |- context [if ?b then _ else _] => destruct b
                  end;
           cbn [fmap option_fmap option_map decode_params handles];
           rewrite ?Hid;
           first [exact I | split; [by eexists|reflexivity]]|]);
  constructor.

Lemma respond_success ok failed now payload :
  respond ok failed (Messages.success now payload)
  = (ok, Messages.success now payload).
Proof. unfold respond. by rewrite success_is_success. Qed.

Lemma respond_error ok failed now payload :
  respond ok failed (Messages.error now payload)
  = (failed, Messages.error now payload).
Proof. unfold respond. by rewrite error_is_not_success. Qed.

Lemma error_answer status now text s :
  answers_error status s
    (s, Resolved (status, Messages.error now (Some (VStr text)))).
Proof. eexists. split; [reflexivity|apply error_status]. Qed.

(** X21.  [GET /v1/tags/:tagID] and [GET /v1/categories/:categoryID].  For
    a segment [word] that decodes to [id], the request runs [getTagByID],
    or [getCategoryByID], with [id]: also for the words "tagName" and
    "categoryName".  The handler leaves the store as it was; it answers 200
    with the tag, or category, of that identifier, and 400 with an error
    envelope when there is none. *)
Theorem lookups_by_identifier_answer :
  forall (decodeURIComponent : string -> option string) (word id now : string)
         (s : Store),
    no_slash word = true ->
    word <> "" ->
    decodeURIComponent word = Some id ->
    (App.app decodeURIComponent (request Get ("/v1/tags/" ++ word))
     = App.Invoke App.getTagByID [("tagID", id)]
     /\ match findByPk TagModel (Some (VStr id)) s with
        | Some tag =>
            TagController.getTagByID now id s
            = (s, Resolved (200, Messages.success now (Some (VObj tag))))
        | None => answers_error 400 s (TagController.getTagByID now id s)
        end)
    /\ (App.app decodeURIComponent (request Get ("/v1/categories/" ++ word))
        = App.Invoke App.getCategoryByID [("categoryID", id)]
        /\ match findByPk CategoryModel (Some (VStr id)) s with
           | Some category =>
               CategoryController.getCategoryByID now id s
               = (s, Resolved (200, Messages.success now
                                      (Some (VObj category))))
           | None =>
               answers_error 400 s (CategoryController.getCategoryByID now id s)
           end).
Proof.
  intros decode word id now s Hw Hw' Hid. split; split.
  - apply (app_item decode
             (App.categoryRouter ++ App.notificationRouter
              ++ App.sessionRouter)%list
             Get "tagID" App.getTagByID
             (tl App.tagRouter ++ App.taskRouter ++ App.userRouter)%list
             Get "tags" word id);
      [reflexivity|routes_pass|done..].
  - unfold TagController.getTagByID, TagService.findTagByID, try_catch, await,
      resolve, throw, return_error.
    destruct (findByPk TagModel (Some (VStr id)) s) as [tag|].
    + by rewrite respond_success.
    + unfold resolve. cbn [message]. rewrite respond_error. apply error_answer.
  - apply (app_item decode [] Get "categoryID" App.getCategoryByID
             (tl App.categoryRouter ++ App.notificationRouter
              ++ App.sessionRouter ++ App.tagRouter ++ App.taskRouter
              ++ App.userRouter)%list
             Get "categories" word id);
      [reflexivity|constructor|done..].
  - unfold CategoryController.getCategoryByID, CategoryService.findCategoryByID,
      try_catch, await, resolve, throw, return_error.
    destruct (findByPk CategoryModel (Some (VStr id)) s) as [category|].
    + by rewrite respond_success.
    + unfold resolve. cbn [message]. rewrite respond_error. apply error_answer.
Qed.

(** A delete handler over a service of the shape of [delete_by_key]. *)
Lemma delete_handler M now later (id : string)
    (done_ : string -> Object -> Object)
    (missing : string) (service : string -> Promise Object)
    (handler : string -> Promise (nat * Object)) s :
  tableName M <> "Tasks" ->
  (forall t,
      service t
      = try_catch
          (let* found := (fun s => (s, Resolved (findByPk M (Some (VStr id)) s))) in
           match found with
           | None => throw (Error missing)
           | Some found =>
               let* _ := destroy M Database.cascades found in
               resolve (done_ t found)
           end)
          (return_error t)) ->
  (forall t s s' result,
      service t s = (s', Resolved result) ->
      handler t s = (s', Resolved (respond 200 400 result))) ->
  (forall t x, prop_is "status" "success" (done_ t x) = true) ->
  match findByPk M (Some (VStr id)) s with
  | Some found =>
      exists s',
        handler now s = (s', Resolved (200, done_ now found))
        /\ answers_error 400 s' (handler later s')
  | None => answers_error 400 s (handler now s)
  end.
Proof.
  intros HM Hservice Hhandler Hdone.
  pose proof (delete_by_id M now id (done_ now) missing s HM) as H.
  cbn zeta in H. rewrite <- Hservice in H.
  destruct (findByPk M (Some (VStr id)) s) as [found|] eqn:Hfind.
  - destruct H as (s' & Hrun & _ & Hgone). exists s'. split.
    + rewrite (Hhandler _ _ _ _ Hrun). unfold respond. by rewrite Hdone.
    + pose proof (delete_by_id M later id (done_ later) missing s' HM) as H'.
      cbn zeta in H'. rewrite <- Hservice, Hgone in H'.
      rewrite (Hhandler _ _ _ _ H'), respond_error. apply error_answer.
  - rewrite (Hhandler _ _ _ _ H), respond_error. apply error_answer.
Qed.

(** X22.  The [DELETE] endpoints of tags, categories, sessions and users.
    For a segment [word] that decodes to [id], [DELETE /v1/tags/word] runs
    [deleteTag] with [id], whatever the word, and likewise for the other
    three.  The handler answers 200, with the deleted entity (for a user,
    its view), when there is one with that identifier, and the same request
    again is then answered 400; it answers 400, with an error envelope and
    the store as it was, when there is none. *)
Theorem delete_endpoints :
  forall (decodeURIComponent : string -> option string)
         (word id now later : string) (s : Store),
    no_slash word = true ->
    word <> "" ->
    decodeURIComponent word = Some id ->
    (App.app decodeURIComponent (request Delete ("/v1/tags/" ++ word))
     = App.Invoke App.deleteTag [("tagID", id)]
     /\ match findByPk TagModel (Some (VStr id)) s with
        | Some tag =>
            exists s',
              TagController.deleteTag now id s
              = (s', Resolved (200, Messages.success now (Some (VObj tag))))
              /\ answers_error 400 s' (TagController.deleteTag later id s')
        | None => answers_error 400 s (TagController.deleteTag now id s)
        end)
    /\ (App.app decodeURIComponent (request Delete ("/v1/categories/" ++ word))
        = App.Invoke App.deleteCategory [("categoryID", id)]
        /\ match findByPk CategoryModel (Some (VStr id)) s with
           | Some category =>
               exists s',
                 CategoryController.deleteCategory now id s
                 = (s', Resolved (200, Messages.success now
                                         (Some (VObj category))))
                 /\ answers_error 400 s'
                      (CategoryController.deleteCategory later id s')
           | None =>
               answers_error 400 s (CategoryController.deleteCategory now id s)
           end)
    /\ (App.app decodeURIComponent (request Delete ("/v1/sessions/" ++ word))
        = App.Invoke App.deleteSession [("sessionID", id)]
        /\ match findByPk SessionModel (Some (VStr id)) s with
           | Some session =>
               exists s',
                 SessionController.deleteSession now id s
                 = (s', Resolved (200, Messages.success now
                                         (Some (VObj session))))
                 /\ answers_error 400 s'
                      (SessionController.deleteSession later id s')
           | None =>
               answers_error 400 s (SessionController.deleteSession now id s)
           end)
    /\ (App.app decodeURIComponent (request Delete ("/v1/users/" ++ word))
        = App.Invoke App.deleteUser [("userID", id)]
        /\ match findByPk UserModel (Some (VStr id)) s with
           | Some user =>
               exists s',
                 UserController.deleteUser now id s
                 = (s', Resolved (200, Messages.success now
                                         (Some (VObj (UserView.toDTO user)))))
                 /\ answers_error 400 s' (UserController.deleteUser later id s')
           | None => answers_error 400 s (UserController.deleteUser now id s)
           end).
Proof.
  intros decode word id now later s Hw Hw' Hid.
  assert (String.eqb word "" = false) as Hne by by apply String.eqb_neq.
  split; [|split; [|split]]; split.
  - apply (app_item_after decode
             (App.categoryRouter ++ App.notificationRouter
              ++ App.sessionRouter ++ firstn 5 App.tagRouter)%list
             Delete "tagID" App.deleteTag (App.taskRouter ++ App.userRouter)%list
             Delete "tags" word id);
      [reflexivity|routes_skip Hne Hid|done..].
  - apply (delete_handler TagModel now later id
             (fun t x => Messages.success t (Some (VObj x))) "Tag not found"
             (fun t => TagService.deleteTag t (Some (VStr id)))
             (fun t => TagController.deleteTag t id)); [done|reflexivity| |].
    + intros t s0 s1 result Hrun.
      unfold TagController.deleteTag, await, resolve. by rewrite Hrun.
    + intros t x. apply success_is_success.
  - apply (app_item_after decode (firstn 5 App.categoryRouter)
             Delete "categoryID" App.deleteCategory
             (App.notificationRouter ++ App.sessionRouter ++ App.tagRouter
              ++ App.taskRouter ++ App.userRouter)%list
             Delete "categories" word id);
      [reflexivity|routes_skip Hne Hid|done..].
  - apply (delete_handler CategoryModel now later id
             (fun t x => Messages.success t (Some (VObj x)))
             "Category not found"
             (fun t => CategoryService.deleteCategory t (Some (VStr id)))
             (fun t => CategoryController.deleteCategory t id));
      [done|reflexivity| |].
    + intros t s0 s1 result Hrun.
      unfold CategoryController.deleteCategory, await, resolve.
      by rewrite Hrun.
    + intros t x. apply success_is_success.
  - apply (app_item_after decode
             (App.categoryRouter ++ App.notificationRouter
              ++ firstn 4 App.sessionRouter)%list
             Delete "sessionID" App.deleteSession
             (App.tagRouter ++ App.taskRouter ++ App.userRouter)%list
             Delete "sessions" word id);
      [reflexivity|routes_skip Hne Hid|done..].
  - apply (delete_handler SessionModel now later id
             (fun t x => Messages.success t (Some (VObj x)))
             "Session not found"
             (fun t => SessionService.deleteSession t (Some (VStr id)))
             (fun t => SessionController.deleteSession t id));
      [done|reflexivity| |].
    + intros t s0 s1 result Hrun.
      unfold SessionController.deleteSession, try_catch, await, resolve.
      by rewrite Hrun.
    + intros t x. apply success_is_success.
  - apply (app_item_after decode
             (App.categoryRouter ++ App.notificationRouter
              ++ App.sessionRouter ++ App.tagRouter ++ App.taskRouter
              ++ firstn 6 App.userRouter)%list
             Delete "userID" App.deleteUser [] Delete "users" word id);
      [reflexivity|routes_skip Hne Hid|done..].
  - apply (delete_handler UserModel now later id
             (fun t x => Messages.success t (Some (VObj (UserView.toDTO x))))
             "User not found"
             (fun t => UserService.deleteUser t (Some (VStr id)))
             (fun t => UserController.deleteUser t id));
      [done|reflexivity| |].
    + intros t s0 s1 result Hrun.
      unfold UserController.deleteUser, try_catch, await, resolve.
      by rewrite Hrun.
    + intros t x. apply success_is_success.
Qed.

(** * The statements on examples *)

(** The messages of the verify callback are not the ones without the full
    stop. *)
Lemma verify_messages_end_with_a_full_stop :
  Passport.verify example_library "nobody@example.com" "secret" empty_store
  <> Passport.done_false {["message" := VStr "Incorrect email"]}
  /\ Passport.verify example_library "ada@example.com" "wrong" registered_store
     <> Passport.done_false {["message" := VStr "Incorrect password"]}.
Proof.
  split; intros H; vm_compute in H; discriminate H.
Qed.

(** A saved user is not found again through the identifier of the returned
    entity, which has none; found by the key of the stored row, the entity
    has neither the first name nor the password of the input. *)
Lemma user_round_trip_fails :
  let saved := value_of ∅ (snd ada_saved) !! "message" in
  let by_returned_id :=
    value_of ∅ (snd (UserService.findUserByID noon (property "userId" saved)
                       (fst ada_saved))) in
  let by_stored_key :=
    value_of ∅ (snd (UserService.findUserByID noon (Some (VStr "0"))
                       (fst ada_saved))) in
  prop_is "status" "success" (value_of ∅ (snd ada_saved)) = true
  /\ property "userId" saved = None
  /\ by_returned_id !! "status" = Some (VStr "error")
  /\ by_returned_id !! "message" = Some (VStr "User not found")
  /\ by_stored_key !! "status" = Some (VStr "success")
  /\ ada !! "firstName" = Some (VStr "Ada")
  /\ property "firstName" (by_stored_key !! "message") = None
  /\ ada !! "Password" = Some (VStr "correct horse battery")
  /\ property "Password" (by_stored_key !! "message") = None
  /\ property "fullName" (by_stored_key !! "message")
     = Some (VStr "Ada Lovelace").
Proof.
  cbn zeta. repeat split; vm_compute; reflexivity.
Qed.

Lemma verify_outcomes_witness :
  Passport.verify example_library "ada@example.com" "correct horse battery"
    registered_store
  = Passport.done_user found_ada
  /\ found_ada !! "Email" = Some (VStr "ada@example.com").
Proof.
  destruct (verify_outcomes example_library "ada@example.com"
              "correct horse battery" registered_store) as [_ Hfound].
  destruct (Hfound found_ada "$2b$correct horse battery")
    as (_ & Hemail & _ & Hmatch).
  - apply some_eta. vm_compute. reflexivity.
  - vm_compute. reflexivity.
  - split; [|exact Hemail]. apply Hmatch. vm_compute. reflexivity.
Defined.

Lemma searchUsersByName_errors_witness :
  UserService.searchUsersByName noon None (Some "") registered_store
  = (registered_store,
     Resolved (Messages.error noon (Some (VStr "No search parameters provided"))))
  /\ UserService.searchUsersByName noon (Some "Grace") None registered_store
     = (registered_store,
        Resolved (Messages.error noon
                    (Some (VStr "No users found matching the criteria")))).
Proof.
  split.
  - destruct (searchUsersByName_errors noon None (Some "") registered_store)
      as [Hnone _].
    apply Hnone.
    + vm_compute. reflexivity.
    + vm_compute. reflexivity.
  - destruct (searchUsersByName_errors noon (Some "Grace") None registered_store)
      as [_ Hnobody].
    apply Hnobody.
    + left. vm_compute. reflexivity.
    + intros user Hin. apply negb_true_iff. revert user Hin.
      apply forallb_forall. vm_compute. reflexivity.
Defined.

Lemma saveUser_stores_the_supplied_password_witness :
  exists row,
    rows UserModel (fst ada_saved) = (rows UserModel empty_store ++ [row])%list
    /\ row !! "Password" = ada !! "Password"
    /\ ada !! "Password" = Some (VStr "correct horse battery").
Proof.
  destruct (saveUser_stores_the_supplied_password example_library morning ada
              empty_store (fst ada_saved) (value_of ∅ (snd ada_saved)))
    as (row & Hrows & Hpassword).
  - apply (resolved_eta ∅ ada_saved). vm_compute. reflexivity.
  - vm_compute. reflexivity.
  - exists row. split; [exact Hrows|]. split; [exact Hpassword|].
    vm_compute. reflexivity.
Defined.



Lemma notification_read_status_witness :
  read_notification !! "readStatus" = Some (VStr "Read")
  /\ exists s' n r',
      NotificationService.markAsRead example_library noon (Some (VStr "0")) inbox
      = (s', Resolved (Messages.success noon (Some (VObj n))))
      /\ n !! "readStatus" = Some (VStr "Read")
      /\ findByPk NotificationModel (Some (VStr "0")) s' = Some r'
      /\ r' !! "readStatus" = Some (VStr "Read").
Proof.
  split; [vm_compute; reflexivity|].
  destruct (notification_read_status example_library noon)
    as (_ & _ & _ & Hmark).
  apply (Hmark (Some (VStr "0")) inbox read_notification).
  apply some_eta. vm_compute. reflexivity.
Defined.

(** * The further statements on examples *)

Lemma pair_eta {A B} (p : A * B) : p = (fst p, snd p).
Proof. by destruct p. Qed.

Lemma reachable_handlers_witness :
  (exists request params,
      App.app plain_decoder request = App.Invoke App.getUserByID params)
  /\ ~ (exists request params,
           App.app plain_decoder request
           = App.Invoke App.searchUsersByName params).
Proof.
  split.
  - apply (reachable_handlers plain_decoder eq_refl App.getUserByID).
    rewrite list_elem_of_In. cbn. intuition discriminate.
  - intros H.
    apply (reachable_handlers plain_decoder eq_refl App.searchUsersByName) in H.
    apply H. unfold shadowed_handlers. repeat constructor.
Defined.

Lemma lookups_by_identifier_fail_witness :
  App.app plain_decoder (request Get "/v1/users/search")
  = App.Invoke App.getUserByID [("userID", "search")]
  /\ UserController.getUserByID "search" empty_store
     = (empty_store,
        Resolved (500, <["status" := VStr "error"]>
                         {["message" :=
                             VStr "UserService.findUser is not a function"]})).
Proof.
  destruct (lookups_by_identifier_fail plain_decoder "search" "search"
              empty_store) as (_ & _ & Husers).
  - vm_compute. reflexivity.
  - discriminate.
  - reflexivity.
  - exact Husers.
Defined.

Lemma email_is_unique_witness :
  refused noon (fst ada_saved)
    (UserService.saveUser example_library noon augusta (fst ada_saved)).
Proof.
  apply (email_is_unique example_library morning noon ada augusta empty_store
           (fst ada_saved) (value_of ∅ (snd ada_saved))).
  - apply (resolved_eta ∅ ada_saved). vm_compute. reflexivity.
  - vm_compute. reflexivity.
  - vm_compute. reflexivity.
Defined.

Lemma saveUser_validation_witness :
  careless_ada !! "Password" = Some (VStr "short")
  /\ refused morning empty_store
       (UserService.saveUser example_library morning careless_ada empty_store).
Proof.
  split; [vm_compute; reflexivity|].
  destruct (saveUser_validation example_library morning careless_ada empty_store)
    as (_ & _ & _ & _ & Hpassword).
  apply (Hpassword "short").
  - vm_compute. reflexivity.
  - left. vm_compute. lia.
Defined.

Lemma required_attributes_witness :
  untitled !! "title" = None
  /\ refused morning empty_store
       (TaskService.saveTask example_library morning untitled [outline]
          empty_store).
Proof.
  split; [vm_compute; reflexivity|].
  destruct (required_attributes example_library morning empty_store)
    as (Htask & _).
  apply Htask. vm_compute. reflexivity.
Defined.

Lemma updateUser_returns_the_password_witness :
  exists user,
    findByPk UserModel (Some (VStr "0")) (fst ada_updated) = Some user
    /\ property "password" (value_of ∅ (snd ada_updated) !! "message")
       = user !! "Password"
    /\ user !! "Password" = Some (VStr "a new password").
Proof.
  destruct (updateUser_returns_the_password example_library noon
              "0" new_password (fst ada_saved) (fst ada_updated)
              (value_of ∅ (snd ada_updated)))
    as (old & user & _ & Hfound & _ & Hecho & Hstored & _).
  - discriminate.
  - apply (resolved_eta ∅ ada_updated). vm_compute. reflexivity.
  - vm_compute. reflexivity.
  - exists user. split; [exact Hfound|]. split; [exact Hecho|].
    apply Hstored. vm_compute. reflexivity.
Defined.

Lemma session_loses_the_user_witness :
  exists stored,
    findByPk UserModel (Some (VStr "0")) (fst hashed_ada_created) = Some stored
    /\ Passport.verify example_library "ada@example.com" "correct horse battery"
         (fst hashed_ada_created)
       = Passport.done_user stored
    /\ PassportSession.serializeUser stored = None
    /\ PassportSession.deserializeUser (PassportSession.serializeUser stored)
         (fst hashed_ada_created) = None.
Proof.
  destruct (session_loses_the_user example_library morning hashed_ada
              empty_store (fst hashed_ada_created)
              (value_of ∅ (snd hashed_ada_created)))
    as (stored & email & hash & Hfound & Hemail & Hhash & Hverify & Hserial
        & Hnone).
  - apply (resolved_eta ∅ hashed_ada_created). vm_compute. reflexivity.
  - assert (value_of ∅ (snd hashed_ada_created) !! "userID"
            = Some (VStr "0")) as Hk by (vm_compute; reflexivity).
    rewrite Hk in Hfound. unfold PassportSession.deserializeUser in Hfound.
    assert (Passport.verify example_library "ada@example.com"
              "correct horse battery" (fst hashed_ada_created)
            = Passport.done_user
                (default ∅ (findByPk UserModel (Some (VStr "0"))
                                     (fst hashed_ada_created)))) as Hv
      by (vm_compute; reflexivity).
    exists stored. split; [exact Hfound|].
    split; [|split; [exact Hserial|apply Hnone]].
    rewrite Hv, Hfound. reflexivity.
Defined.

Lemma searchUsersByName_matches_witness :
  exists users,
    value_of ∅ (snd ada_searched)
    = Messages.success noon
        (Some (VArr (List.map (fun u => VObj (UserView.toDTO u)) users)))
    /\ users <> []
    /\ forall u, In u users -> u !! "firstName" = Some (VStr "Ada").
Proof.
  destruct (searchUsersByName_matches noon (Some "Ada") None registered_store
              (fst ada_searched) (value_of ∅ (snd ada_searched)))
    as (users & _ & Hresult & Hsome & Hexact).
  - apply (resolved_eta ∅ ada_searched). vm_compute. reflexivity.
  - vm_compute. reflexivity.
  - exists users. split; [exact Hresult|]. split; [exact Hsome|].
    intros u Hu. apply Hexact in Hu as (_ & Hfirst & _).
    apply Hfirst; [reflexivity|discriminate].
Defined.

Lemma deleteTask_deletes_its_notifications_witness :
  List.map (fun n => n !! "notificationID")
    (rows NotificationModel
       (fst (TaskService.deleteTask noon (Some (VStr "T")) reminders_store)))
  = [Some (VStr "N2")].
Proof.
  rewrite (deleteTask_deletes_its_notifications noon "T" reminders_store
             reminded_task).
  - vm_compute. reflexivity.
  - vm_compute. reflexivity.
Defined.

Lemma unknown_subtask_is_ignored_witness :
  rows SubTaskModel (fst nothing_completed) = rows SubTaskModel planned_store
  /\ prop_is "status" "success" (value_of ∅ (snd nothing_completed)) = true.
Proof.
  split; [|vm_compute; reflexivity].
  apply (unknown_subtask_is_ignored example_library noon (Some (VStr "0"))
           completed complete_nothing "9" planned_store (fst nothing_completed)
           (value_of ∅ (snd nothing_completed))).
  - vm_compute. reflexivity.
  - discriminate.
  - intros r Hr. apply negb_true_iff. revert r Hr. apply forallb_forall.
    vm_compute. reflexivity.
  - apply (resolved_eta ∅ nothing_completed). vm_compute. reflexivity.
  - vm_compute. reflexivity.
Defined.

Lemma createNotification_endpoint_witness :
  exists s' json,
    NotificationController.createNotification example_library morning
      (object [("userID", "U")]) empty_store
    = (s', Resolved (400, json)).
Proof.
  destruct (createNotification_endpoint example_library morning
              (object [("userID", "U")]) empty_store)
    as (s' & status & json & Hrun & Hnull & _).
  exists s', json. rewrite Hrun, Hnull; [reflexivity|].
  vm_compute. reflexivity.
Defined.

Lemma lookups_by_identifier_answer_witness :
  App.app plain_decoder (request Get "/v1/tags/tagName")
  = App.Invoke App.getTagByID [("tagID", "tagName")]
  /\ answers_error 400 (fst urgent_saved)
       (TagController.getTagByID noon "tagName" (fst urgent_saved)).
Proof.
  destruct (lookups_by_identifier_answer plain_decoder "tagName" "tagName" noon
              (fst urgent_saved)) as ((Hroute & Hanswer) & _).
  - vm_compute. reflexivity.
  - discriminate.
  - reflexivity.
  - split; [exact Hroute|].
    assert (findByPk TagModel (Some (VStr "tagName")) (fst urgent_saved) = None)
      as Hnone by (vm_compute; reflexivity).
    rewrite Hnone in Hanswer. exact Hanswer.
Defined.

Lemma delete_endpoints_witness :
  App.app plain_decoder (request Delete "/v1/tags/0")
  = App.Invoke App.deleteTag [("tagID", "0")]
  /\ exists s' tag,
      TagController.deleteTag noon "0" (fst urgent_saved)
      = (s', Resolved (200, Messages.success noon (Some (VObj tag))))
      /\ answers_error 400 s' (TagController.deleteTag noon "0" s').
Proof.
  destruct (delete_endpoints plain_decoder "0" "0" noon noon (fst urgent_saved))
    as ((Hroute & Hanswer) & _).
  - vm_compute. reflexivity.
  - discriminate.
  - reflexivity.
  - split; [exact Hroute|].
    rewrite (some_eta ∅ (findByPk TagModel (Some (VStr "0")) (fst urgent_saved)))
      in Hanswer by (vm_compute; reflexivity).
    destruct Hanswer as (s' & Hdeleted & Hagain). eexists s', _.
    split; [exact Hdeleted|exact Hagain].
Defined.

(** For the existing task "T1" and the list of one entry without
    [subTaskID] and without title, no subtask is created, [updateTask]
    answers the error envelope, and the task row has received its update
    all the same. *)
Lemma updateTask_creates_nothing_for_a_refused_entry :
  property "status" (VObj <$> findByPk TaskModel (Some (VStr "T1")) office)
  = Some (VStr "Not Started")
  /\ untitled !! "subTaskID" = None
  /\ value_of ∅ (snd office_refused) !! "status" = Some (VStr "error")
  /\ value_of ∅ (snd office_refused) !! "message"
     = Some (VStr "notNull Violation: SubTasks.title cannot be null")
  /\ length (rows SubTaskModel (fst office_refused))
     = length (rows SubTaskModel office)
  /\ property "status"
       (VObj <$> findByPk TaskModel (Some (VStr "T1")) (fst office_refused))
     = Some (VStr "Completed").
Proof. repeat split; vm_compute; reflexivity. Qed.

Lemma updateTask_effect_witness :
  exists row updated created new1 c,
    findByPk TaskModel (Some (VStr "T1")) (fst office_updated) = Some row
    /\ row !! "status" = Some (VStr "Completed")
    /\ row !! "title" = Some (VStr "write report")
    /\ rows SubTaskModel (fst office_updated) = (updated ++ created)%list
    /\ updated !! 0%nat = Some new1
    /\ new1 !! "status" = Some (VStr "Completed")
    /\ new1 !! "title" = Some (VStr "outline")
    /\ updated !! 1%nat = rows SubTaskModel office !! 1%nat
    /\ created = [c]
    /\ c !! "taskID" = Some (VStr "T1")
    /\ c !! "title" = Some (VStr "new").
Proof.
  destruct (updateTask_effect example_library noon "T1" completed
              [complete_S1; new_subtask] office (fst office_updated)
              (value_of ∅ (snd office_updated)) office_task)
    as ((row & Hfind & _ & Hnew & Hkept) & _ & _
        & updated & created & Hrows & Hupdated & Hcreated).
  - discriminate.
  - apply (some_eta ∅). vm_compute. reflexivity.
  - apply (resolved_eta ∅ office_updated). vm_compute. reflexivity.
  - vm_compute. reflexivity.
  - set (old1 := default ∅ (rows SubTaskModel office !! 0%nat)).
    set (old2 := default ∅ (rows SubTaskModel office !! 1%nat)).
    assert (rows SubTaskModel office !! 0%nat = Some old1) as H1
      by (apply (some_eta ∅); vm_compute; reflexivity).
    assert (rows SubTaskModel office !! 1%nat = Some old2) as H2
      by (apply (some_eta ∅); vm_compute; reflexivity).
    assert (names complete_S1 old1 = true) as Hn1 by (vm_compute; reflexivity).
    assert (names new_subtask old1 = false) as Hn1' by (vm_compute; reflexivity).
    assert (names complete_S1 old2 = false) as Hn2 by (vm_compute; reflexivity).
    assert (names new_subtask old2 = false) as Hn2' by (vm_compute; reflexivity).
    destruct (Forall2_lookup_l _ _ _ _ _ Hupdated H1)
      as (new1 & Hl1 & _ & _ & Hone).
    destruct (Forall2_lookup_l _ _ _ _ _ Hupdated H2)
      as (new2 & Hl2 & _ & Hnone & _).
    destruct (Hone [] complete_S1 [new_subtask] eq_refl Hn1) as [Hs1 Hk1].
    { intros e' [<-|[]]. exact Hn1'. }
    assert (unkeyed [complete_S1; new_subtask] = [new_subtask]) as Hu.
    { unfold unkeyed. cbn [List.filter].
      assert (truthy (complete_S1 !! "subTaskID") = true) as ->
        by (vm_compute; reflexivity).
      assert (truthy (new_subtask !! "subTaskID") = false) as ->
        by (vm_compute; reflexivity).
      reflexivity. }
    rewrite Hu in Hcreated.
    apply Forall2_cons_inv_l in Hcreated
      as (c & rest & [(k & Hk & Hfresh) Hcase] & Hrest & ->).
    apply Forall2_nil_inv_l in Hrest as ->.
    exists row, updated, [c], new1, c.
    split; [exact Hfind|].
    split; [apply Hnew; [do 5 right; left; reflexivity|vm_compute; reflexivity]|].
    split.
    { rewrite Hkept; [vm_compute; reflexivity|discriminate|vm_compute; reflexivity]. }
    split; [exact Hrows|]. split; [exact Hl1|].
    split; [apply Hs1; [do 3 right; left; reflexivity|vm_compute; reflexivity]|].
    split.
    { rewrite Hk1; [vm_compute; reflexivity|discriminate|vm_compute; reflexivity]. }
    split.
    { rewrite Hl2, H2. f_equal. apply Hnone.
      intros e [<-|[<-|[]]]; [exact Hn2|exact Hn2']. }
    split; [reflexivity|].
    destruct Hcase as [(e' & Hin & Hn)|[Howner Hvalues]].
    + exfalso. destruct Hin as [<-|[<-|[]]].
      * apply andb_true_iff in Hn as [_ Hsel].
        assert (entry_selects complete_S1 c = pk_is SubTaskModel "S1" c) as Heq
          by reflexivity.
        rewrite Heq in Hsel. apply prop_is_true in Hsel.
        change (primaryKeyAttribute SubTaskModel) with "subTaskID" in Hsel.
        rewrite Hk in Hsel. injection Hsel as ->.
        assert (In old1 (rows SubTaskModel office)) as Hin1.
        { apply list_elem_of_In. by eapply list_elem_of_lookup_2. }
        specialize (Hfresh old1 Hin1).
        assert (pk_is SubTaskModel "S1" old1 = true) as Htrue
          by (vm_compute; reflexivity).
        rewrite Htrue in Hfresh. discriminate Hfresh.
      * unfold names in Hn.
        assert (truthy (new_subtask !! "subTaskID") = false) as Hf
          by (vm_compute; reflexivity).
        rewrite Hf in Hn. discriminate Hn.
    + split; [exact Howner|].
      apply Hvalues; [left; reflexivity|vm_compute; reflexivity].
Defined.

Lemma create_then_find_witness :
  exists tag found,
    value_of ∅ (snd office_tag_saved)
    = Messages.success morning (Some (VObj tag))
    /\ TagService.findTagByID noon (tag !! "tagID") (fst office_tag_saved)
       = (fst office_tag_saved,
          Resolved (Messages.success noon (Some (VObj found))))
    /\ found !! "name" = Some (VStr "urgent")
    /\ found !! "workspaceID" = Some (VStr "W1").
Proof.
  destruct (create_then_find example_library morning noon) as (Htag & _).
  destruct (Htag urgent office (fst office_tag_saved)
              (value_of ∅ (snd office_tag_saved)))
    as (tag & found & Hresult & Hfind & _ & Hsupplied).
  - apply (resolved_eta ∅ office_tag_saved). vm_compute. reflexivity.
  - vm_compute. reflexivity.
  - exists tag, found. split; [exact Hresult|]. split; [exact Hfind|].
    split; apply Hsupplied; vm_compute; tauto.
Defined.

Lemma saved_task_is_found_witness :
  exists task created found subs,
    value_of ∅ (snd office_planned)
    = Messages.success morning
        (Some (VObj (Database.many "SubTasks" None created task)))
    /\ length created = 2
    /\ TaskService.findTaskByID noon (task !! "taskID") (fst office_planned)
       = (fst office_planned,
          Resolved (Messages.success noon (Some (VObj found))))
    /\ found !! "title" = Some (VStr "write minutes")
    /\ found !! "userID" = Some (VStr "U1")
    /\ objects_of (found !! "SubTasks") ≡ₚ subs
    /\ length subs = 2.
Proof.
  destruct (saved_task_is_found example_library morning noon minutes
              [outline; proofread] office (fst office_planned)
              (value_of ∅ (snd office_planned)))
    as (task & created & found & k & subs & Hresult & Hlen & Hk & Hfind & _
        & Hown & Hperm & Hsubs).
  - apply (resolved_eta ∅ office_planned). vm_compute. reflexivity.
  - vm_compute. reflexivity.
  - exists task, created, found, subs.
    split; [exact Hresult|]. split; [exact Hlen|]. split; [exact Hfind|].
    clear Hfind.
    remember (value_of ∅ (snd office_planned)) as answer eqn:Hanswer in Hresult.
    assert (forall name, name <> "SubTasks" ->
              property name (answer !! "message") = task !! name) as Hname.
    { intros name Hne. rewrite Hresult, success_message. cbn [property].
      apply many_lookup_ne. intros Heq. exact (Hne (eq_sym Heq)). }
    rewrite Hanswer in Hname.
    assert (task !! "title" = Some (VStr "write minutes")) as Htitle
      by (rewrite <- Hname by discriminate; vm_compute; reflexivity).
    assert (task !! "userID" = Some (VStr "U1")) as Huser
      by (rewrite <- Hname by discriminate; vm_compute; reflexivity).
    assert (task !! "taskID" = Some (VStr "0")) as Hid
      by (rewrite <- Hname by discriminate; vm_compute; reflexivity).
    split; [apply Hown; [vm_compute; tauto|exact Htitle]|].
    split; [apply Hown; [vm_compute; tauto|exact Huser]|].
    split; [exact Hperm|].
    rewrite <- (Forall2_length _ _ _ Hsubs), length_app, Hlen.
    rewrite Hk in Hid. injection Hid as ->.
    vm_compute. reflexivity.
Defined.

Lemma created_notification_is_listed_witness :
  exists n before after listed,
    snd (value_of (0, ∅) (snd greeting_posted)) !! "message" = Some (VObj n)
    /\ NotificationRoutes.getNotificationsForUser noon "U1" office
       = (office,
          Resolved (200, Messages.success noon
                           (Some (VArr (List.map VObj before)))))
    /\ NotificationRoutes.getNotificationsForUser noon "U1"
         (fst greeting_posted)
       = (fst greeting_posted,
          Resolved (200, Messages.success noon
                           (Some (VArr (List.map VObj after)))))
    /\ after ≡ₚ listed :: before
    /\ listed !! "content" = n !! "content".
Proof.
  destruct (created_notification_is_listed example_library morning noon
              greeting office (fst greeting_posted)
              (snd (value_of (0, ∅) (snd greeting_posted))))
    as (n & Hjson & Hlists).
  - rewrite (resolved_eta (0, ∅) greeting_posted) at 1
      by (vm_compute; reflexivity).
    rewrite (pair_eta (value_of (0, ∅) (snd greeting_posted))) at 1.
    assert (fst (value_of (0, ∅) (snd greeting_posted)) = 201) as ->
      by (vm_compute; reflexivity).
    reflexivity.
  - destruct (Hlists "U1") as (before & after & Hbefore & Hafter & Hperm).
    assert (prop_is "userID" "U1" greeting = true) as Hmine
      by (vm_compute; reflexivity).
    rewrite Hmine in Hperm. destruct Hperm as (listed & Hperm & Hsame).
    exists n, before, after, listed.
    split; [exact Hjson|]. split; [exact Hbefore|]. split; [exact Hafter|].
    split; [exact Hperm|].
    assert (n !! "content" = Some (VStr "hello")) as Hcontent.
    { assert (property "content"
                (snd (value_of (0, ∅) (snd greeting_posted)) !! "message")
              = Some (VStr "hello")) as H by (vm_compute; reflexivity).
      by rewrite Hjson in H. }
    rewrite Hcontent. apply Hsame; [vm_compute; tauto|exact Hcontent].
Defined.

Lemma update_then_find_witness :
  exists tag,
    value_of ∅ (snd office_tag_renamed)
    = Messages.success noon (Some (VObj tag))
    /\ TagService.findTagByID noon (Some (VStr "G1")) (fst office_tag_renamed)
       = (fst office_tag_renamed,
          Resolved (Messages.success noon (Some (VObj tag))))
    /\ tag !! "tagID" = Some (VStr "G1")
    /\ tag !! "name" = Some (VStr "important")
    /\ tag !! "workspaceID" = Some (VStr "W1").
Proof.
  destruct (update_then_find example_library noon noon "G1"
              important office (fst office_tag_renamed)
              (value_of ∅ (snd office_tag_renamed)) ltac:(discriminate))
    as (Htag & _).
  destruct Htag as (_ & Hok).
  - apply (resolved_eta ∅ office_tag_renamed). vm_compute. reflexivity.
  - destruct Hok as (old & tag & Hold & Hresult & Hfind & Hkey & Hname & Hkept).
    + vm_compute. reflexivity.
    + exists tag. split; [exact Hresult|]. split; [exact Hfind|].
      split; [exact Hkey|]. split.
      * apply Hname; [|vm_compute; reflexivity]. right. left. reflexivity.
      * rewrite Hkept; [|discriminate|vm_compute; reflexivity].
        assert (findByPk TagModel (Some (VStr "G1")) office
                = Some (default ∅ (findByPk TagModel (Some (VStr "G1")) office)))
          as Hoffice by (apply (some_eta ∅); vm_compute; reflexivity).
        rewrite Hoffice in Hold. injection Hold as <-.
        vm_compute. reflexivity.
Defined.

Lemma updateTask_is_not_atomic_witness :
  exists s' row,
    TaskService.updateTask example_library noon (Some (VStr "T1")) completed
      [untitled] office
    = (s', Resolved (Messages.error noon
                       (Some (VStr (message (error_of
                                               (snd office_entry_refused)))))))
    /\ message (error_of (snd office_entry_refused))
       = "notNull Violation: SubTasks.title cannot be null"
    /\ findByPk TaskModel (Some (VStr "T1")) office = Some office_task
    /\ office_task !! "status" = Some (VStr "Not Started")
    /\ findByPk TaskModel (Some (VStr "T1")) s' = Some row
    /\ row !! "status" = Some (VStr "Completed").
Proof.
  destruct (updateTask_is_not_atomic example_library noon "T1"
              completed untitled office
              (fst office_task_completed) (fst office_entry_refused)
              office_task
              (value_of ∅ (snd office_task_completed))
              (error_of (snd office_entry_refused)))
    as (s' & row & Hrun & Hfind & _ & Hnew).
  - discriminate.
  - apply some_eta. vm_compute. reflexivity.
  - apply (resolved_eta ∅ office_task_completed). vm_compute. reflexivity.
  - apply (rejected_eta office_entry_refused). vm_compute. reflexivity.
  - exists s', row. split; [exact Hrun|]. split; [vm_compute; reflexivity|].
    split; [apply (some_eta ∅); vm_compute; reflexivity|].
    split; [vm_compute; reflexivity|].
    split; [exact Hfind|]. apply Hnew; [|vm_compute; reflexivity].
    do 5 right. left. reflexivity.
Defined.
